(** * Sky Fury: the combat simulation core, embedded and verified

    The development follows the Python sources class by class:
    [aircraft.py] (module [Aircraft]), [weapons.py] ([Bullet],
    [HomingMissile], [PlasmaLaser], [WeaponSystem]), [enemies.py]
    ([EnemyProjectile], [Enemy], [Boss], [EnemyManager]), [levels.py]
    ([LevelManager]) and the simulation updates of a frame of
    [sky_fury.py] ([SkyFury]).

    Modelling conventions.
    - Python numbers are exact rationals [Q]; results are compared with
      [==] (equality of rationals), flags and whole states with [=].
    - [math.sin], [math.cos], [math.atan2], [math.radians],
      [math.degrees] and the square root behind [Vector2.length] are the
      operations of the class [PyMath]; the program is verified for every
      implementation of them.
    - A value returned by [random.random()] is an explicit argument.
    - Every method takes the object it mutates as its last argument and
      returns the new object, next to the Python return value if any.
    - An exception ([Vector2.normalize] on the zero vector) is the result
      [None] of a method that can raise it. *)

From Stdlib Require Import QArith Qabs Qround Lqa Lia List Bool ZArith.
Import ListNotations.
Open Scope Q_scope.

(** ** Python built-ins on numbers *)

Module Py.

(** [a < b] and [a <= b] as Python evaluates them. *)
Definition ltb (a b : Q) : bool := negb (Qle_bool b a).
Definition leb (a b : Q) : bool := Qle_bool a b.
Definition eqb (a b : Q) : bool := Qeq_bool a b.

(** [max(a, b)] keeps [a] unless [b] is strictly greater; [min(a, b)]
    keeps [a] unless [b] is strictly smaller. *)
Definition max (a b : Q) : Q := if ltb a b then b else a.
Definition min (a b : Q) : Q := if ltb b a then b else a.

(** [abs(a)]. *)
Definition abs (a : Q) : Q := Qabs a.

(** [a % m] on floats, for a positive modulus. *)
Definition fmod (a m : Q) : Q := a - m * inject_Z (Qfloor (a / m)).

End Py.

Infix "<?" := Py.ltb (at level 70, no associativity) : Q_scope.
Infix "<=?" := Py.leb (at level 70, no associativity) : Q_scope.

(** ** [pygame.math.Vector2] *)

Record Vector2 : Type := vec2 { x : Q; y : Q }.

Definition vadd (u v : Vector2) : Vector2 := vec2 (x u + x v) (y u + y v).
Definition vsub (u v : Vector2) : Vector2 := vec2 (x u - x v) (y u - y v).
Definition vscale (u : Vector2) (k : Q) : Vector2 := vec2 (x u * k) (y u * k).
Definition set_x (v : Q) (u : Vector2) : Vector2 := vec2 v (y u).
Definition set_y (v : Q) (u : Vector2) : Vector2 := vec2 (x u) v.

(** ** The [math] module and the square root, as an interface *)

Class PyMath : Type := {
  sin : Q -> Q;
  cos : Q -> Q;
  atan2 : Q -> Q -> Q;
  radians : Q -> Q;
  degrees : Q -> Q;
  sqrt : Q -> Q
}.

Section VectorLength.
Context `{PyMath}.

(** [v.length()]. *)
Definition vlength (v : Vector2) : Q := sqrt (x v * x v + y v * y v).

(** [v.normalize()]: raises [ValueError] on a vector of length zero. *)
Definition vnormalize (v : Vector2) : option Vector2 :=
  let l := vlength v in
  if Py.eqb l 0 then None else Some (vec2 (x v / l) (y v / l)).
End VectorLength.

(** ** [classes/aircraft.py] *)

Module Aircraft.

(** Module-level constants of [aircraft.py]. *)
Definition GRAVITY : Q := 0.3.
Definition GROUND_LEVEL : Q := 500.
Definition RUNWAY_Y : Q := GROUND_LEVEL.
Definition RUNWAY_X_START : Q := 50.
Definition RUNWAY_X_END : Q := 300.
Definition MIN_TAKEOFF_SPEED : Q := 3.5.
Definition MIN_TAKEOFF_ANGLE : Q := 5.0.
Definition MAX_LANDING_SPEED : Q := 3.0.
Definition MAX_LANDING_ANGLE : Q := 15.0.

(** The three entries of [self.sprites]; [current_sprite] is one of them. *)
Inductive Sprite : Type := sprite_gear_up | sprite_gear_down | sprite_damaged.

(** The attributes of an [Aircraft] (the sprite images and the sprite
    dimensions, which only [draw] and [get_rect] read, are left out).
    The reference [self.weapon_system] is not a field: the methods that
    follow it ([update], [take_shield_hit]) take and return the
    [shield_energy] of the linked weapon system, [None] while no weapon
    system is assigned. *)
Record t : Type := mk {
  position : Vector2;
  velocity : Vector2;
  angle : Q;
  on_ground : bool;
  has_taken_off : bool;
  thrust : Q;
  flaps : Q;
  gear_down : bool;
  brakes_active : bool;
  spoilers_active : bool;
  health : Q;
  max_health : Q;
  fuel : Q;
  max_fuel : Q;
  shield_active : bool;
  shield_duration : Q;
  score : Q;
  lives : Z;
  invulnerable : bool;
  invulnerable_timer : Q;
  max_speed : Q;
  acceleration_rate : Q;
  drag : Q;
  lift_factor : Q;
  current_sprite : Sprite
}.

Definition with_position (v : Vector2) (r : t) : t :=
  mk v (velocity r) (angle r) (on_ground r) (has_taken_off r) (thrust r)
     (flaps r) (gear_down r) (brakes_active r) (spoilers_active r)
     (health r) (max_health r) (fuel r) (max_fuel r) (shield_active r)
     (shield_duration r) (score r) (lives r) (invulnerable r)
     (invulnerable_timer r) (max_speed r) (acceleration_rate r) (drag r)
     (lift_factor r) (current_sprite r).
Definition with_velocity (v : Vector2) (r : t) : t :=
  mk (position r) v (angle r) (on_ground r) (has_taken_off r) (thrust r)
     (flaps r) (gear_down r) (brakes_active r) (spoilers_active r)
     (health r) (max_health r) (fuel r) (max_fuel r) (shield_active r)
     (shield_duration r) (score r) (lives r) (invulnerable r)
     (invulnerable_timer r) (max_speed r) (acceleration_rate r) (drag r)
     (lift_factor r) (current_sprite r).
Definition with_angle (v : Q) (r : t) : t :=
  mk (position r) (velocity r) v (on_ground r) (has_taken_off r) (thrust r)
     (flaps r) (gear_down r) (brakes_active r) (spoilers_active r)
     (health r) (max_health r) (fuel r) (max_fuel r) (shield_active r)
     (shield_duration r) (score r) (lives r) (invulnerable r)
     (invulnerable_timer r) (max_speed r) (acceleration_rate r) (drag r)
     (lift_factor r) (current_sprite r).
Definition with_on_ground (v : bool) (r : t) : t :=
  mk (position r) (velocity r) (angle r) v (has_taken_off r) (thrust r)
     (flaps r) (gear_down r) (brakes_active r) (spoilers_active r)
     (health r) (max_health r) (fuel r) (max_fuel r) (shield_active r)
     (shield_duration r) (score r) (lives r) (invulnerable r)
     (invulnerable_timer r) (max_speed r) (acceleration_rate r) (drag r)
     (lift_factor r) (current_sprite r).
Definition with_has_taken_off (v : bool) (r : t) : t :=
  mk (position r) (velocity r) (angle r) (on_ground r) v (thrust r)
     (flaps r) (gear_down r) (brakes_active r) (spoilers_active r)
     (health r) (max_health r) (fuel r) (max_fuel r) (shield_active r)
     (shield_duration r) (score r) (lives r) (invulnerable r)
     (invulnerable_timer r) (max_speed r) (acceleration_rate r) (drag r)
     (lift_factor r) (current_sprite r).
Definition with_thrust (v : Q) (r : t) : t :=
  mk (position r) (velocity r) (angle r) (on_ground r) (has_taken_off r) v
     (flaps r) (gear_down r) (brakes_active r) (spoilers_active r)
     (health r) (max_health r) (fuel r) (max_fuel r) (shield_active r)
     (shield_duration r) (score r) (lives r) (invulnerable r)
     (invulnerable_timer r) (max_speed r) (acceleration_rate r) (drag r)
     (lift_factor r) (current_sprite r).
Definition with_gear_down (v : bool) (r : t) : t :=
  mk (position r) (velocity r) (angle r) (on_ground r) (has_taken_off r)
     (thrust r) (flaps r) v (brakes_active r) (spoilers_active r)
     (health r) (max_health r) (fuel r) (max_fuel r) (shield_active r)
     (shield_duration r) (score r) (lives r) (invulnerable r)
     (invulnerable_timer r) (max_speed r) (acceleration_rate r) (drag r)
     (lift_factor r) (current_sprite r).
Definition with_health (v : Q) (r : t) : t :=
  mk (position r) (velocity r) (angle r) (on_ground r) (has_taken_off r)
     (thrust r) (flaps r) (gear_down r) (brakes_active r)
     (spoilers_active r) v (max_health r) (fuel r) (max_fuel r)
     (shield_active r) (shield_duration r) (score r) (lives r)
     (invulnerable r) (invulnerable_timer r) (max_speed r)
     (acceleration_rate r) (drag r) (lift_factor r) (current_sprite r).
Definition with_fuel (v : Q) (r : t) : t :=
  mk (position r) (velocity r) (angle r) (on_ground r) (has_taken_off r)
     (thrust r) (flaps r) (gear_down r) (brakes_active r)
     (spoilers_active r) (health r) (max_health r) v (max_fuel r)
     (shield_active r) (shield_duration r) (score r) (lives r)
     (invulnerable r) (invulnerable_timer r) (max_speed r)
     (acceleration_rate r) (drag r) (lift_factor r) (current_sprite r).
Definition with_shield_active (v : bool) (r : t) : t :=
  mk (position r) (velocity r) (angle r) (on_ground r) (has_taken_off r)
     (thrust r) (flaps r) (gear_down r) (brakes_active r)
     (spoilers_active r) (health r) (max_health r) (fuel r) (max_fuel r) v
     (shield_duration r) (score r) (lives r) (invulnerable r)
     (invulnerable_timer r) (max_speed r) (acceleration_rate r) (drag r)
     (lift_factor r) (current_sprite r).
Definition with_shield_duration (v : Q) (r : t) : t :=
  mk (position r) (velocity r) (angle r) (on_ground r) (has_taken_off r)
     (thrust r) (flaps r) (gear_down r) (brakes_active r)
     (spoilers_active r) (health r) (max_health r) (fuel r) (max_fuel r)
     (shield_active r) v (score r) (lives r) (invulnerable r)
     (invulnerable_timer r) (max_speed r) (acceleration_rate r) (drag r)
     (lift_factor r) (current_sprite r).
Definition with_score (v : Q) (r : t) : t :=
  mk (position r) (velocity r) (angle r) (on_ground r) (has_taken_off r)
     (thrust r) (flaps r) (gear_down r) (brakes_active r)
     (spoilers_active r) (health r) (max_health r) (fuel r) (max_fuel r)
     (shield_active r) (shield_duration r) v (lives r) (invulnerable r)
     (invulnerable_timer r) (max_speed r) (acceleration_rate r) (drag r)
     (lift_factor r) (current_sprite r).
Definition with_lives (v : Z) (r : t) : t :=
  mk (position r) (velocity r) (angle r) (on_ground r) (has_taken_off r)
     (thrust r) (flaps r) (gear_down r) (brakes_active r)
     (spoilers_active r) (health r) (max_health r) (fuel r) (max_fuel r)
     (shield_active r) (shield_duration r) (score r) v (invulnerable r)
     (invulnerable_timer r) (max_speed r) (acceleration_rate r) (drag r)
     (lift_factor r) (current_sprite r).
Definition with_invulnerable (v : bool) (r : t) : t :=
  mk (position r) (velocity r) (angle r) (on_ground r) (has_taken_off r)
     (thrust r) (flaps r) (gear_down r) (brakes_active r)
     (spoilers_active r) (health r) (max_health r) (fuel r) (max_fuel r)
     (shield_active r) (shield_duration r) (score r) (lives r) v
     (invulnerable_timer r) (max_speed r) (acceleration_rate r) (drag r)
     (lift_factor r) (current_sprite r).
Definition with_invulnerable_timer (v : Q) (r : t) : t :=
  mk (position r) (velocity r) (angle r) (on_ground r) (has_taken_off r)
     (thrust r) (flaps r) (gear_down r) (brakes_active r)
     (spoilers_active r) (health r) (max_health r) (fuel r) (max_fuel r)
     (shield_active r) (shield_duration r) (score r) (lives r)
     (invulnerable r) v (max_speed r) (acceleration_rate r) (drag r)
     (lift_factor r) (current_sprite r).
Definition with_current_sprite (v : Sprite) (r : t) : t :=
  mk (position r) (velocity r) (angle r) (on_ground r) (has_taken_off r)
     (thrust r) (flaps r) (gear_down r) (brakes_active r)
     (spoilers_active r) (health r) (max_health r) (fuel r) (max_fuel r)
     (shield_active r) (shield_duration r) (score r) (lives r)
     (invulnerable r) (invulnerable_timer r) (max_speed r)
     (acceleration_rate r) (drag r) (lift_factor r) v.

(** [Aircraft.__init__]. *)
Definition init : t :=
  {| position := vec2 100 GROUND_LEVEL;
     velocity := vec2 0 0;
     angle := 0;
     on_ground := true;
     has_taken_off := false;
     thrust := 0;
     flaps := 0;
     gear_down := true;
     brakes_active := false;
     spoilers_active := false;
     health := 100;
     max_health := 100;
     fuel := 100;
     max_fuel := 100;
     shield_active := false;
     shield_duration := 0;
     score := 0;
     lives := 3%Z;
     invulnerable := false;
     invulnerable_timer := 0;
     max_speed := 10.0;
     acceleration_rate := 0.25;
     drag := 0.97;
     lift_factor := 0.08;
     current_sprite := sprite_gear_down |}.

(** [_update_ground_physics] up to the pitch clamp: everything before
    the takeoff check. *)
Definition ground_roll (dt : Q) (a : t) : t :=
  (* apply thrust for acceleration *)
  let vx := x (velocity a) in
  let vx := if 0 <? thrust a
            then vx + thrust a * acceleration_rate a * dt else vx in
  (* braking, or ground friction *)
  let vx := if brakes_active a then vx * 0.95 else vx * drag a in
  (* limit speed on ground *)
  let vx := Py.min vx (max_speed a) in
  let a := with_velocity (set_x vx (velocity a)) a in
  (* update position *)
  let a := with_position (set_x (x (position a) + x (velocity a)) (position a)) a in
  (* clamp ground pitch to [0, 25] *)
  with_angle (Py.max 0 (Py.min 25 (angle a))) a.

(** [_update_ground_physics]. *)
Definition _update_ground_physics (dt : Q) (a : t) : t :=
  let a := ground_roll dt a in
  (* natural takeoff *)
  if (240 <=? x (position a)) && (MIN_TAKEOFF_SPEED <=? x (velocity a))
     && (15 <=? angle a)
  then
    let a := with_on_ground false a in
    let a := with_has_taken_off true a in
    let a := with_gear_down false a in
    with_velocity (set_y (-2.2) (velocity a)) a
  else a.

(** [land] and [crash]. *)
Definition land (a : t) : t :=
  let a := with_on_ground true a in
  let a := with_velocity (set_y 0 (velocity a)) a in
  let a := with_position (set_y GROUND_LEVEL (position a)) a in
  with_gear_down true a.

Definition crash (a : t) : t := with_health 0 a.

(** [_check_landing]. *)
Definition _check_landing (a : t) : t :=
  if (RUNWAY_X_START <=? x (position a)) && (x (position a) <=? RUNWAY_X_END)
  then
    if (Py.abs (y (velocity a)) <=? MAX_LANDING_SPEED)
       && (Py.abs (angle a) <=? MAX_LANDING_ANGLE)
    then land a
    else crash a
  else crash a.

(** The four stages of [update] around the physics step. *)
Definition update_invulnerability (dt : Q) (a : t) : t :=
  if invulnerable a then
    let a := with_invulnerable_timer (invulnerable_timer a - dt) a in
    if invulnerable_timer a <=? 0 then with_invulnerable false a else a
  else a.

Definition update_shield (dt : Q) (a : t) (weapon_system : option Q)
  : t * option Q :=
  if shield_active a then
    let a := with_shield_duration (shield_duration a - dt) a in
    (* drain energy while active *)
    let weapon_system :=
      match weapon_system with
      | Some shield_energy =>
          let shield_energy := shield_energy - 3 * dt in
          Some (if shield_energy <? 0 then 0 else shield_energy)
      | None => None
      end in
    (* turn off if depleted or expired *)
    if (shield_duration a <=? 0)
       || match weapon_system with
          | Some shield_energy => shield_energy <=? 0
          | None => false
          end
    then (with_shield_duration 0 (with_shield_active false a), weapon_system)
    else (a, weapon_system)
  else (a, weapon_system).

Definition update_fuel (dt : Q) (a : t) : t :=
  if 0 <? thrust a then
    let a := with_fuel (Py.max 0 (fuel a - thrust a * 0.005 * dt)) a in
    if fuel a <=? 0 then with_thrust 0 a else a
  else a.

Definition choose_sprite (a : t) : t :=
  if health a <? 30 then with_current_sprite sprite_damaged a
  else if gear_down a then with_current_sprite sprite_gear_down a
  else with_current_sprite sprite_gear_up a.

Section Air.
Context `{PyMath}.

(** [_update_air_physics] up to the vertical clamp: everything before
    the landing check. *)
Definition air_motion (dt : Q) (a : t) : t :=
  let vx := x (velocity a) in
  let vy := y (velocity a) in
  (* thrust affects horizontal speed *)
  let vx := if (0 <? thrust a) && (0 <? fuel a)
            then vx + thrust a * acceleration_rate a * 0.5 * dt else vx in
  (* angle affects vertical speed *)
  let lift := sin (radians (angle a)) * lift_factor a * vx in
  let vy := vy - lift in
  (* gravity *)
  let vy := vy + GRAVITY * dt in
  (* drag *)
  let vx := vx * (if negb (spoilers_active a) then drag a else 0.96) in
  let vy := vy * 0.99 in
  (* flaps increase lift and drag *)
  let '(vx, vy) := if 0 <? flaps a
                   then (vx * 0.98, vy - flaps a * 0.02) else (vx, vy) in
  (* spoilers reduce lift *)
  let vy := if spoilers_active a then vy + 0.1 else vy in
  (* limit speeds *)
  let vx := Py.min vx (max_speed a) in
  let vy := Py.max (-5) (Py.min 5 vy) in
  let a := with_velocity (vec2 vx vy) a in
  (* update position *)
  let a := with_position (vadd (position a) (velocity a)) a in
  (* clamp airborne pitch to [-10, 30] *)
  let a := with_angle (Py.max (-10) (Py.min 30 (angle a))) a in
  (* horizontal band *)
  let px := x (position a) in
  let px := if has_taken_off a
            then Py.max 50 (Py.min 250 px)
            else Py.max 20 (Py.min 780 px) in
  let a := with_position (set_x px (position a)) a in
  (* vertical constraints *)
  with_position (set_y (Py.max 20 (Py.min 580 (y (position a)))) (position a)) a.

(** [_update_air_physics]. *)
Definition _update_air_physics (dt : Q) (a : t) : t :=
  let a := air_motion dt a in
  if GROUND_LEVEL <=? y (position a) then _check_landing a else a.

(** [update]. *)
Definition update (dt : Q) (a : t) (weapon_system : option Q)
  : t * option Q :=
  let a := update_invulnerability dt a in
  let '(a, weapon_system) := update_shield dt a weapon_system in
  let a := if on_ground a
           then _update_ground_physics dt a
           else _update_air_physics dt a in
  let a := update_fuel dt a in
  let a := choose_sprite a in
  (a, weapon_system).
End Air.

(** [take_damage]: the returned flag is Python's [self.health <= 0]. *)
Definition take_damage (amount : Q) (a : t) : bool * t :=
  if invulnerable a then (false, a)
  else
    let a := with_health (health a - amount) a in
    let a := if health a <? 0 then with_health 0 a else a in
    let a := with_invulnerable true a in
    let a := with_invulnerable_timer 0.2 a in
    (health a <=? 0, a).

(** [take_shield_hit]. *)
Definition take_shield_hit (energy_cost : Q) (a : t)
  (weapon_system : option Q) : t * option Q :=
  match weapon_system with
  | Some shield_energy =>
      if negb (shield_active a) then (a, weapon_system)
      else
        let shield_energy := shield_energy - energy_cost in
        let shield_energy := if shield_energy <? 0 then 0 else shield_energy in
        if shield_energy <=? 0
        then (with_shield_duration 0 (with_shield_active false a),
              Some shield_energy)
        else (a, Some shield_energy)
  | None => (a, weapon_system)
  end.

Definition heal (amount : Q) (a : t) : t :=
  with_health (Py.min (max_health a) (health a + amount)) a.

Definition add_fuel (amount : Q) (a : t) : t :=
  with_fuel (Py.min (max_fuel a) (fuel a + amount)) a.

Definition activate_shield (duration : Q) (a : t) : t :=
  with_shield_duration duration (with_shield_active true a).

Definition add_score (points : Q) (a : t) : t :=
  with_score (score a + points) a.

(** [lose_life]. *)
Definition lose_life (a : t) : t :=
  let a := with_lives (lives a - 1)%Z a in
  if (0 <? lives a)%Z then
    let a := with_health (max_health a) a in
    let a := with_position (vec2 100 GROUND_LEVEL) a in
    let a := with_velocity (vec2 0 0) a in
    let a := with_angle 0 a in
    let a := with_on_ground true a in
    let a := with_has_taken_off false a in
    let a := with_gear_down true a in
    let a := with_thrust 0 a in
    let a := with_invulnerable true a in
    let a := with_invulnerable_timer 2.0 a in
    with_current_sprite sprite_gear_down a
  else a.

End Aircraft.

(** ** [classes/weapons.py] *)

(** Enemies and bosses are Python objects that a missile refers to through
    its [target] attribute.  A reference is the identity of the object; the
    missile reads two attributes through it. *)
Definition Ref : Type := nat.

Record Target : Type := {
  target_position : Vector2;
  target_active : bool
}.

(** The objects a reference can denote, as they are when a method runs. *)
Definition Heap : Type := Ref -> Target.

(** Whether a point has left the play area (the same test in every
    projectile class). *)
Definition off_screen (p : Vector2) : bool :=
  (x p <? -50) || (850 <? x p) || (y p <? -50) || (650 <? y p).

(** [int(q)]: truncation toward zero. *)
Definition py_int (q : Q) : Z := if q <? 0 then Qceiling q else Qfloor q.

Module Bullet.

Record t : Type := mk {
  position : Vector2;
  angle : Q;
  speed : Q;
  damage : Q;
  active : bool;
  velocity : Vector2
}.

Definition with_position (v : Vector2) (r : t) : t :=
  mk v (angle r) (speed r) (damage r) (active r) (velocity r).
Definition with_active (v : bool) (r : t) : t :=
  mk (position r) (angle r) (speed r) (damage r) v (velocity r).

Section Ops.
Context `{PyMath}.

(** [Bullet.__init__]; every caller leaves [speed] at its default 15. *)
Definition init (position : Vector2) (direction_angle : Q) (speed : Q) : t :=
  let rad := radians direction_angle in
  {| position := position;
     angle := direction_angle;
     speed := speed;
     damage := 15;
     active := true;
     velocity := vec2 (cos rad * speed) (- sin rad * speed) |}.
End Ops.

Definition update (dt : Q) (b : t) : t :=
  let b := with_position (vadd (position b) (vscale (vscale (velocity b) dt) 60)) b in
  if off_screen (position b) then with_active false b else b.

End Bullet.

Module HomingMissile.

Record t : Type := mk {
  position : Vector2;
  velocity : Vector2;
  angle : Q;
  target : option Ref;
  damage : Q;
  active : bool;
  lifetime : Q;
  turn_rate : Q
}.

Definition with_position (v : Vector2) (r : t) : t :=
  mk v (velocity r) (angle r) (target r) (damage r) (active r) (lifetime r)
     (turn_rate r).
Definition with_velocity (v : Vector2) (r : t) : t :=
  mk (position r) v (angle r) (target r) (damage r) (active r) (lifetime r)
     (turn_rate r).
Definition with_angle (v : Q) (r : t) : t :=
  mk (position r) (velocity r) v (target r) (damage r) (active r)
     (lifetime r) (turn_rate r).
Definition with_target (v : option Ref) (r : t) : t :=
  mk (position r) (velocity r) (angle r) v (damage r) (active r)
     (lifetime r) (turn_rate r).
Definition with_active (v : bool) (r : t) : t :=
  mk (position r) (velocity r) (angle r) (target r) (damage r) v
     (lifetime r) (turn_rate r).
Definition with_lifetime (v : Q) (r : t) : t :=
  mk (position r) (velocity r) (angle r) (target r) (damage r) (active r) v
     (turn_rate r).

Definition init (position : Vector2) : t :=
  {| position := position;
     velocity := vec2 10 0;
     angle := 0;
     target := None;
     damage := 40;
     active := true;
     lifetime := 6.0;
     turn_rate := 3.0 |}.

(** The two [while] loops that bring [angle_diff] into [-180, 180]; the
    recursion is on a number of iterations that is always enough (see
    [normalize_angle_spec]). *)
Fixpoint wrap_down (n : nat) (angle_diff : Q) : Q :=
  match n with
  | O => angle_diff
  | S n => if 180 <? angle_diff then wrap_down n (angle_diff - 360)
           else angle_diff
  end.

Fixpoint wrap_up (n : nat) (angle_diff : Q) : Q :=
  match n with
  | O => angle_diff
  | S n => if angle_diff <? -180 then wrap_up n (angle_diff + 360)
           else angle_diff
  end.

Definition turns (angle_diff : Q) : nat :=
  Z.to_nat (Qceiling (Qabs angle_diff / 360)).

Definition normalize_angle (angle_diff : Q) : Q :=
  let angle_diff := wrap_down (turns angle_diff) angle_diff in
  wrap_up (turns angle_diff) angle_diff.

Section Ops.
Context `{PyMath}.

(** The loop of [_find_nearest_enemy]; [min_dist = None] is
    [float('inf')]. *)
Fixpoint nearest_loop (heap : Heap) (self_position : Vector2)
  (enemies : list Ref) (nearest : option Ref) (min_dist : option Q)
  : option Ref :=
  match enemies with
  | [] => nearest
  | enemy :: rest =>
      if target_active (heap enemy) then
        let dist := vlength (vsub (target_position (heap enemy)) self_position) in
        if match min_dist with
           | None => true
           | Some d => dist <? d
           end
        then nearest_loop heap self_position rest (Some enemy) (Some dist)
        else nearest_loop heap self_position rest nearest min_dist
      else nearest_loop heap self_position rest nearest min_dist
  end.

Definition _find_nearest_enemy (heap : Heap) (enemies : list Ref) (m : t)
  : option Ref :=
  nearest_loop heap (position m) enemies None None.

(** [self.target and self.target.active]. *)
Definition has_live_target (heap : Heap) (m : t) : bool :=
  match target m with
  | Some r => target_active (heap r)
  | None => false
  end.

(** The steering block of [update]: "home in on target". *)
Definition steer (heap : Heap) (m : t) : t :=
  match target m with
  | Some r =>
      if target_active (heap r) then
        let target_dir := vsub (target_position (heap r)) (position m) in
        if 0 <? vlength target_dir then
          let target_angle := degrees (atan2 (- y target_dir) (x target_dir)) in
          let angle_diff := normalize_angle (target_angle - angle m) in
          if Py.abs angle_diff <? turn_rate m
          then with_angle target_angle m
          else with_angle (angle m + (if 0 <? angle_diff
                                     then turn_rate m
                                     else - turn_rate m)) m
        else m
      else m
  | None => m
  end.

(** [update]. *)
Definition update (dt : Q) (heap : Heap) (enemies : list Ref) (m : t) : t :=
  let m := with_lifetime (lifetime m - dt) m in
  if lifetime m <=? 0 then with_active false m
  else
    (* find or update target *)
    let m := if negb (has_live_target heap m)
             then with_target (_find_nearest_enemy heap enemies m) m
             else m in
    (* home in on target *)
    let m := steer heap m in
    (* update velocity from angle *)
    let rad := radians (angle m) in
    let speed := 12 in
    let m := with_velocity (vec2 (cos rad * speed) (- sin rad * speed)) m in
    (* update position *)
    let m := with_position (vadd (position m) (vscale (vscale (velocity m) dt) 60)) m in
    (* deactivate if off screen *)
    if off_screen (position m) then with_active false m else m.
End Ops.

End HomingMissile.

Module PlasmaLaser.

Record t : Type := mk {
  position : Vector2;
  charge : Q;
  angle : Q;
  damage : Q;
  width : Q;
  active : bool;
  lifetime : Q;
  alpha : Z
}.

Definition with_active (v : bool) (r : t) : t :=
  mk (position r) (charge r) (angle r) (damage r) (width r) v (lifetime r)
     (alpha r).
Definition with_lifetime (v : Q) (r : t) : t :=
  mk (position r) (charge r) (angle r) (damage r) (width r) (active r) v
     (alpha r).
Definition with_alpha (v : Z) (r : t) : t :=
  mk (position r) (charge r) (angle r) (damage r) (width r) (active r)
     (lifetime r) v.

Definition init (position : Vector2) (charge_level : Q) : t :=
  let charge := Py.min 100 charge_level in
  {| position := position;
     charge := charge;
     angle := 0;
     damage := charge * 0.8;
     width := 10 + charge * 0.15;
     active := true;
     lifetime := 0.6;
     alpha := 255%Z |}.

Definition update (dt : Q) (l : t) : t :=
  let l := with_lifetime (lifetime l - dt) l in
  let l := if lifetime l <=? 0 then with_active false l else l in
  with_alpha (py_int (255 * (lifetime l / 0.6))) l.

Definition get_damage_at_position (pos : Vector2) (l : t) : Q :=
  if (Py.abs (y pos - y (position l)) <? width l / 2)
     && (x (position l) <? x pos)
  then damage l * 0.02
  else 0.

End PlasmaLaser.

Module WeaponSystem.

(** The keys of the dictionaries [cooldowns] and [cooldown_times], and a
    dictionary over exactly these keys. *)
Inductive Channel : Type := primary | missile | laser | shield.

Record Timers : Type := timers {
  of_primary : Q;
  of_missile : Q;
  of_laser : Q;
  of_shield : Q
}.

Definition get (key : Channel) (d : Timers) : Q :=
  match key with
  | primary => of_primary d
  | missile => of_missile d
  | laser => of_laser d
  | shield => of_shield d
  end.

Definition set (key : Channel) (v : Q) (d : Timers) : Timers :=
  match key with
  | primary => timers v (of_missile d) (of_laser d) (of_shield d)
  | missile => timers (of_primary d) v (of_laser d) (of_shield d)
  | laser => timers (of_primary d) (of_missile d) v (of_shield d)
  | shield => timers (of_primary d) (of_missile d) (of_laser d) v
  end.

Definition keys : list Channel := [primary; missile; laser; shield].

Record t : Type := mk {
  primary_level : Z;
  missile_count : Z;
  max_missiles : Z;
  laser_charge : Q;
  max_laser_charge : Q;
  shield_energy : Q;
  max_shield_energy : Q;
  is_charging_laser : bool;
  cooldowns : Timers;
  cooldown_times : Timers;
  bullets : list Bullet.t;
  missiles : list HomingMissile.t;
  lasers : list PlasmaLaser.t
}.

Definition with_primary_level (v : Z) (r : t) : t :=
  mk v (missile_count r) (max_missiles r) (laser_charge r)
     (max_laser_charge r) (shield_energy r) (max_shield_energy r)
     (is_charging_laser r) (cooldowns r) (cooldown_times r) (bullets r)
     (missiles r) (lasers r).
Definition with_missile_count (v : Z) (r : t) : t :=
  mk (primary_level r) v (max_missiles r) (laser_charge r)
     (max_laser_charge r) (shield_energy r) (max_shield_energy r)
     (is_charging_laser r) (cooldowns r) (cooldown_times r) (bullets r)
     (missiles r) (lasers r).
Definition with_laser_charge (v : Q) (r : t) : t :=
  mk (primary_level r) (missile_count r) (max_missiles r) v
     (max_laser_charge r) (shield_energy r) (max_shield_energy r)
     (is_charging_laser r) (cooldowns r) (cooldown_times r) (bullets r)
     (missiles r) (lasers r).
Definition with_shield_energy (v : Q) (r : t) : t :=
  mk (primary_level r) (missile_count r) (max_missiles r) (laser_charge r)
     (max_laser_charge r) v (max_shield_energy r) (is_charging_laser r)
     (cooldowns r) (cooldown_times r) (bullets r) (missiles r) (lasers r).
Definition with_is_charging_laser (v : bool) (r : t) : t :=
  mk (primary_level r) (missile_count r) (max_missiles r) (laser_charge r)
     (max_laser_charge r) (shield_energy r) (max_shield_energy r) v
     (cooldowns r) (cooldown_times r) (bullets r) (missiles r) (lasers r).
Definition with_cooldowns (v : Timers) (r : t) : t :=
  mk (primary_level r) (missile_count r) (max_missiles r) (laser_charge r)
     (max_laser_charge r) (shield_energy r) (max_shield_energy r)
     (is_charging_laser r) v (cooldown_times r) (bullets r) (missiles r)
     (lasers r).
Definition with_bullets (v : list Bullet.t) (r : t) : t :=
  mk (primary_level r) (missile_count r) (max_missiles r) (laser_charge r)
     (max_laser_charge r) (shield_energy r) (max_shield_energy r)
     (is_charging_laser r) (cooldowns r) (cooldown_times r) v (missiles r)
     (lasers r).
Definition with_missiles (v : list HomingMissile.t) (r : t) : t :=
  mk (primary_level r) (missile_count r) (max_missiles r) (laser_charge r)
     (max_laser_charge r) (shield_energy r) (max_shield_energy r)
     (is_charging_laser r) (cooldowns r) (cooldown_times r) (bullets r) v
     (lasers r).
Definition with_lasers (v : list PlasmaLaser.t) (r : t) : t :=
  mk (primary_level r) (missile_count r) (max_missiles r) (laser_charge r)
     (max_laser_charge r) (shield_energy r) (max_shield_energy r)
     (is_charging_laser r) (cooldowns r) (cooldown_times r) (bullets r)
     (missiles r) v.

(** [WeaponSystem.__init__]; the back-reference [self.aircraft] is the
    aircraft argument of the methods that use it. *)
Definition init : t :=
  {| primary_level := 1;
     missile_count := 5;
     max_missiles := 10;
     laser_charge := 0;
     max_laser_charge := 100;
     shield_energy := 50;
     max_shield_energy := 100;
     is_charging_laser := false;
     cooldowns := timers 0 0 0 0;
     cooldown_times := timers 0.15 1.5 3.0 8.0;
     bullets := [];
     missiles := [];
     lasers := [] |}.

(** The first loop of [update]: every positive cooldown counts down. *)
Definition update_cooldowns (dt : Q) (d : Timers) : Timers :=
  fold_left
    (fun d key =>
       if 0 <? get key d then set key (Py.max 0 (get key d - dt)) d else d)
    keys d.

Section Ops.
Context `{PyMath}.

(** [update]; each projectile list is walked over a copy, removing the
    projectiles that are inactive after their own update. *)
Definition update (dt : Q) (heap : Heap) (w : t) : t :=
  let w := with_cooldowns (update_cooldowns dt (cooldowns w)) w in
  (* laser charging *)
  let w := if is_charging_laser w && (laser_charge w <? max_laser_charge w)
           then with_laser_charge
                  (Py.min (max_laser_charge w) (laser_charge w + 40 * dt)) w
           else w in
  (* slowly regenerate laser charge *)
  let w := if negb (is_charging_laser w) && (laser_charge w <? max_laser_charge w)
           then with_laser_charge
                  (Py.min (max_laser_charge w) (laser_charge w + 5 * dt)) w
           else w in
  (* slowly regenerate shield energy *)
  let w := if shield_energy w <? max_shield_energy w
           then with_shield_energy
                  (Py.min (max_shield_energy w) (shield_energy w + 3 * dt)) w
           else w in
  let w := with_bullets
             (filter Bullet.active (map (Bullet.update dt) (bullets w))) w in
  let w := with_missiles
             (filter HomingMissile.active
                (map (HomingMissile.update dt heap []) (missiles w))) w in
  with_lasers
    (filter PlasmaLaser.active (map (PlasmaLaser.update dt) (lasers w))) w.

(** [fire_primary]. *)
Definition fire_primary (aircraft : Aircraft.t) (w : t) : bool * t :=
  if 0 <? get primary (cooldowns w) then (false, w)
  else
    let w := with_cooldowns
               (set primary (get primary (cooldown_times w)) (cooldowns w)) w in
    let pos := Aircraft.position aircraft in
    let w :=
      if (primary_level w =? 1)%Z then
        with_bullets (bullets w ++ [Bullet.init pos 0 15]) w
      else if (primary_level w =? 2)%Z then
        let offset_up := vec2 0 (-10) in
        let offset_down := vec2 0 10 in
        let bullet1 := Bullet.init (vadd pos offset_up) 0 15 in
        let bullet2 := Bullet.init (vadd pos offset_down) 0 15 in
        with_bullets (bullets w ++ [bullet1; bullet2]) w
      else if (3 <=? primary_level w)%Z then
        let bullet1 := Bullet.init pos 0 15 in
        let bullet2 := Bullet.init pos 15 15 in
        let bullet3 := Bullet.init pos (-15) 15 in
        with_bullets (bullets w ++ [bullet1; bullet2; bullet3]) w
      else w in
    (true, w).
End Ops.

(** [fire_missile]. *)
Definition fire_missile (aircraft : Aircraft.t) (w : t) : bool * t :=
  if (0 <? get missile (cooldowns w)) || (missile_count w <=? 0)%Z
  then (false, w)
  else
    let w := with_cooldowns
               (set missile (get missile (cooldown_times w)) (cooldowns w)) w in
    let w := with_missile_count (missile_count w - 1)%Z w in
    let m := HomingMissile.init (Aircraft.position aircraft) in
    (true, with_missiles (missiles w ++ [m]) w).

(** [fire_laser]. *)
Definition fire_laser (aircraft : Aircraft.t) (w : t) : bool * t :=
  if (0 <? get laser (cooldowns w)) || (laser_charge w <? 30)
  then (false, w)
  else
    let w := with_cooldowns
               (set laser (get laser (cooldown_times w)) (cooldowns w)) w in
    let l := PlasmaLaser.init (Aircraft.position aircraft) (laser_charge w) in
    let w := with_lasers (lasers w ++ [l]) w in
    (* consume charge *)
    let w := with_laser_charge 0 w in
    (true, with_is_charging_laser false w).

(** [activate_shield]: it also calls [self.aircraft.activate_shield(5.0)],
    so the aircraft is returned with the weapon system. *)
Definition activate_shield (aircraft : Aircraft.t) (w : t)
  : bool * t * Aircraft.t :=
  if (0 <? get shield (cooldowns w)) || (shield_energy w <? 40)
  then (false, w, aircraft)
  else
    let w := with_cooldowns
               (set shield (get shield (cooldown_times w)) (cooldowns w)) w in
    let w := with_shield_energy (shield_energy w - 40) w in
    (true, w, Aircraft.activate_shield 5.0 aircraft).

Definition upgrade_primary (w : t) : bool * t :=
  if (primary_level w <? 3)%Z
  then (true, with_primary_level (primary_level w + 1)%Z w)
  else (false, w).

Definition add_missiles (count : Z) (w : t) : t :=
  with_missile_count (Z.min (max_missiles w) (missile_count w + count)) w.

End WeaponSystem.

(** ** [classes/enemies.py] *)

(** Methods that can raise return an [option]; [bind] sequences them. *)
Definition bind {A B : Type} (m : option A) (k : A -> option B) : option B :=
  match m with
  | Some a => k a
  | None => None
  end.

Notation "' p <- m ;; k" := (bind m (fun p => k))
  (at level 61, p pattern, m at next level, right associativity).

Module EnemyProjectile.

Record t : Type := mk {
  position : Vector2;
  velocity : Vector2;
  damage : Q;
  active : bool
}.

Definition with_position (v : Vector2) (r : t) : t :=
  mk v (velocity r) (damage r) (active r).
Definition with_active (v : bool) (r : t) : t :=
  mk (position r) (velocity r) (damage r) v.

Definition init (position velocity : Vector2) : t :=
  {| position := position; velocity := velocity; damage := 8; active := true |}.

Definition update (dt : Q) (p : t) : t :=
  let p := with_position (vadd (position p) (vscale (vscale (velocity p) dt) 60)) p in
  if off_screen (position p) then with_active false p else p.

End EnemyProjectile.

Module Enemy.

(** The enemy types of the [stats] table, and the two values of
    [self.state]. *)
Inductive EnemyType : Type := drone | bomber | gunship | elite | kamikaze.
Inductive State : Type := spawn | move.

(** The attributes of an [Enemy]; [oid] is the identity of the object,
    by which missiles refer to it. *)
Record t : Type := mk {
  oid : Ref;
  position : Vector2;
  type : EnemyType;
  active : bool;
  state : State;
  health : Q;
  max_health : Q;
  speed : Q;
  damage : Q;
  score_value : Q;
  velocity : Vector2;
  move_timer : Q;
  attack_cooldown : Q;
  size : Q
}.

Definition with_position (v : Vector2) (r : t) : t :=
  mk (oid r) v (type r) (active r) (state r) (health r) (max_health r)
     (speed r) (damage r) (score_value r) (velocity r) (move_timer r)
     (attack_cooldown r) (size r).
Definition with_active (v : bool) (r : t) : t :=
  mk (oid r) (position r) (type r) v (state r) (health r) (max_health r)
     (speed r) (damage r) (score_value r) (velocity r) (move_timer r)
     (attack_cooldown r) (size r).
Definition with_state (v : State) (r : t) : t :=
  mk (oid r) (position r) (type r) (active r) v (health r) (max_health r)
     (speed r) (damage r) (score_value r) (velocity r) (move_timer r)
     (attack_cooldown r) (size r).
Definition with_health (v : Q) (r : t) : t :=
  mk (oid r) (position r) (type r) (active r) (state r) v (max_health r)
     (speed r) (damage r) (score_value r) (velocity r) (move_timer r)
     (attack_cooldown r) (size r).
Definition with_move_timer (v : Q) (r : t) : t :=
  mk (oid r) (position r) (type r) (active r) (state r) (health r)
     (max_health r) (speed r) (damage r) (score_value r) (velocity r) v
     (attack_cooldown r) (size r).
Definition with_attack_cooldown (v : Q) (r : t) : t :=
  mk (oid r) (position r) (type r) (active r) (state r) (health r)
     (max_health r) (speed r) (damage r) (score_value r) (velocity r)
     (move_timer r) v (size r).

(** [_get_stats]: health, max_health, speed, damage, score_value. *)
Definition _get_stats (ty : EnemyType) : Q * Q * Q * Q * Q :=
  match ty with
  | drone => (30, 30, 2.0, 10, 100)
  | bomber => (60, 60, 1.5, 15, 200)
  | gunship => (100, 100, 1.8, 20, 300)
  | elite => (150, 150, 2.2, 25, 400)
  | kamikaze => (20, 20, 4.0, 40, 150)
  end.

(** [Enemy.__init__]. *)
Definition init (oid : Ref) (position : Vector2) (enemy_type : EnemyType) : t :=
  let '(health, max_health, speed, damage, score_value) := _get_stats enemy_type in
  {| oid := oid;
     position := position;
     type := enemy_type;
     active := true;
     state := spawn;
     health := health;
     max_health := max_health;
     speed := speed;
     damage := damage;
     score_value := score_value;
     velocity := vec2 (- speed) 0;
     move_timer := 0;
     attack_cooldown := 0;
     size := match enemy_type with kamikaze => 70 | _ => 80 end |}.

(** [take_damage]. *)
Definition take_damage (amount : Q) (e : t) : bool * t :=
  let e := with_health (health e - amount) e in
  if health e <=? 0 then (true, with_active false e) else (false, e).

Section Ops.
Context `{PyMath}.

(** The argument [rnd] of the movement rules is the number that
    [random.random()] returns when the rule asks for one. *)
Definition _update_drone (dt : Q) (player_pos : Vector2) (rnd : Q) (e : t)
  : list EnemyProjectile.t * t :=
  let e := with_position (vadd (position e) (vscale (vscale (velocity e) dt) 60)) e in
  (* slight wave pattern *)
  let e := with_position
             (set_y (y (position e) + sin (move_timer e * 2) * 1.5) (position e)) e in
  (* shoot occasionally *)
  if (attack_cooldown e <=? 0) && (50 <? x (position e)) && (x (position e) <? 750)
     && (rnd <? 0.02)
  then ([EnemyProjectile.init (position e) (vec2 (-5) 0)],
        with_attack_cooldown 2.0 e)
  else ([], e).

Definition _update_bomber (dt : Q) (player_pos : Vector2) (e : t)
  : list EnemyProjectile.t * t :=
  let e := with_position (vadd (position e) (vscale (vscale (velocity e) dt) 60)) e in
  (* gentle sine wave *)
  let e := with_position
             (set_y (y (position e) + sin (move_timer e * 1.5) * 0.8) (position e)) e in
  (* drop bombs when above player *)
  if (attack_cooldown e <=? 0) && (50 <? x (position e)) && (x (position e) <? 750)
     && (Py.abs (x (position e) - x player_pos) <? 100)
  then ([EnemyProjectile.init (position e) (vec2 (-2) 3)],
        with_attack_cooldown 2.5 e)
  else ([], e).

Definition _update_gunship (dt : Q) (player_pos : Vector2) (rnd : Q) (e : t)
  : option (list EnemyProjectile.t * t) :=
  let e := with_position
             (set_x (x (position e) + x (velocity e) * dt * 60) (position e)) e in
  (* move toward player's Y position *)
  let e := if 5 <? Py.abs (y (position e) - y player_pos) then
             let dir_y := if y (position e) <? y player_pos then 1 else -1 in
             with_position (set_y (y (position e) + dir_y * 1.5) (position e)) e
           else e in
  (* aimed shots *)
  if (attack_cooldown e <=? 0) && (100 <? x (position e)) && (x (position e) <? 700)
     && (rnd <? 0.03)
  then
    let e := with_attack_cooldown 1.8 e in
    ' direction <- vnormalize (vsub player_pos (position e)) ;;
    Some ([EnemyProjectile.init (position e) (vscale direction 4)], e)
  else Some ([], e).

Definition _update_elite (dt : Q) (player_pos : Vector2) (rnd : Q) (e : t)
  : list EnemyProjectile.t * t :=
  let e := with_position
             (set_x (x (position e) + x (velocity e) * dt * 60) (position e)) e in
  (* complex movement pattern *)
  let e := with_position
             (set_y (y (position e)
                     + (sin (move_timer e * 3) * 2 + cos (move_timer e * 1.5) * 1))
                (position e)) e in
  (* rapid fire *)
  if (attack_cooldown e <=? 0) && (100 <? x (position e)) && (x (position e) <? 700)
     && (rnd <? 0.04)
  then
    let e := with_attack_cooldown 1.2 e in
    (map (fun angle =>
            let rad := radians (angle + 180) in
            EnemyProjectile.init (position e) (vec2 (cos rad * 5) (sin rad * 5)))
         [-15; 0; 15],
     e)
  else ([], e).

Definition _update_kamikaze (dt : Q) (player_pos : Vector2) (e : t) : t :=
  let direction := vsub player_pos (position e) in
  if 0 <? vlength direction then
    match vnormalize direction with
    | Some direction =>
        with_position
          (vadd (position e) (vscale (vscale (vscale direction (speed e)) dt) 60)) e
    | None => e
    end
  else e.

(** [update]: [None] when [normalize] raises. *)
Definition update (dt : Q) (player_pos : Vector2) (rnd : Q) (e : t)
  : option (list EnemyProjectile.t * t) :=
  if negb (active e) then Some ([], e)
  else
    let e := with_move_timer (move_timer e + dt) e in
    let e := with_attack_cooldown (Py.max 0 (attack_cooldown e - dt)) e in
    (* state machine *)
    let e := match state e with spawn => with_state move e | move => e end in
    (* movement patterns *)
    ' (projectiles, e) <-
        match type e with
        | drone => Some (_update_drone dt player_pos rnd e)
        | bomber => Some (_update_bomber dt player_pos e)
        | gunship => _update_gunship dt player_pos rnd e
        | elite => Some (_update_elite dt player_pos rnd e)
        | kamikaze => Some ([], _update_kamikaze dt player_pos e)
        end ;;
    (* deactivate if off screen (left side) *)
    let e := if x (position e) <? -100 then with_active false e else e in
    Some (projectiles, e).
End Ops.

(** What a missile reads through a reference to this enemy. *)
Definition view (e : t) : Target :=
  {| target_position := position e; target_active := active e |}.

End Enemy.

Module Boss.

Inductive BossType : Type := hive_queen | aegis_defender | final_destroyer.

Record t : Type := mk {
  oid : Ref;
  position : Vector2;
  type : BossType;
  active : bool;
  phase : Z;
  max_health : Q;
  size : Q;
  score_value : Q;
  health : Q;
  velocity : Vector2;
  move_timer : Q;
  attack_timer : Q;
  phase_transition_timer : Q;
  entered : bool;
  entry_target_x : Q
}.

Definition with_position (v : Vector2) (r : t) : t :=
  mk (oid r) v (type r) (active r) (phase r) (max_health r) (size r)
     (score_value r) (health r) (velocity r) (move_timer r)
     (attack_timer r) (phase_transition_timer r) (entered r)
     (entry_target_x r).
Definition with_active (v : bool) (r : t) : t :=
  mk (oid r) (position r) (type r) v (phase r) (max_health r) (size r)
     (score_value r) (health r) (velocity r) (move_timer r)
     (attack_timer r) (phase_transition_timer r) (entered r)
     (entry_target_x r).
Definition with_phase (v : Z) (r : t) : t :=
  mk (oid r) (position r) (type r) (active r) v (max_health r) (size r)
     (score_value r) (health r) (velocity r) (move_timer r)
     (attack_timer r) (phase_transition_timer r) (entered r)
     (entry_target_x r).
Definition with_health (v : Q) (r : t) : t :=
  mk (oid r) (position r) (type r) (active r) (phase r) (max_health r)
     (size r) (score_value r) v (velocity r) (move_timer r)
     (attack_timer r) (phase_transition_timer r) (entered r)
     (entry_target_x r).
Definition with_move_timer (v : Q) (r : t) : t :=
  mk (oid r) (position r) (type r) (active r) (phase r) (max_health r)
     (size r) (score_value r) (health r) (velocity r) v (attack_timer r)
     (phase_transition_timer r) (entered r) (entry_target_x r).
Definition with_attack_timer (v : Q) (r : t) : t :=
  mk (oid r) (position r) (type r) (active r) (phase r) (max_health r)
     (size r) (score_value r) (health r) (velocity r) (move_timer r) v
     (phase_transition_timer r) (entered r) (entry_target_x r).
Definition with_phase_transition_timer (v : Q) (r : t) : t :=
  mk (oid r) (position r) (type r) (active r) (phase r) (max_health r)
     (size r) (score_value r) (health r) (velocity r) (move_timer r)
     (attack_timer r) v (entered r) (entry_target_x r).
Definition with_entered (v : bool) (r : t) : t :=
  mk (oid r) (position r) (type r) (active r) (phase r) (max_health r)
     (size r) (score_value r) (health r) (velocity r) (move_timer r)
     (attack_timer r) (phase_transition_timer r) v (entry_target_x r).

(** [Boss.__init__]. *)
Definition init (oid : Ref) (position : Vector2) (boss_type : BossType) : t :=
  let '(max_health, size, score_value) :=
    match boss_type with
    | hive_queen => (800, 300, 5000)
    | aegis_defender => (1200, 360, 8000)
    | final_destroyer => (1800, 440, 15000)
    end in
  {| oid := oid;
     position := position;
     type := boss_type;
     active := true;
     phase := 1;
     max_health := max_health;
     size := size;
     score_value := score_value;
     health := max_health;
     velocity := vec2 0 0;
     move_timer := 0;
     attack_timer := 0;
     phase_transition_timer := 0;
     entered := false;
     entry_target_x := 650 |}.

(** [take_damage] (ignores damage during a phase transition). *)
Definition take_damage (amount : Q) (b : t) : bool * t :=
  if 0 <? phase_transition_timer b then (false, b)
  else
    let b := with_health (health b - amount) b in
    if health b <=? 0 then (true, with_active false b) else (false, b).

Section Ops.
Context `{PyMath}.

(** A projectile leaving the boss at [angle] degrees with [speed]. *)
Definition shot (b : t) (speed : Q) (angle : Q) : EnemyProjectile.t :=
  let rad := radians angle in
  EnemyProjectile.init (position b) (vec2 (cos rad * speed) (sin rad * speed)).

(** A projectile aimed at the player; [normalize] can raise. *)
Definition aimed (b : t) (player_pos : Vector2) (speed : Q)
  : option EnemyProjectile.t :=
  ' direction <- vnormalize (vsub player_pos (position b)) ;;
  Some (EnemyProjectile.init (position b) (vscale direction speed)).

(** [range(n)] as numbers. *)
Definition range (n : nat) : list Q := map (fun i => inject_Z (Z.of_nat i)) (seq 0 n).

Definition _update_movement (dt : Q) (player_pos : Vector2) (b : t) : t :=
  let amplitude := 100 in
  let frequency := 0.5 in
  let center_y := 300 in
  let b := with_position
             (set_y (center_y + sin (move_timer b * frequency) * amplitude)
                (position b)) b in
  with_position (set_y (Py.max 100 (Py.min 500 (y (position b)))) (position b)) b.

Definition _hive_queen_attack (dt : Q) (player_pos : Vector2) (b : t)
  : option (list EnemyProjectile.t * t) :=
  if (phase b =? 1)%Z then
    if 2.0 <=? attack_timer b then
      let b := with_attack_timer 0 b in
      Some (map (fun i => shot b 4 (180 + (i - 2) * 20)) (range 5), b)
    else Some ([], b)
  else if (phase b =? 2)%Z then
    if 1.5 <=? attack_timer b then
      let b := with_attack_timer 0 b in
      let projectiles := map (fun i => shot b 5 (180 + (i - 3) * 15)) (range 7) in
      ' p <- aimed b player_pos 6 ;;
      Some (projectiles ++ [p], b)
    else Some ([], b)
  else
    if 0.1 <=? attack_timer b then
      let b := with_attack_timer 0 b in
      let angle := Py.fmod (move_timer b * 200) 360 in
      Some ([shot b 5 angle], b)
    else Some ([], b).

Definition _aegis_defender_attack (dt : Q) (player_pos : Vector2) (b : t)
  : option (list EnemyProjectile.t * t) :=
  if (phase b =? 1)%Z then
    if 0.5 <=? attack_timer b then
      let b := with_attack_timer 0 b in
      ' p <- aimed b player_pos 5 ;;
      Some ([p], b)
    else Some ([], b)
  else if (phase b =? 2)%Z then
    if 0.4 <=? attack_timer b then
      let b := with_attack_timer 0 b in
      ' p <- aimed b player_pos 6 ;;
      Some (p :: map (shot b 4) [90; 270], b)
    else Some ([], b)
  else
    if 0.15 <=? attack_timer b then
      let b := with_attack_timer 0 b in
      Some (map (fun i => shot b 7 (180 + (i - 1) * 10)) (range 3), b)
    else Some ([], b).

Definition _final_destroyer_attack (dt : Q) (player_pos : Vector2) (rnd : Q)
  (b : t) : option (list EnemyProjectile.t * t) :=
  if (phase b =? 1)%Z then
    if 1.5 <=? attack_timer b then
      let b := with_attack_timer 0 b in
      Some (map (fun i => shot b 4 (i * 30)) (range 12), b)
    else Some ([], b)
  else if (phase b =? 2)%Z then
    if 1.2 <=? attack_timer b then
      let b := with_attack_timer 0 b in
      Some (map (fun i => shot b 5 (i * 22.5)) (range 16), b)
    else Some ([], b)
  else
    if 0.08 <=? attack_timer b then
      let b := with_attack_timer 0 b in
      let angle := Py.fmod (move_timer b * 300) 360 in
      let projectiles := [shot b 6 angle] in
      if rnd <? 0.1 then
        ' p <- aimed b player_pos 8 ;;
        Some (projectiles ++ [p], b)
      else Some (projectiles, b)
    else Some ([], b).

(** The phase check at the head of the combat branch of [update]. *)
Definition check_phase_transitions (b : t) : t :=
  let health_percent := health b / max_health b in
  if (health_percent <=? 0.66) && (phase b =? 1)%Z then
    with_phase_transition_timer 2.0 (with_phase 2 b)
  else if (health_percent <=? 0.33) && (phase b =? 2)%Z then
    with_phase_transition_timer 2.0 (with_phase 3 b)
  else b.

(** [update]: [None] when [normalize] raises. *)
Definition update (dt : Q) (player_pos : Vector2) (rnd : Q) (b : t)
  : option (list EnemyProjectile.t * t) :=
  if negb (active b) then Some ([], b)
  else
    let b := with_move_timer (move_timer b + dt) b in
    let b := with_attack_timer (attack_timer b + dt) b in
    (* entry animation *)
    if negb (entered b) then
      if entry_target_x b <? x (position b)
      then Some ([], with_position (set_x (x (position b) - 3) (position b)) b)
      else Some ([], with_entered true b)
    else
      let b := check_phase_transitions b in
      (* phase transition invulnerability *)
      if 0 <? phase_transition_timer b then
        Some ([], with_phase_transition_timer (phase_transition_timer b - dt) b)
      else
        ' (projectiles, b) <-
            match type b with
            | hive_queen => _hive_queen_attack dt player_pos b
            | aegis_defender => _aegis_defender_attack dt player_pos b
            | final_destroyer => _final_destroyer_attack dt player_pos rnd b
            end ;;
        Some (projectiles, _update_movement dt player_pos b).
End Ops.

Definition view (b : t) : Target :=
  {| target_position := position b; target_active := active b |}.

End Boss.

(** The entries of a spawn queue: [{'type': ..., 'y': ...}]. *)
Record SpawnEntry : Type := entry {
  entry_type : Enemy.EnemyType;
  entry_y : Q
}.

Module EnemyManager.

(** The attributes of an [EnemyManager].  [boss_defeated] is the
    attribute that [LevelManager.update] looks up with [hasattr]: [None]
    while the object has no such attribute, as after [__init__].
    [next_oid] is the identity of the next object to be created. *)
Record t : Type := mk {
  enemies : list Enemy.t;
  boss : option Boss.t;
  projectiles : list EnemyProjectile.t;
  spawn_timer : Q;
  spawn_delay : Q;
  spawn_queue : list SpawnEntry;
  boss_defeated : option bool;
  next_oid : Ref
}.

Definition with_enemies (v : list Enemy.t) (r : t) : t :=
  mk v (boss r) (projectiles r) (spawn_timer r) (spawn_delay r)
     (spawn_queue r) (boss_defeated r) (next_oid r).
Definition with_boss (v : option Boss.t) (r : t) : t :=
  mk (enemies r) v (projectiles r) (spawn_timer r) (spawn_delay r)
     (spawn_queue r) (boss_defeated r) (next_oid r).
Definition with_projectiles (v : list EnemyProjectile.t) (r : t) : t :=
  mk (enemies r) (boss r) v (spawn_timer r) (spawn_delay r) (spawn_queue r)
     (boss_defeated r) (next_oid r).
Definition with_spawn_timer (v : Q) (r : t) : t :=
  mk (enemies r) (boss r) (projectiles r) v (spawn_delay r) (spawn_queue r)
     (boss_defeated r) (next_oid r).
Definition with_spawn_delay (v : Q) (r : t) : t :=
  mk (enemies r) (boss r) (projectiles r) (spawn_timer r) v (spawn_queue r)
     (boss_defeated r) (next_oid r).
Definition with_spawn_queue (v : list SpawnEntry) (r : t) : t :=
  mk (enemies r) (boss r) (projectiles r) (spawn_timer r) (spawn_delay r) v
     (boss_defeated r) (next_oid r).
Definition with_next_oid (v : Ref) (r : t) : t :=
  mk (enemies r) (boss r) (projectiles r) (spawn_timer r) (spawn_delay r)
     (spawn_queue r) (boss_defeated r) v.

(** [EnemyManager.__init__]. *)
Definition init : t :=
  {| enemies := [];
     boss := None;
     projectiles := [];
     spawn_timer := 0;
     spawn_delay := 2.0;
     spawn_queue := [];
     boss_defeated := None;
     next_oid := O |}.

Definition set_spawn_queue (queue : list SpawnEntry) (m : t) : t :=
  with_spawn_timer 0 (with_spawn_queue queue m).

(** [spawn_boss]: the new boss replaces any boss; regular enemies are
    cleared. *)
Definition spawn_boss (boss_type : Boss.BossType) (m : t) : t :=
  let m := with_boss (Some (Boss.init (next_oid m) (vec2 900 300) boss_type)) m in
  let m := with_next_oid (S (next_oid m)) m in
  with_enemies [] m.

Definition is_wave_complete (m : t) : bool :=
  (length (enemies m) =? 0)%nat && (length (spawn_queue m) =? 0)%nat
  && match boss m with Some _ => false | None => true end.

(** The objects as a missile sees them in [update]: the enemies and the
    boss as they are after their own update, and [detached] for every
    object that the manager holds no more. *)
Definition heap_of (detached : Heap) (updated : list Enemy.t)
  (boss : option Boss.t) : Heap :=
  fun r =>
    match find (fun e => Nat.eqb (Enemy.oid e) r) updated with
    | Some e => Enemy.view e
    | None =>
        match boss with
        | Some b => if Nat.eqb (Boss.oid b) r then Boss.view b else detached r
        | None => detached r
        end
    end.

Section Ops.
Context `{PyMath}.

(** The loop over [self.enemies[:]]: the enemy at index [i] draws
    [rnd i]; the result lists every enemy after its update, removed or
    not. *)
Fixpoint update_enemies (dt : Q) (player_pos : Vector2) (rnd : nat -> Q)
  (i : nat) (enemies : list Enemy.t)
  : option (list EnemyProjectile.t * list Enemy.t) :=
  match enemies with
  | [] => Some ([], [])
  | enemy :: rest =>
      ' (new_projectiles, enemy) <- Enemy.update dt player_pos (rnd i) enemy ;;
      ' (projectiles, rest) <- update_enemies dt player_pos rnd (S i) rest ;;
      Some (new_projectiles ++ projectiles, enemy :: rest)
  end.

(** [update]: returns the manager and the missiles it was given
    ([self.weapon_system.missiles], updated in place); [None] when an
    enemy or the boss raises. *)
Definition update (dt : Q) (player_pos : Vector2)
  (missiles : list HomingMissile.t) (detached : Heap) (rnd : nat -> Q)
  (m : t) : option (t * list HomingMissile.t) :=
  (* update spawn timer *)
  let m := with_spawn_timer (spawn_timer m + dt) m in
  (* spawn from queue *)
  let m :=
    match spawn_queue m with
    | enemy_data :: queue =>
        if spawn_delay m <=? spawn_timer m then
          let m := with_spawn_timer 0 m in
          let m := with_spawn_queue queue m in
          let enemy := Enemy.init (next_oid m) (vec2 850 (entry_y enemy_data))
                         (entry_type enemy_data) in
          let m := with_next_oid (S (next_oid m)) m in
          with_enemies (enemies m ++ [enemy]) m
        else m
    | [] => m
    end in
  (* update enemies *)
  ' (new_projectiles, updated) <-
      update_enemies dt player_pos rnd O (enemies m) ;;
  let m := with_projectiles (projectiles m ++ new_projectiles) m in
  let m := with_enemies (filter Enemy.active updated) m in
  (* update boss *)
  ' (m, boss_object) <-
      match boss m with
      | Some b =>
          ' (new_projectiles, b) <-
              Boss.update dt player_pos (rnd (length updated)) b ;;
          let m := with_projectiles (projectiles m ++ new_projectiles) m in
          Some (if negb (Boss.active b) then with_boss None m
                else with_boss (Some b) m,
                Some b)
      | None => Some (m, None)
      end ;;
  (* update homing missiles' targets *)
  let heap := heap_of detached updated boss_object in
  let targets := map Enemy.oid (enemies m)
                 ++ match boss m with Some b => [Boss.oid b] | None => [] end in
  let missiles :=
    map (fun missile =>
           if HomingMissile.active missile
           then HomingMissile.update dt heap targets missile
           else missile)
        missiles in
  (* update projectiles *)
  let m := with_projectiles
             (filter EnemyProjectile.active
                (map (EnemyProjectile.update dt) (projectiles m))) m in
  Some (m, missiles).
End Ops.

End EnemyManager.

(** ** [classes/levels.py] *)

Module LevelManager.

(** A wave and a level of the level tables (the texts shown on screen
    are left out).  Every wave of the tables has a ['delay'] entry, so
    [wave.get('delay', 0.8)] is that entry. *)
Record Wave : Type := {
  wave_enemies : list SpawnEntry;
  delay : Q
}.

Record LevelData : Type := {
  level_boss : Boss.BossType;
  waves : list Wave
}.

Definition _level_1_data : LevelData :=
  {| level_boss := Boss.hive_queen;
     waves := [
       {| wave_enemies := [
            entry Enemy.drone 150;
            entry Enemy.drone 250;
            entry Enemy.drone 350;
            entry Enemy.drone 450];
          delay := 1.5 |};
       {| wave_enemies := [
            entry Enemy.drone 100;
            entry Enemy.drone 200;
            entry Enemy.drone 300;
            entry Enemy.drone 400;
            entry Enemy.drone 500];
          delay := 1.2 |};
       {| wave_enemies := [
            entry Enemy.drone 150;
            entry Enemy.bomber 250;
            entry Enemy.drone 350;
            entry Enemy.bomber 450];
          delay := 1.5 |};
       {| wave_enemies := [
            entry Enemy.drone 100;
            entry Enemy.drone 200;
            entry Enemy.bomber 300;
            entry Enemy.drone 400;
            entry Enemy.bomber 500;
            entry Enemy.drone 250];
          delay := 1.0 |};
       {| wave_enemies := [
            entry Enemy.bomber 150;
            entry Enemy.drone 200;
            entry Enemy.drone 300;
            entry Enemy.bomber 400;
            entry Enemy.drone 450];
          delay := 1.2 |}] |}.

Definition _level_2_data : LevelData :=
  {| level_boss := Boss.aegis_defender;
     waves := [
       {| wave_enemies := [
            entry Enemy.drone 120;
            entry Enemy.bomber 220;
            entry Enemy.gunship 300;
            entry Enemy.bomber 380;
            entry Enemy.drone 480];
          delay := 1.2 |};
       {| wave_enemies := [
            entry Enemy.gunship 150;
            entry Enemy.drone 250;
            entry Enemy.gunship 350;
            entry Enemy.drone 450];
          delay := 1.5 |};
       {| wave_enemies := [
            entry Enemy.elite 200;
            entry Enemy.bomber 300;
            entry Enemy.elite 400;
            entry Enemy.gunship 250;
            entry Enemy.gunship 350];
          delay := 1.3 |};
       {| wave_enemies := [
            entry Enemy.drone 100;
            entry Enemy.elite 180;
            entry Enemy.bomber 260;
            entry Enemy.gunship 340;
            entry Enemy.elite 420;
            entry Enemy.drone 500];
          delay := 1.0 |};
       {| wave_enemies := [
            entry Enemy.kamikaze 150;
            entry Enemy.kamikaze 250;
            entry Enemy.elite 300;
            entry Enemy.kamikaze 350;
            entry Enemy.kamikaze 450];
          delay := 1.1 |};
       {| wave_enemies := [
            entry Enemy.elite 120;
            entry Enemy.gunship 200;
            entry Enemy.bomber 280;
            entry Enemy.gunship 360;
            entry Enemy.elite 440];
          delay := 1.2 |}] |}.

Definition _level_3_data : LevelData :=
  {| level_boss := Boss.final_destroyer;
     waves := [
       {| wave_enemies := [
            entry Enemy.kamikaze 100;
            entry Enemy.elite 180;
            entry Enemy.gunship 260;
            entry Enemy.kamikaze 340;
            entry Enemy.elite 420;
            entry Enemy.kamikaze 500];
          delay := 0.9 |};
       {| wave_enemies := [
            entry Enemy.elite 150;
            entry Enemy.elite 250;
            entry Enemy.elite 350;
            entry Enemy.elite 450];
          delay := 1.3 |};
       {| wave_enemies := [
            entry Enemy.bomber 120;
            entry Enemy.gunship 200;
            entry Enemy.elite 280;
            entry Enemy.gunship 360;
            entry Enemy.bomber 440;
            entry Enemy.kamikaze 300];
          delay := 0.8 |};
       {| wave_enemies := [
            entry Enemy.kamikaze 150;
            entry Enemy.kamikaze 200;
            entry Enemy.elite 250;
            entry Enemy.kamikaze 300;
            entry Enemy.kamikaze 350;
            entry Enemy.elite 400;
            entry Enemy.kamikaze 450];
          delay := 0.7 |};
       {| wave_enemies := [
            entry Enemy.elite 100;
            entry Enemy.gunship 170;
            entry Enemy.bomber 240;
            entry Enemy.kamikaze 280;
            entry Enemy.elite 340;
            entry Enemy.gunship 410;
            entry Enemy.kamikaze 480];
          delay := 0.9 |};
       {| wave_enemies := [
            entry Enemy.elite 150;
            entry Enemy.elite 250;
            entry Enemy.gunship 200;
            entry Enemy.gunship 350;
            entry Enemy.bomber 300;
            entry Enemy.kamikaze 400];
          delay := 1.0 |};
       {| wave_enemies := [
            entry Enemy.elite 180;
            entry Enemy.elite 280;
            entry Enemy.elite 380;
            entry Enemy.kamikaze 230;
            entry Enemy.kamikaze 330];
          delay := 1.0 |}] |}.

Definition get_level_data (level_num : Z) : LevelData :=
  if (level_num =? 1)%Z then _level_1_data
  else if (level_num =? 2)%Z then _level_2_data
  else if (level_num =? 3)%Z then _level_3_data
  else _level_1_data.

(** The attributes of a [LevelManager] that take part in the
    progression (the background layers are left out). *)
Record t : Type := mk {
  current_level : Z;
  max_levels : Z;
  current_wave : nat;
  wave_complete : bool;
  level_complete : bool;
  scroll_x : Q;
  scroll_speed : Q;
  waves_started : bool
}.

Definition with_current_level (v : Z) (r : t) : t :=
  mk v (max_levels r) (current_wave r) (wave_complete r) (level_complete r)
     (scroll_x r) (scroll_speed r) (waves_started r).
Definition with_current_wave (v : nat) (r : t) : t :=
  mk (current_level r) (max_levels r) v (wave_complete r)
     (level_complete r) (scroll_x r) (scroll_speed r) (waves_started r).
Definition with_wave_complete (v : bool) (r : t) : t :=
  mk (current_level r) (max_levels r) (current_wave r) v (level_complete r)
     (scroll_x r) (scroll_speed r) (waves_started r).
Definition with_level_complete (v : bool) (r : t) : t :=
  mk (current_level r) (max_levels r) (current_wave r) (wave_complete r) v
     (scroll_x r) (scroll_speed r) (waves_started r).
Definition with_scroll_x (v : Q) (r : t) : t :=
  mk (current_level r) (max_levels r) (current_wave r) (wave_complete r)
     (level_complete r) v (scroll_speed r) (waves_started r).
Definition with_waves_started (v : bool) (r : t) : t :=
  mk (current_level r) (max_levels r) (current_wave r) (wave_complete r)
     (level_complete r) (scroll_x r) (scroll_speed r) v.

(** [load_level], and [__init__], which calls it. *)
Definition load_level (level_num : Z) (l : t) : t :=
  let l := with_current_level level_num l in
  let l := with_current_wave O l in
  let l := with_wave_complete false l in
  let l := with_level_complete false l in
  let l := with_scroll_x 0 l in
  with_waves_started false l.

Definition init (level : Z) : t :=
  load_level level
    {| current_level := level;
       max_levels := 3;
       current_wave := O;
       wave_complete := false;
       level_complete := false;
       scroll_x := 0;
       scroll_speed := 1.0;
       waves_started := false |}.

(** "Spawn next wave": hand the wave at [current_wave] to the enemy
    manager, when there is one. *)
Definition start_wave (level_data : LevelData) (l : t) (em : EnemyManager.t)
  : EnemyManager.t :=
  if (current_wave l <? length (waves level_data))%nat then
    match nth_error (waves level_data) (current_wave l) with
    | Some wave =>
        let em := EnemyManager.set_spawn_queue (wave_enemies wave) em in
        EnemyManager.with_spawn_delay (delay wave) em
    | None => em
    end
  else em.

(** [update]. *)
Definition update (dt : Q) (aircraft : Aircraft.t) (em : EnemyManager.t)
  (l : t) : t * EnemyManager.t :=
  (* update background scroll *)
  let l := with_scroll_x (scroll_x l + scroll_speed l * dt * 60) l in
  (* don't spawn enemies until aircraft has taken off *)
  if negb (Aircraft.has_taken_off aircraft) then (l, em)
  else
    let level_data := get_level_data (current_level l) in
    (* start first wave immediately after takeoff *)
    let '(l, em) :=
      if Aircraft.has_taken_off aircraft && negb (waves_started l)
      then let l := with_waves_started true l in (l, start_wave level_data l em)
      else (l, em) in
    (* check if all waves completed *)
    if (length (waves level_data) <=? current_wave l)%nat then
      match EnemyManager.boss em, EnemyManager.boss_defeated em with
      | None, None =>
          (* spawn boss *)
          (l, EnemyManager.spawn_boss (level_boss level_data) em)
      | None, Some true =>
          (* level complete *)
          (with_level_complete true l, em)
      | _, _ => (l, em)
      end
    else
      (* check if current wave is complete *)
      if EnemyManager.is_wave_complete em then
        let l := with_current_wave (S (current_wave l)) l in
        (l, start_wave level_data l em)
      else (l, em).

End LevelManager.

(** ** [sky_fury.py]: the simulation steps of one frame of play *)

Module SkyFury.

(** The game objects created by [start_game]; the aircraft and the weapon
    system are linked to each other there. *)
Record t : Type := mk {
  aircraft : Aircraft.t;
  weapon_system : WeaponSystem.t;
  enemy_manager : EnemyManager.t;
  level_manager : LevelManager.t
}.

Definition start_game (level : Z) : t :=
  {| aircraft := Aircraft.init;
     weapon_system := WeaponSystem.init;
     enemy_manager := EnemyManager.init;
     level_manager := LevelManager.init level |}.

Section Ops.
Context `{PyMath}.

(** [self.aircraft.update(dt)] on the linked pair: the aircraft drains
    the [shield_energy] of its weapon system. *)
Definition update_aircraft (dt : Q) (a : Aircraft.t) (w : WeaponSystem.t)
  : Aircraft.t * WeaponSystem.t :=
  let '(a, energy) := Aircraft.update dt a (Some (WeaponSystem.shield_energy w)) in
  match energy with
  | Some e => (a, WeaponSystem.with_shield_energy e w)
  | None => (a, w)
  end.

(** The four simulation updates of [update] in the state [STATE_PLAYING]
    (after the controls, before power-ups, particles and collisions):
    aircraft, weapons, level manager, enemy manager.  [detached] gives
    the objects that missiles still refer to and no manager holds. *)
Definition update_playing (dt : Q) (detached : Heap) (rnd : nat -> Q) (g : t)
  : option t :=
  let '(a, w) := update_aircraft dt (aircraft g) (weapon_system g) in
  let heap := EnemyManager.heap_of detached
                (EnemyManager.enemies (enemy_manager g))
                (EnemyManager.boss (enemy_manager g)) in
  let w := WeaponSystem.update dt heap w in
  let '(l, em) := LevelManager.update dt a (enemy_manager g) (level_manager g) in
  ' (em, missiles) <-
      EnemyManager.update dt (Aircraft.position a) (WeaponSystem.missiles w)
        detached rnd em ;;
  Some {| aircraft := a;
          weapon_system := WeaponSystem.with_missiles missiles w;
          enemy_manager := em;
          level_manager := l |}.
End Ops.

End SkyFury.

(** ** A rational implementation of the [math] operations

    Polynomial and fixed-point approximations, exact where the examples
    below need them.  They serve to run the model on concrete inputs; every
    theorem holds for any implementation of [PyMath]. *)

Module RationalMath.

Definition pi : Q := 355 # 113.

Definition sin (a : Q) : Q :=
  let a2 := a * a in
  a * (1 - a2 / 6 * (1 - a2 / 20 * (1 - a2 / 42))).

Definition cos (a : Q) : Q :=
  let a2 := a * a in
  1 - a2 / 2 * (1 - a2 / 12 * (1 - a2 / 30)).

(** The arc tangent on [-1, 1]. *)
Definition atan_unit (z : Q) : Q := z / (1 + 0.28 * z * z).

Definition atan2 (b a : Q) : Q :=
  if Py.eqb a 0 && Py.eqb b 0 then 0
  else if Qabs b <=? Qabs a then
    if 0 <? a then atan_unit (b / a)
    else if 0 <=? b then atan_unit (b / a) + pi
    else atan_unit (b / a) - pi
  else
    if 0 <? b then pi / 2 - atan_unit (a / b)
    else - (pi / 2) - atan_unit (a / b).

Definition radians (d : Q) : Q := d * pi / 180.
Definition degrees (r : Q) : Q := r * 180 / pi.

(** The square root to six decimal places. *)
Definition sqrt (q : Q) : Q :=
  inject_Z (Z.sqrt (Qfloor (q * 1000000000000))) / 1000000.

End RationalMath.

Definition rational_math : PyMath :=
  {| sin := RationalMath.sin;
     cos := RationalMath.cos;
     atan2 := RationalMath.atan2;
     radians := RationalMath.radians;
     degrees := RationalMath.degrees;
     sqrt := RationalMath.sqrt |}.

(** ** Concrete states for the examples *)

Module Scene.

(** An aircraft rolling on the runway at [x = 245] with horizontal speed
    4.0 and the nose up at 16 degrees, thrust at zero, brakes off. *)
Definition rolling : Aircraft.t :=
  Aircraft.with_angle 16
    (Aircraft.with_velocity (vec2 4.0 0)
       (Aircraft.with_position (vec2 245 Aircraft.GROUND_LEVEL) Aircraft.init)).

(** An aircraft in combat flight one pixel above ground level, over the
    runway, sinking at 2 per frame with the nose level. *)
Definition touching_down : Aircraft.t :=
  Aircraft.with_gear_down false
    (Aircraft.with_has_taken_off true
       (Aircraft.with_on_ground false
          (Aircraft.with_velocity (vec2 3 2)
             (Aircraft.with_position (vec2 150 499) Aircraft.init)))).

(** An aircraft in combat flight at mid height, flying level. *)
Definition cruising : Aircraft.t :=
  Aircraft.with_gear_down false
    (Aircraft.with_has_taken_off true
       (Aircraft.with_on_ground false
          (Aircraft.with_velocity (vec2 3 0)
             (Aircraft.with_position (vec2 150 300) Aircraft.init)))).

(** A weapon system with every channel ready and a full laser charge,
    and the same with one second left on every cooldown. *)
Definition armed : WeaponSystem.t :=
  WeaponSystem.with_laser_charge 100 WeaponSystem.init.

Definition cooling : WeaponSystem.t :=
  WeaponSystem.with_cooldowns (WeaponSystem.timers 1 1 1 1) armed.

(** The boss of level 1 as [spawn_boss] creates it, and the same boss in
    combat, wounded, at the start of its second phase. *)
Definition queen : Boss.t := Boss.init 0%nat (vec2 900 300) Boss.hive_queen.

Definition shifting_queen : Boss.t :=
  Boss.with_phase_transition_timer 2.0
    (Boss.with_phase 2
       (Boss.with_health 500
          (Boss.with_entered true
             (Boss.with_position (vec2 650 300) queen)))).

(** A drone as the enemy manager spawns it. *)
Definition drone : Enemy.t := Enemy.init 1%nat (vec2 850 150) Enemy.drone.

(** Level 1 with its five waves done, and an enemy manager whose boss
    has just been destroyed by a hit of 800. *)
Definition waves_done : LevelManager.t :=
  LevelManager.with_waves_started true
    (LevelManager.with_current_wave 5%nat (LevelManager.init 1)).

Definition boss_down : EnemyManager.t :=
  EnemyManager.with_next_oid 1%nat
    (EnemyManager.with_boss (Some (snd (Boss.take_damage 800 queen)))
       EnemyManager.init).

(** The aircraft and the weapon system right after the shield key: the
    shield is up for 5 seconds and 10 units of energy are left. *)
Definition shielded : Aircraft.t :=
  snd (WeaponSystem.activate_shield cruising WeaponSystem.init).

Definition shield_paid : WeaponSystem.t :=
  snd (fst (WeaponSystem.activate_shield cruising WeaponSystem.init)).

(** Two active enemies on the flight line of a missile at (100, 100): the
    object 0 far ahead at (500, 100) and the object 1 close by at
    (150, 100).  The missile is locked on the far one. *)
Definition two_enemies : Heap :=
  fun r =>
    if Nat.eqb r 0
    then {| target_position := vec2 500 100; target_active := true |}
    else {| target_position := vec2 150 100; target_active := true |}.

Definition locked_missile : HomingMissile.t :=
  HomingMissile.with_target (Some 0%nat) (HomingMissile.init (vec2 100 100)).



End Scene.

(** ** Auxiliary notions for the statements *)

(** Two aircraft that agree on everything but the invulnerability window,
    the shield and the sprite: the flight physics cannot tell them apart. *)
Definition same_flight (a b : Aircraft.t) : Prop :=
  Aircraft.position a = Aircraft.position b
  /\ Aircraft.velocity a = Aircraft.velocity b
  /\ Aircraft.angle a = Aircraft.angle b
  /\ Aircraft.on_ground a = Aircraft.on_ground b
  /\ Aircraft.has_taken_off a = Aircraft.has_taken_off b
  /\ Aircraft.thrust a = Aircraft.thrust b
  /\ Aircraft.flaps a = Aircraft.flaps b
  /\ Aircraft.gear_down a = Aircraft.gear_down b
  /\ Aircraft.brakes_active a = Aircraft.brakes_active b
  /\ Aircraft.spoilers_active a = Aircraft.spoilers_active b
  /\ Aircraft.health a = Aircraft.health b
  /\ Aircraft.max_health a = Aircraft.max_health b
  /\ Aircraft.fuel a = Aircraft.fuel b
  /\ Aircraft.max_fuel a = Aircraft.max_fuel b
  /\ Aircraft.score a = Aircraft.score b
  /\ Aircraft.lives a = Aircraft.lives b
  /\ Aircraft.max_speed a = Aircraft.max_speed b
  /\ Aircraft.acceleration_rate a = Aircraft.acceleration_rate b
  /\ Aircraft.drag a = Aircraft.drag b
  /\ Aircraft.lift_factor a = Aircraft.lift_factor b.

(** The physics step of [Aircraft.update]. *)
Definition physics `{PyMath} (dt : Q) (a : Aircraft.t) : Aircraft.t :=
  if Aircraft.on_ground a
  then Aircraft._update_ground_physics dt a
  else Aircraft._update_air_physics dt a.

(** The landing envelope of [_check_landing]: over the runway, slow enough
    and level enough. *)
Definition landing_envelope (a : Aircraft.t) : Prop :=
  Aircraft.RUNWAY_X_START <= x (Aircraft.position a)
  /\ x (Aircraft.position a) <= Aircraft.RUNWAY_X_END
  /\ Qabs (y (Aircraft.velocity a)) <= 3.0
  /\ Qabs (Aircraft.angle a) <= 15.0.

(** Two aircraft with the same invulnerability window. *)
Definition same_window (a b : Aircraft.t) : Prop :=
  Aircraft.invulnerable a = Aircraft.invulnerable b
  /\ Aircraft.invulnerable_timer a = Aircraft.invulnerable_timer b.

(** A boss driven through a sequence of updates, one triple (time step,
    player position, random draw) per update; [None] when an update
    raises. *)
Fixpoint run_boss `{PyMath} (inputs : list (Q * Vector2 * Q)) (b : Boss.t)
  : option Boss.t :=
  match inputs with
  | [] => Some b
  | (dt, player_pos, rnd) :: rest =>
      ' (_, b) <- Boss.update dt player_pos rnd b ;;
      run_boss rest b
  end.

(** The resource bounds of the aircraft. *)
Definition aircraft_in_bounds (a : Aircraft.t) : Prop :=
  (0 <= Aircraft.health a /\ Aircraft.health a <= Aircraft.max_health a)
  /\ (0 <= Aircraft.fuel a /\ Aircraft.fuel a <= Aircraft.max_fuel a).

(** The health bounds that the code keeps for an enemy and for a boss: never
    above the maximum, and positive as long as the object is active. *)
Definition enemy_health_ok (e : Enemy.t) : Prop :=
  Enemy.health e <= Enemy.max_health e
  /\ (Enemy.active e = true -> 0 < Enemy.health e).

Definition boss_health_ok (b : Boss.t) : Prop :=
  Boss.health b <= Boss.max_health b
  /\ (Boss.active b = true -> 0 < Boss.health b).

Definition manager_health_ok (m : EnemyManager.t) : Prop :=
  Forall enemy_health_ok (EnemyManager.enemies m)
  /\ match EnemyManager.boss m with
     | Some b => boss_health_ok b
     | None => True
     end.

(** What the movement rules of an enemy leave alone. *)
Definition enemy_keeps (e e' : Enemy.t) : Prop :=
  Enemy.health e' = Enemy.health e
  /\ Enemy.max_health e' = Enemy.max_health e
  /\ Enemy.oid e' = Enemy.oid e
  /\ Enemy.active e' = Enemy.active e.

(** Everything that the game does to the level manager and the enemy
    manager while a level runs: the two updates of each frame, the
    collision pass (which changes the enemies, the boss and the projectiles
    that the manager holds, in place), and the demo key that clears the
    field and spawns a boss. *)
Inductive level_step `{PyMath}
  : LevelManager.t * EnemyManager.t -> LevelManager.t * EnemyManager.t -> Prop :=
| step_level_update (dt : Q) (a : Aircraft.t) l em :
    level_step (l, em) (LevelManager.update dt a em l)
| step_manager_update dt player_pos missiles detached rnd l em em' missiles' :
    EnemyManager.update dt player_pos missiles detached rnd em
    = Some (em', missiles') ->
    level_step (l, em) (l, em')
| step_collisions l em enemies boss projectiles :
    level_step (l, em)
      (l, EnemyManager.with_projectiles projectiles
            (EnemyManager.with_boss boss
               (EnemyManager.with_enemies enemies em)))
| step_demo_key (boss_type : Boss.BossType) l em :
    level_step (l, em)
      (l, EnemyManager.spawn_boss boss_type
            (EnemyManager.with_spawn_queue []
               (EnemyManager.with_enemies [] em))).

(** The states that a level started by [start_game] can reach. *)
Inductive level_reachable `{PyMath} (level : Z)
  : LevelManager.t * EnemyManager.t -> Prop :=
| reach_start :
    level_reachable level (LevelManager.init level, EnemyManager.init)
| reach_step s s' :
    level_reachable level s -> level_step s s' -> level_reachable level s'.

(** Two aircraft with the same shield state. *)
Definition same_shield (a b : Aircraft.t) : Prop :=
  Aircraft.shield_active a = Aircraft.shield_active b
  /\ Aircraft.shield_duration a = Aircraft.shield_duration b.



(** ** Auxiliary notions for the further properties *)

(** The aircraft, with the shield energy of its weapon system, driven
    through a sequence of updates, one time step per update. *)
Fixpoint run_aircraft `{PyMath} (steps : list Q) (s : Aircraft.t * option Q)
  : Aircraft.t * option Q :=
  match steps with
  | [] => s
  | dt :: rest => run_aircraft rest (Aircraft.update dt (fst s) (snd s))
  end.

(** The resource pools of the weapon system within their caps. *)
Definition pools_ok (w : WeaponSystem.t) : Prop :=
  (0 <= WeaponSystem.missile_count w
   /\ WeaponSystem.missile_count w <= WeaponSystem.max_missiles w)%Z
  /\ (0 <= WeaponSystem.laser_charge w
      /\ WeaponSystem.laser_charge w <= WeaponSystem.max_laser_charge w)
  /\ (0 <= WeaponSystem.shield_energy w
      /\ WeaponSystem.shield_energy w <= WeaponSystem.max_shield_energy w).

(** An enemy taking a sequence of hits, and a missile flying through a
    sequence of updates. *)
Definition hits (amounts : list Q) (e : Enemy.t) : Enemy.t :=
  fold_left (fun e amount => snd (Enemy.take_damage amount e)) amounts e.

Fixpoint run_missile `{PyMath} (steps : list (Q * Heap * list Ref))
  (m : HomingMissile.t) : HomingMissile.t :=
  match steps with
  | [] => m
  | (dt, heap, enemies) :: rest =>
      run_missile rest (HomingMissile.update dt heap enemies m)
  end.

(** The primary weapon upgraded a number of times. *)
Fixpoint upgrades (n : nat) (w : WeaponSystem.t) : WeaponSystem.t :=
  match n with
  | O => w
  | S n => upgrades n (snd (WeaponSystem.upgrade_primary w))
  end.


(** An enemy projectile as it leaves its shooter at [origin]. *)
Definition fired_from (origin : Vector2) (p : EnemyProjectile.t) : Prop :=
  EnemyProjectile.position p = origin
  /\ EnemyProjectile.active p = true
  /\ EnemyProjectile.damage p == 8.

(** What a movement rule of an enemy does about shooting: either it holds
    fire and leaves the attack cooldown alone, or the cooldown had run
    out, [count] projectiles leave the enemy and the cooldown restarts at
    [cooldown]. *)
Definition fire_rule (cooldown : Q) (count : nat) (e : Enemy.t)
  (r : list EnemyProjectile.t * Enemy.t) : Prop :=
  Enemy.type (snd r) = Enemy.type e
  /\ Enemy.active (snd r) = Enemy.active e
  /\ Forall (fired_from (Enemy.position (snd r))) (fst r)
  /\ ((fst r = [] /\ Enemy.attack_cooldown (snd r) = Enemy.attack_cooldown e)
      \/ (Enemy.attack_cooldown e <= 0
          /\ Enemy.attack_cooldown (snd r) = cooldown
          /\ length (fst r) = count
          /\ 50 < x (Enemy.position (snd r))
          /\ x (Enemy.position (snd r)) < 750)).

(** The restart value of the attack cooldown and the size of a volley, by
    enemy type (a kamikaze never shoots). *)
Definition fire_cooldown (ty : Enemy.EnemyType) : Q :=
  match ty with
  | Enemy.drone => 2.0
  | Enemy.bomber => 2.5
  | Enemy.gunship => 1.8
  | Enemy.elite => 1.2
  | Enemy.kamikaze => 0
  end.

Definition volley_size (ty : Enemy.EnemyType) : nat :=
  match ty with
  | Enemy.elite => 3
  | Enemy.kamikaze => 0
  | _ => 1
  end.

(** What an attack pattern of a boss returns: either nothing, with the
    boss as it was, or a burst of at most 16 projectiles leaving the boss,
    with the attack timer back at 0. *)
Definition burst (c : Boss.t) (r : list EnemyProjectile.t * Boss.t) : Prop :=
  Forall (fired_from (Boss.position c)) (fst r)
  /\ (length (fst r) <= 16)%nat
  /\ ((fst r = [] /\ snd r = c)
      \/ (fst r <> [] /\ snd r = Boss.with_attack_timer 0 c)).
(** * Properties

    ** Comparisons, [max] and [min] *)

Lemma ltb_spec (a b : Q) : (a <? b) = true <-> a < b.
Proof.
  unfold Py.ltb. rewrite negb_true_iff.
  split; intro H.
  - apply Qnot_le_lt. intro L. apply Qle_bool_iff in L. congruence.
  - destruct (Qle_bool b a) eqn:E; [|reflexivity].
    apply Qle_bool_iff in E. lra.
Qed.

Lemma ltb_false (a b : Q) : (a <? b) = false <-> b <= a.
Proof.
  unfold Py.ltb. rewrite negb_false_iff. apply Qle_bool_iff.
Qed.

Lemma leb_spec (a b : Q) : (a <=? b) = true <-> a <= b.
Proof. apply Qle_bool_iff. Qed.

Lemma leb_false (a b : Q) : (a <=? b) = false <-> b < a.
Proof.
  unfold Py.leb. split; intro H.
  - apply Qnot_le_lt. intro L. apply Qle_bool_iff in L. congruence.
  - destruct (Qle_bool a b) eqn:E; [|reflexivity].
    apply Qle_bool_iff in E. lra.
Qed.

(** Case analysis on every comparison in the goal, innermost first, leaving
    the facts as hypotheses for [lra]. *)
Ltac no_branch e :=
  lazymatch e with
  | context [if _ then _ else _] => fail
  | _ => idtac
  end.

Ltac cmp_cases :=
  repeat match goal with
  | |- context [?a <? ?b] =>
      no_branch a; no_branch b;
      let E := fresh "C" in
      destruct (a <? b) eqn:E;
      [apply ltb_spec in E | apply ltb_false in E]
  | |- context [?a <=? ?b] =>
      no_branch a; no_branch b;
      let E := fresh "C" in
      destruct (a <=? b) eqn:E;
      [apply leb_spec in E | apply leb_false in E]
  end.

(** Case analysis on the branches of a method, for the goals that only
    project a field out of its result. *)
Ltac branches :=
  repeat (cbn;
          match goal with
          | |- context [if ?c then _ else _] => destruct c eqn:?
          end);
  cbn.

Lemma max_spec (a b : Q) :
  (a < b /\ Py.max a b = b) \/ (b <= a /\ Py.max a b = a).
Proof. unfold Py.max. cmp_cases; auto. Qed.

Lemma min_spec (a b : Q) :
  (b < a /\ Py.min a b = b) \/ (a <= b /\ Py.min a b = a).
Proof. unfold Py.min. cmp_cases; auto. Qed.

Lemma max_lb_l (a b : Q) : a <= Py.max a b.
Proof. destruct (max_spec a b) as [[? ->]|[? ->]]; lra. Qed.

Lemma max_lb_r (a b : Q) : b <= Py.max a b.
Proof. destruct (max_spec a b) as [[? ->]|[? ->]]; lra. Qed.

Lemma min_ub_l (a b : Q) : Py.min a b <= a.
Proof. destruct (min_spec a b) as [[? ->]|[? ->]]; lra. Qed.

Lemma min_ub_r (a b : Q) : Py.min a b <= b.
Proof. destruct (min_spec a b) as [[? ->]|[? ->]]; lra. Qed.

Lemma max_ub (a b c : Q) : a <= c -> b <= c -> Py.max a b <= c.
Proof. destruct (max_spec a b) as [[? ->]|[? ->]]; lra. Qed.

Lemma min_lb (a b c : Q) : c <= a -> c <= b -> c <= Py.min a b.
Proof. destruct (min_spec a b) as [[? ->]|[? ->]]; lra. Qed.

(** ** The aircraft: what [update] does to the flight state *)

Section Flight.
Context `{PyMath}.
Import Aircraft.

Ltac flight_hyps F :=
unfold same_flight in F; decompose [and] F; clear F.

Ltac flight_rewrite :=
repeat match goal with
| E : ?f ?a = ?f ?b |- context [?f ?a] => rewrite !E
end.

Ltac flight_congr F :=
flight_hyps F; unfold same_flight; cbn; flight_rewrite;
repeat split; reflexivity.

Lemma same_flight_refl (a : t) : same_flight a a.
Proof. unfold same_flight. repeat split; reflexivity. Qed.

Lemma same_flight_sym (a b : t) : same_flight a b -> same_flight b a.
Proof. intro F. flight_hyps F. unfold same_flight. repeat split; congruence. Qed.

Lemma same_flight_trans (a b c : t) :
same_flight a b -> same_flight b c -> same_flight a c.
Proof.
intros F G. flight_hyps F. flight_hyps G. unfold same_flight.
repeat split; congruence.
Qed.

Lemma update_invulnerability_flight (dt : Q) (a : t) :
same_flight (update_invulnerability dt a) a.
Proof.
unfold update_invulnerability.
destruct (invulnerable a); [|apply same_flight_refl].
cbn. destruct (_ <=? _); unfold same_flight; cbn; repeat split; reflexivity.
Qed.

Lemma update_shield_flight (dt : Q) (a : t) (ws : option Q) :
same_flight (fst (update_shield dt a ws)) a.
Proof.
unfold update_shield.
destruct (shield_active a); [|apply same_flight_refl].
destruct (_ || _); unfold same_flight; cbn; repeat split; reflexivity.
Qed.

Lemma choose_sprite_flight (a : t) : same_flight (choose_sprite a) a.
Proof.
unfold choose_sprite.
destruct (_ <? _); [unfold same_flight; cbn; repeat split; reflexivity|].
destruct (gear_down a); unfold same_flight; cbn; repeat split; reflexivity.
Qed.

Lemma ground_roll_flight (dt : Q) (a b : t) :
same_flight a b -> same_flight (ground_roll dt a) (ground_roll dt b).
Proof. intro F. unfold ground_roll. flight_congr F. Qed.

Lemma _update_ground_physics_flight (dt : Q) (a b : t) :
same_flight a b ->
same_flight (_update_ground_physics dt a) (_update_ground_physics dt b).
Proof.
intro F. apply (ground_roll_flight dt) in F.
unfold _update_ground_physics. cbv zeta.
set (ra := ground_roll dt a) in *. set (rb := ground_roll dt b) in *.
clearbody ra rb.
assert (E : ((240 <=? x (position ra)) && (MIN_TAKEOFF_SPEED <=? x (velocity ra))
             && (15 <=? angle ra))
            = ((240 <=? x (position rb)) && (MIN_TAKEOFF_SPEED <=? x (velocity rb))
               && (15 <=? angle rb))).
{ unfold same_flight in F. decompose [and] F. congruence. }
rewrite E. clear E. destruct (_ && _); [|exact F].
flight_congr F.
Qed.

Lemma air_motion_flight (dt : Q) (a b : t) :
same_flight a b -> same_flight (air_motion dt a) (air_motion dt b).
Proof.
intro F. unfold air_motion. flight_hyps F. unfold same_flight.
flight_rewrite.
destruct ((0 <? thrust b) && (0 <? fuel b)), (0 <? flaps b); cbn;
  flight_rewrite; repeat split; reflexivity.
Qed.

Lemma land_flight (a b : t) : same_flight a b -> same_flight (land a) (land b).
Proof. intro F. unfold land. flight_congr F. Qed.

Lemma crash_flight (a b : t) : same_flight a b -> same_flight (crash a) (crash b).
Proof. intro F. unfold crash. flight_congr F. Qed.

Lemma _check_landing_flight (a b : t) :
same_flight a b -> same_flight (_check_landing a) (_check_landing b).
Proof.
intro F. unfold _check_landing.
pose proof (land_flight a b F) as L. pose proof (crash_flight a b F) as K.
flight_hyps F. flight_rewrite.
destruct (_ && _); [|exact K].
destruct (_ && _); [exact L|exact K].
Qed.

Lemma _update_air_physics_flight (dt : Q) (a b : t) :
same_flight a b ->
same_flight (_update_air_physics dt a) (_update_air_physics dt b).
Proof.
intro F. apply (air_motion_flight dt) in F.
unfold _update_air_physics. cbv zeta.
set (ma := air_motion dt a) in *. set (mb := air_motion dt b) in *.
clearbody ma mb.
pose proof (_check_landing_flight ma mb F) as L.
assert (E : position ma = position mb)
  by (unfold same_flight in F; tauto).
rewrite E. destruct (_ <=? _); assumption.
Qed.

Lemma physics_flight (dt : Q) (a b : t) :
same_flight a b -> same_flight (physics dt a) (physics dt b).
Proof.
intro F. unfold physics.
assert (E : on_ground a = on_ground b) by (unfold same_flight in F; tauto).
rewrite E. destruct (on_ground b).
- apply _update_ground_physics_flight, F.
- apply _update_air_physics_flight, F.
Qed.

Lemma update_fuel_flight (dt : Q) (a b : t) :
same_flight a b -> same_flight (update_fuel dt a) (update_fuel dt b).
Proof.
intro F. unfold update_fuel. flight_hyps F. flight_rewrite.
destruct (0 <? thrust b); cbn; [|unfold same_flight; repeat split; assumption].
flight_rewrite.
destruct (_ <=? _); unfold same_flight; cbn; flight_rewrite;
  repeat split; reflexivity.
Qed.

(** For the flight state, [update] is the physics step followed by the
  fuel consumption. *)
Lemma update_flight (dt : Q) (a : t) (ws : option Q) :
same_flight (fst (update dt a ws)) (update_fuel dt (physics dt a)).
Proof.
unfold update.
pose proof (update_shield_flight dt (update_invulnerability dt a) ws) as S.
destruct (update_shield dt (update_invulnerability dt a) ws) as [b ws'].
cbn [fst] in *.
eapply same_flight_trans; [apply choose_sprite_flight|].
apply update_fuel_flight. fold (physics dt b). apply physics_flight.
eapply same_flight_trans; [exact S|apply update_invulnerability_flight].
Qed.

Lemma update_fuel_keeps (dt : Q) (a : t) :
let a' := update_fuel dt a in
position a' = position a /\ velocity a' = velocity a /\ angle a' = angle a
/\ on_ground a' = on_ground a /\ has_taken_off a' = has_taken_off a
/\ gear_down a' = gear_down a /\ health a' = health a
/\ max_health a' = max_health a /\ max_fuel a' = max_fuel a.
Proof. unfold update_fuel. branches; repeat split; reflexivity. Qed.

(** The fields that the claims observe after [update], read off the
  physics step. *)
Lemma update_observed (dt : Q) (a : t) (ws : option Q) :
let a' := fst (update dt a ws) in
let p := physics dt a in
position a' = position p /\ velocity a' = velocity p /\ angle a' = angle p
/\ on_ground a' = on_ground p /\ has_taken_off a' = has_taken_off p
/\ gear_down a' = gear_down p /\ health a' = health p
/\ max_health a' = max_health p /\ max_fuel a' = max_fuel p.
Proof.
intros a' p. subst a'.
pose proof (update_flight dt a ws) as F. fold p in F.
pose proof (update_fuel_keeps dt p) as K. cbv zeta in K.
unfold same_flight in F. decompose [and] F. decompose [and] K.
repeat split; congruence.
Qed.

(** What the takeoff check does to the rolled aircraft [r]. *)
Lemma takeoff_check (dt : Q) (a : t) :
let r := ground_roll dt a in
let a' := _update_ground_physics dt a in
on_ground a = true ->
position a' = position r /\ x (velocity a') = x (velocity r)
/\ angle a' = angle r
/\ (on_ground a' = false <->
      240 <= x (position r) /\ 3.5 <= x (velocity r) /\ 15 <= angle r)
/\ (on_ground a' = false ->
      has_taken_off a' = true /\ gear_down a' = false
      /\ y (velocity a') = -2.2).
Proof.
intros r a' G. subst a'. unfold _update_ground_physics, MIN_TAKEOFF_SPEED.
fold r.
assert (Gr : on_ground r = true) by exact G.
clearbody r.
cmp_cases; cbn; repeat split; auto; try congruence; try tauto;
  try (intros [? [? ?]]; lra).
Qed.

(** C1.  While the aircraft is on the ground, an update takes it off
  exactly when, after that update's ground physics (the state
  [ground_roll dt a], whose position, horizontal speed and pitch are
  those of the updated aircraft), [position.x >= 240], [velocity.x >=
  3.5] and [angle >= 15] hold together.  On the transition [on_ground]
  is false, [has_taken_off] is true, the gear is up and [velocity.y] is
  -2.2.  In particular an aircraft at [x = 245] with [velocity.x = 4.0]
  and [angle = 16], thrust 0 and brakes off, takes off on the next
  update. *)
Theorem ground_to_air_transition (dt : Q) (a : t) (ws : option Q) :
on_ground a = true ->
let r := ground_roll dt a in
let a' := fst (update dt a ws) in
(x (position a') == x (position r) /\ x (velocity a') == x (velocity r)
 /\ angle a' == angle r)
/\ (on_ground a' = false <->
      240 <= x (position r) /\ 3.5 <= x (velocity r) /\ 15 <= angle r)
/\ (on_ground a' = false ->
      has_taken_off a' = true /\ gear_down a' = false
      /\ y (velocity a') == -2.2)
/\ (x (position a) == 245 -> x (velocity a) == 4.0 -> angle a == 16 ->
    thrust a == 0 -> brakes_active a = false ->
    drag a == 0.97 -> max_speed a == 10.0 ->
    on_ground a' = false /\ has_taken_off a' = true
    /\ y (velocity a') == -2.2).
Proof.
intros G r a'.
pose proof (update_observed dt a ws) as O. cbv zeta in O. fold a' in O.
unfold physics in O. rewrite G in O.
destruct O as (OP & OV & OA & OG & OT & OD & _).
pose proof (takeoff_check dt a G) as K. cbv zeta in K. fold r in K.
destruct K as (KP & KV & KA & Kiff & Kset).
rewrite OP, OV, OA, OG, OT, OD, KP, KV, KA.
assert (Off : on_ground (_update_ground_physics dt a) = false ->
              has_taken_off (_update_ground_physics dt a) = true
              /\ gear_down (_update_ground_physics dt a) = false
              /\ y (velocity (_update_ground_physics dt a)) == -2.2).
{ intro O. destruct (Kset O) as (? & ? & ->). repeat split; auto;
  reflexivity. }
split; [repeat split; reflexivity|].
split; [exact Kiff|].
split; [exact Off|].
intros Hx Hv Ha Ht Hb Hd Hm.
assert (O : on_ground (_update_ground_physics dt a) = false).
{ apply Kiff. subst r. unfold ground_roll. cbn.
  rewrite Hb.
  assert (Hvd : x (velocity a) * drag a == 4.0 * 0.97)
    by (rewrite Hv, Hd; reflexivity).
  assert (T0 : (0 <? thrust a) = false) by (apply ltb_false; lra).
  rewrite T0.
  unfold Py.max, Py.min. cmp_cases; repeat split; lra. }
destruct (Off O) as (? & ? & ?). auto.
Qed.

End Flight.

(** The scenario of C1 on the concrete aircraft [Scene.rolling]. *)
Lemma ground_to_air_transition_witness :
  let a' := fst (@Aircraft.update rational_math 0.016 Scene.rolling None) in
  Aircraft.on_ground Scene.rolling = true
  /\ Aircraft.on_ground a' = false
  /\ Aircraft.has_taken_off a' = true
  /\ y (Aircraft.velocity a') == -2.2.
Proof.
  split; [reflexivity|].
  apply (@ground_to_air_transition rational_math 0.016 Scene.rolling None eq_refl);
    reflexivity.
Defined.

(** ** The aircraft: landing and crash *)

Section Landing.
Context `{PyMath}.
Import Aircraft.

Lemma landing_envelope_dec (a : t) :
((RUNWAY_X_START <=? x (position a)) && (x (position a) <=? RUNWAY_X_END)
 && ((Py.abs (y (velocity a)) <=? MAX_LANDING_SPEED)
     && (Py.abs (angle a) <=? MAX_LANDING_ANGLE))) = true
<-> landing_envelope a.
Proof.
unfold landing_envelope, Py.abs, MAX_LANDING_SPEED, MAX_LANDING_ANGLE.
rewrite !andb_true_iff, !leb_spec. tauto.
Qed.

(** [_check_landing] lands inside the envelope and crashes outside. *)
Lemma _check_landing_spec (a : t) :
(landing_envelope a -> _check_landing a = land a)
/\ (~ landing_envelope a -> _check_landing a = crash a).
Proof.
rewrite <- landing_envelope_dec. unfold _check_landing.
destruct (RUNWAY_X_START <=? x (position a)),
  (x (position a) <=? RUNWAY_X_END),
  (Py.abs (y (velocity a)) <=? MAX_LANDING_SPEED),
  (Py.abs (angle a) <=? MAX_LANDING_ANGLE); cbn;
  split; intros; congruence.
Qed.

(** C2.  When the vertical position of the airborne aircraft reaches
  ground level after its motion (the state [air_motion dt a]), the
  physics step calls [land] if the aircraft is within the runway
  bounds with [|velocity.y| <= 3.0] and [|angle| <= 15.0], and [crash]
  in every other case.  [land] sets [on_ground], zeroes [velocity.y],
  snaps [position.y] to ground level and extends the gear; [crash]
  forces the health to 0.  The same holds of the aircraft after the
  whole [update]. *)
Theorem ground_contact (dt : Q) (a : t) (ws : option Q) :
let m := air_motion dt a in
let a' := fst (update dt a ws) in
GROUND_LEVEL <= y (position m) ->
(landing_envelope m -> _update_air_physics dt a = land m)
/\ (~ landing_envelope m -> _update_air_physics dt a = crash m)
/\ (on_ground (land m) = true /\ y (velocity (land m)) == 0
    /\ y (position (land m)) == GROUND_LEVEL /\ gear_down (land m) = true
    /\ health (land m) = health a)
/\ health (crash m) == 0
/\ (on_ground a = false ->
    (landing_envelope m ->
       on_ground a' = true /\ y (velocity a') == 0
       /\ y (position a') == GROUND_LEVEL /\ gear_down a' = true
       /\ health a' = health a)
    /\ (~ landing_envelope m -> health a' == 0 /\ on_ground a' = false)).
Proof.
intros m a' Y.
assert (E : _update_air_physics dt a = _check_landing m).
{ unfold _update_air_physics. fold m. cbv zeta.
  apply leb_spec in Y. rewrite Y. reflexivity. }
destruct (_check_landing_spec m) as [L K].
assert (Hm : health m = health a /\ on_ground m = on_ground a).
{ subst m. unfold air_motion. branches; split; reflexivity. }
destruct Hm as [Hm Gm]. clearbody m.
assert (EL : on_ground (land m) = true /\ y (velocity (land m)) == 0
    /\ y (position (land m)) == GROUND_LEVEL /\ gear_down (land m) = true
    /\ health (land m) = health a).
{ cbn. repeat split; try reflexivity. exact Hm. }
split; [intro I; rewrite E; auto|].
split; [intro I; rewrite E; auto|].
split; [exact EL|].
split; [reflexivity|].
intro G.
pose proof (update_observed dt a ws) as O. cbv zeta in O. fold a' in O.
unfold physics in O. rewrite G, E in O.
destruct O as (OP & OV & OA & OG & OT & OD & OH & _).
rewrite OP, OV, OG, OD, OH.
split; intro I.
- rewrite (L I). exact EL.
- rewrite (K I). cbn. split; [reflexivity|]. congruence.
Qed.

End Landing.

(** C2 on the concrete aircraft [Scene.touching_down]: it lands. *)
Lemma ground_contact_witness :
  let m := @Aircraft.air_motion rational_math 0.016 Scene.touching_down in
  Aircraft.GROUND_LEVEL <= y (Aircraft.position m)
  /\ landing_envelope m
  /\ @Aircraft._update_air_physics rational_math 0.016 Scene.touching_down
     = Aircraft.land m.
Proof.
  assert (Y : Aircraft.GROUND_LEVEL
              <= y (Aircraft.position
                      (@Aircraft.air_motion rational_math 0.016
                         Scene.touching_down)))
    by (vm_compute; discriminate).
  assert (I : landing_envelope
                (@Aircraft.air_motion rational_math 0.016 Scene.touching_down))
    by (repeat split; vm_compute; discriminate).
  split; [exact Y|]. split; [exact I|].
  exact (proj1 (@ground_contact rational_math 0.016 Scene.touching_down None Y) I).
Defined.

(** ** The aircraft: damage and the invulnerability window *)

Section Damage.
Context `{PyMath}.
Import Aircraft.

Lemma same_window_trans (a b c : t) :
same_window a b -> same_window b c -> same_window a c.
Proof. unfold same_window. intros [? ?] [? ?]. split; congruence. Qed.

Lemma update_shield_window (dt : Q) (a : t) (ws : option Q) :
same_window (fst (update_shield dt a ws)) a.
Proof. unfold update_shield, same_window. branches; split; reflexivity. Qed.

Lemma _update_ground_physics_window (dt : Q) (a : t) :
same_window (_update_ground_physics dt a) a.
Proof.
unfold _update_ground_physics, ground_roll, same_window.
branches; split; reflexivity.
Qed.

Lemma air_motion_window (dt : Q) (a : t) : same_window (air_motion dt a) a.
Proof. unfold air_motion, same_window. branches; split; reflexivity. Qed.

Lemma _check_landing_window (a : t) : same_window (_check_landing a) a.
Proof.
unfold _check_landing, land, crash, same_window.
branches; split; reflexivity.
Qed.

Lemma physics_window (dt : Q) (a : t) : same_window (physics dt a) a.
Proof.
unfold physics. destruct (on_ground a).
- apply _update_ground_physics_window.
- unfold _update_air_physics. cbv zeta. destruct (_ <=? _).
  + eapply same_window_trans;
      [apply _check_landing_window|apply air_motion_window].
  + apply air_motion_window.
Qed.

Lemma update_fuel_window (dt : Q) (a : t) : same_window (update_fuel dt a) a.
Proof. unfold update_fuel, same_window. branches; split; reflexivity. Qed.

Lemma choose_sprite_window (a : t) : same_window (choose_sprite a) a.
Proof. unfold choose_sprite, same_window. branches; split; reflexivity. Qed.

(** Only the first stage of [update] touches the invulnerability window. *)
Lemma update_window (dt : Q) (a : t) (ws : option Q) :
same_window (fst (update dt a ws)) (update_invulnerability dt a).
Proof.
unfold update.
pose proof (update_shield_window dt (update_invulnerability dt a) ws) as S.
destruct (update_shield dt (update_invulnerability dt a) ws) as [b ws'].
cbn [fst] in *.
eapply same_window_trans; [apply choose_sprite_window|].
eapply same_window_trans; [apply update_fuel_window|].
eapply same_window_trans; [apply (physics_window dt b)|].
exact S.
Qed.

(** A hit on a vulnerable aircraft. *)
Lemma take_damage_hit (amount : Q) (a : t) :
invulnerable a = false ->
let r := take_damage amount a in
(health a - amount < 0 -> health (snd r) == 0)
/\ (0 <= health a - amount -> health (snd r) == health a - amount)
/\ invulnerable (snd r) = true
/\ invulnerable_timer (snd r) == 0.2
/\ (fst r = true <-> health (snd r) == 0).
Proof.
intros V r. subst r. unfold take_damage. rewrite V. cbn.
destruct (health a - amount <? 0) eqn:E; cbn.
- apply ltb_spec in E. repeat split; try reflexivity; try lra.
- apply ltb_false in E.
  repeat split; try reflexivity; try lra.
  + intro L. apply leb_spec in L. lra.
  + intro Z. apply leb_spec. lra.
Qed.

(** C4.  [take_damage] on an invulnerable aircraft returns [False] and
  changes nothing.  On a vulnerable aircraft it subtracts [amount] from
  the health with a floor at 0, sets the invulnerability flag with a
  timer of 0.2, and returns [True] exactly when the health is 0
  afterwards.  When an update brings the timer of an invulnerable
  aircraft to 0 or below, the flag is cleared by that update, and the
  next hit (of a positive amount, on an aircraft with health left)
  lowers the health. *)
Theorem take_damage_window (amount dt : Q) (a : t) (ws : option Q) :
(invulnerable a = true -> take_damage amount a = (false, a))
/\ (invulnerable a = false ->
    let r := take_damage amount a in
    (health a - amount < 0 -> health (snd r) == 0)
    /\ (0 <= health a - amount -> health (snd r) == health a - amount)
    /\ invulnerable (snd r) = true
    /\ invulnerable_timer (snd r) == 0.2
    /\ (fst r = true <-> health (snd r) == 0))
/\ (invulnerable a = true -> invulnerable_timer a - dt <= 0 ->
    let b := fst (update dt a ws) in
    invulnerable b = false
    /\ forall hit : Q, 0 < hit -> 0 < health b ->
         health (snd (take_damage hit b)) < health b)
/\ (invulnerable a = true -> 0 < invulnerable_timer a - dt ->
    invulnerable (fst (update dt a ws)) = true).
Proof.
split; [|split; [|split]].
- intro V. unfold take_damage. rewrite V. reflexivity.
- apply take_damage_hit.
- intros V T b.
  assert (Vb : invulnerable b = false).
  { destruct (update_window dt a ws) as [W _]. subst b. rewrite W.
    unfold update_invulnerability. rewrite V. cbn.
    apply leb_spec in T. rewrite T. reflexivity. }
  split; [exact Vb|].
  intros hit P Hb.
  destruct (take_damage_hit hit b Vb) as (F & S & _).
  destruct (Qlt_le_dec (health b - hit) 0) as [L|L].
  + rewrite (F L). exact Hb.
  + rewrite (S L). lra.
- intros V T.
  destruct (update_window dt a ws) as [W _]. rewrite W.
  unfold update_invulnerability. rewrite V. cbn.
  apply leb_false in T. rewrite T. exact V.
Qed.

End Damage.

(** C4 on [Scene.cruising]: a hit of 10 leaves health 90 and opens the
    window; a second hit inside the window changes nothing; after an
    update of 0.25 s the window is over and a hit of 10 lowers the health
    again. *)
Lemma take_damage_window_witness :
  let hit := snd (Aircraft.take_damage 10 Scene.cruising) in
  let later := fst (@Aircraft.update rational_math 0.25 hit None) in
  Aircraft.invulnerable hit = true
  /\ Aircraft.invulnerable_timer hit - 0.25 <= 0
  /\ Aircraft.take_damage 10 hit = (false, hit)
  /\ Aircraft.invulnerable later = false
  /\ Aircraft.health (snd (Aircraft.take_damage 10 later)) < Aircraft.health later.
Proof.
  cbv zeta.
  pose proof (@take_damage_window rational_math 10 0.25
                (snd (Aircraft.take_damage 10 Scene.cruising)) None) as W.
  destruct W as (W1 & _ & W3 & _).
  assert (V : Aircraft.invulnerable
                (snd (Aircraft.take_damage 10 Scene.cruising)) = true)
    by reflexivity.
  assert (T : Aircraft.invulnerable_timer
                (snd (Aircraft.take_damage 10 Scene.cruising)) - 0.25 <= 0)
    by (vm_compute; discriminate).
  destruct (W3 V T) as [B Hit].
  split; [exact V|]. split; [exact T|]. split; [exact (W1 V)|].
  split; [exact B|].
  apply Hit; vm_compute; reflexivity.
Defined.

(** ** The weapon system: cooldown gates *)

Section Firing.
Context `{PyMath}.
Import WeaponSystem.

Lemma get_set_same (key : Channel) (v : Q) (d : Timers) :
get key (set key v d) = v.
Proof. destruct key; reflexivity. Qed.

Lemma get_set_other (key other : Channel) (v : Q) (d : Timers) :
key <> other -> get other (set key v d) = get other d.
Proof. destruct key, other; intro N; try reflexivity; congruence. Qed.

(** C3.  For each of the four channels, the operation invoked while the
  channel's cooldown is positive returns [False] and leaves the weapon
  system (and, for the shield, the aircraft) exactly as it was: no
  projectile is added and no resource pool changes.  Invoked with the
  cooldown at 0 and the channel's resource precondition met (a missile
  in stock, a laser charge of at least 30, a shield energy of at least
  40; none for the primary weapon) it returns [True] and sets the
  channel's cooldown to its entry in [cooldown_times]: 0.15, 1.5, 3.0
  and 8.0 seconds in a weapon system built by [__init__]. *)
Theorem fire_gated (a : Aircraft.t) (w : t) :
(0 < get primary (cooldowns w) -> fire_primary a w = (false, w))
/\ (0 < get missile (cooldowns w) -> fire_missile a w = (false, w))
/\ (0 < get laser (cooldowns w) -> fire_laser a w = (false, w))
/\ (0 < get shield (cooldowns w) -> activate_shield a w = (false, w, a))
/\ (get primary (cooldowns w) == 0 ->
    fst (fire_primary a w) = true
    /\ get primary (cooldowns (snd (fire_primary a w)))
       = get primary (cooldown_times w))
/\ (get missile (cooldowns w) == 0 -> (1 <= missile_count w)%Z ->
    fst (fire_missile a w) = true
    /\ get missile (cooldowns (snd (fire_missile a w)))
       = get missile (cooldown_times w))
/\ (get laser (cooldowns w) == 0 -> 30 <= laser_charge w ->
    fst (fire_laser a w) = true
    /\ get laser (cooldowns (snd (fire_laser a w)))
       = get laser (cooldown_times w))
/\ (get shield (cooldowns w) == 0 -> 40 <= shield_energy w ->
    fst (fst (activate_shield a w)) = true
    /\ get shield (cooldowns (snd (fst (activate_shield a w))))
       = get shield (cooldown_times w))
/\ (cooldown_times w = cooldown_times init ->
    get primary (cooldown_times w) == 0.15
    /\ get missile (cooldown_times w) == 1.5
    /\ get laser (cooldown_times w) == 3.0
    /\ get shield (cooldown_times w) == 8.0).
Proof.
repeat apply conj.
- intro P. apply ltb_spec in P. unfold fire_primary. rewrite P. reflexivity.
- intro P. apply ltb_spec in P. unfold fire_missile. rewrite P. reflexivity.
- intro P. apply ltb_spec in P. unfold fire_laser. rewrite P. reflexivity.
- intro P. apply ltb_spec in P. unfold activate_shield. rewrite P.
  reflexivity.
- intro Z.
  assert (C : (0 <? get primary (cooldowns w)) = false)
    by (apply ltb_false; lra).
  unfold fire_primary. rewrite C. cbn [fst snd].
  split; [reflexivity|].
  branches; reflexivity.
- intros Z M.
  assert (C : (0 <? get missile (cooldowns w)) = false)
    by (apply ltb_false; lra).
  assert (N : (missile_count w <=? 0)%Z = false) by (apply Z.leb_gt; lia).
  unfold fire_missile. rewrite C, N. cbn.
  split; reflexivity.
- intros Z L.
  assert (C : (0 <? get laser (cooldowns w)) = false)
    by (apply ltb_false; lra).
  assert (N : (laser_charge w <? 30) = false) by (apply ltb_false; lra).
  unfold fire_laser. rewrite C, N. cbn.
  split; reflexivity.
- intros Z E.
  assert (C : (0 <? get shield (cooldowns w)) = false)
    by (apply ltb_false; lra).
  assert (N : (shield_energy w <? 40) = false) by (apply ltb_false; lra).
  unfold activate_shield. rewrite C, N. cbn.
  split; reflexivity.
- intros ->. cbn. repeat split; reflexivity.
Qed.

End Firing.

(** C3 on concrete weapon systems: [Scene.cooling] refuses every
    operation, [Scene.armed] accepts every one and restarts the cooldown. *)
Lemma fire_gated_witness :
  (@WeaponSystem.fire_primary rational_math Aircraft.init Scene.cooling
   = (false, Scene.cooling)
   /\ WeaponSystem.fire_missile Aircraft.init Scene.cooling
      = (false, Scene.cooling)
   /\ WeaponSystem.fire_laser Aircraft.init Scene.cooling
      = (false, Scene.cooling)
   /\ WeaponSystem.activate_shield Aircraft.init Scene.cooling
      = (false, Scene.cooling, Aircraft.init))
  /\ (fst (@WeaponSystem.fire_primary rational_math Aircraft.init Scene.armed)
      = true
      /\ fst (WeaponSystem.fire_missile Aircraft.init Scene.armed) = true
      /\ fst (WeaponSystem.fire_laser Aircraft.init Scene.armed) = true
      /\ fst (fst (WeaponSystem.activate_shield Aircraft.init Scene.armed))
         = true).
Proof.
  pose proof (@fire_gated rational_math Aircraft.init Scene.cooling)
    as (P & M & L & S & _).
  pose proof (@fire_gated rational_math Aircraft.init Scene.armed)
    as (_ & _ & _ & _ & P' & M' & L' & S' & _).
  refine (conj (conj (P _) (conj (M _) (conj (L _) (S _))))
            (conj (proj1 (P' _))
               (conj (proj1 (M' _ _))
                  (conj (proj1 (L' _ _)) (proj1 (S' _ _))))));
    vm_compute; congruence.
Defined.

(** ** The boss: damage, phase transitions and the entry glide *)

Section BossDamage.
Context `{PyMath}.
Import Boss.

(** An attack pattern restarts the attack timer or leaves the boss as it
  is. *)
Lemma _hive_queen_attack_boss dt p b ps b' :
_hive_queen_attack dt p b = Some (ps, b') ->
b' = b \/ b' = with_attack_timer 0 b.
Proof.
unfold _hive_queen_attack, aimed, bind.
repeat match goal with
       | |- context [if ?c then _ else _] => destruct c
       | |- context [match ?c with Some _ => _ | None => _ end] => destruct c
       end;
  intro E; inversion E; auto.
Qed.

Lemma _aegis_defender_attack_boss dt p b ps b' :
_aegis_defender_attack dt p b = Some (ps, b') ->
b' = b \/ b' = with_attack_timer 0 b.
Proof.
unfold _aegis_defender_attack, aimed, bind.
repeat match goal with
       | |- context [if ?c then _ else _] => destruct c
       | |- context [match ?c with Some _ => _ | None => _ end] => destruct c
       end;
  intro E; inversion E; auto.
Qed.

Lemma _final_destroyer_attack_boss dt p r b ps b' :
_final_destroyer_attack dt p r b = Some (ps, b') ->
b' = b \/ b' = with_attack_timer 0 b.
Proof.
unfold _final_destroyer_attack, aimed, bind.
repeat match goal with
       | |- context [if ?c then _ else _] => destruct c
       | |- context [match ?c with Some _ => _ | None => _ end] => destruct c
       end;
  intro E; inversion E; auto.
Qed.

(** [update] never touches the health, the maximum health or the active
  flag. *)
Lemma update_keeps_health dt p r b ps b' :
update dt p r b = Some (ps, b') ->
health b' = health b /\ max_health b' = max_health b /\ active b' = active b.
Proof.
unfold update.
destruct (negb (active b)); [intro E; inversion E; auto|].
cbn.
destruct (negb (entered b)).
{ destruct (_ <? _); intro E; inversion E; auto. }
set (c := check_phase_transitions _).
assert (K : health c = health b /\ max_health c = max_health b
            /\ active c = active b).
{ subst c. unfold check_phase_transitions. branches; auto. }
clearbody c.
destruct (0 <? phase_transition_timer c); [intro E; inversion E; subst; cbn; auto|].
unfold bind.
destruct (type c).
- destruct (_hive_queen_attack dt p c) as [[qs d]|] eqn:A; [|discriminate].
  intro E; inversion E; subst.
  apply _hive_queen_attack_boss in A. destruct A; subst; cbn; auto.
- destruct (_aegis_defender_attack dt p c) as [[qs d]|] eqn:A; [|discriminate].
  intro E; inversion E; subst.
  apply _aegis_defender_attack_boss in A. destruct A; subst; cbn; auto.
- destruct (_final_destroyer_attack dt p r c) as [[qs d]|] eqn:A; [|discriminate].
  intro E; inversion E; subst.
  apply _final_destroyer_attack_boss in A. destruct A; subst; cbn; auto.
Qed.

(** In a phase-transition window [update] cannot raise and fires nothing. *)
Lemma update_in_window dt p r b :
0 < phase_transition_timer b ->
exists b', update dt p r b = Some ([], b').
Proof.
intro T. unfold update.
destruct (negb (active b)); [eauto|]. cbn.
destruct (negb (entered b)); [destruct (_ <? _); eauto|].
set (c := check_phase_transitions _).
assert (K : 0 < phase_transition_timer c).
{ subst c. unfold check_phase_transitions. branches; try lra; exact T. }
apply ltb_spec in K. rewrite K. eauto.
Qed.

(** C5.  For every boss and every amount, [take_damage] invoked while
  the phase-transition timer is positive returns [False] and leaves the
  boss, its health and its active flag as they are.  The only other
  method that runs during the window, [update], returns without firing
  and without changing the health: the health of a boss does not
  decrease during a phase-transition window. *)
Theorem boss_immune_in_transition (amount dt : Q) (player_pos : Vector2)
(rnd : Q) (b : t) :
0 < phase_transition_timer b ->
take_damage amount b = (false, b)
/\ health (snd (take_damage amount b)) = health b
/\ active (snd (take_damage amount b)) = active b
/\ exists b', update dt player_pos rnd b = Some ([], b')
              /\ health b' = health b.
Proof.
intro T.
assert (E : take_damage amount b = (false, b)).
{ unfold take_damage. apply ltb_spec in T. rewrite T. reflexivity. }
rewrite E. cbn. repeat split.
destruct (update_in_window dt player_pos rnd b T) as [b' U].
exists b'. split; [exact U|].
apply (update_keeps_health _ _ _ _ _ _ U).
Qed.

(** Outside a phase-transition window the damage is subtracted in full,
  whatever the state of the entry animation. *)
Lemma take_damage_outside_window (amount : Q) (b : t) :
phase_transition_timer b <= 0 ->
let r := take_damage amount b in
health (snd r) == health b - amount
/\ (fst r = true <-> health b - amount <= 0)
/\ (fst r = true -> active (snd r) = false).
Proof.
intros T r. subst r. unfold take_damage.
apply ltb_false in T. rewrite T. cbn.
destruct (health b - amount <=? 0) eqn:E; cbn.
- apply leb_spec in E. repeat split; auto; reflexivity.
- apply leb_false in E. repeat split; try reflexivity; try discriminate.
  intro L. lra.
Qed.

(** During the entry glide [update] cannot raise, fires nothing and
  evaluates no phase transition. *)
Lemma update_during_entry dt p r b :
entered b = false ->
exists b', update dt p r b = Some ([], b')
           /\ phase_transition_timer b' = phase_transition_timer b
           /\ phase b' = phase b /\ health b' = health b.
Proof.
intro N. unfold update.
destruct (negb (active b)); [eauto|]. cbn. rewrite N. cbn.
destruct (_ <? _); eexists; (split; [reflexivity|]); cbn; auto.
Qed.

(** [update] never takes the [entered] flag back. *)
Lemma update_entered_mono dt p r b ps b' :
update dt p r b = Some (ps, b') -> entered b = true -> entered b' = true.
Proof.
intros U N. revert U. unfold update.
destruct (negb (active b)); [intro E; inversion E; subst; auto|].
cbn. rewrite N. cbn.
set (c := check_phase_transitions _).
assert (K : entered c = true).
{ subst c. unfold check_phase_transitions. branches; auto. }
clearbody c.
destruct (0 <? phase_transition_timer c); [intro E; inversion E; subst; cbn; auto|].
unfold bind.
destruct (type c).
- destruct (_hive_queen_attack dt p c) as [[qs d]|] eqn:A; [|discriminate].
  intro E; inversion E; subst.
  apply _hive_queen_attack_boss in A. destruct A; subst; cbn; auto.
- destruct (_aegis_defender_attack dt p c) as [[qs d]|] eqn:A; [|discriminate].
  intro E; inversion E; subst.
  apply _aegis_defender_attack_boss in A. destruct A; subst; cbn; auto.
- destruct (_final_destroyer_attack dt p r c) as [[qs d]|] eqn:A; [|discriminate].
  intro E; inversion E; subst.
  apply _final_destroyer_attack_boss in A. destruct A; subst; cbn; auto.
Qed.

(** A boss that has not entered after a sequence of updates has the
  timer, the phase and the health it started with. *)
Lemma run_boss_before_entry (inputs : list (Q * Vector2 * Q)) :
forall b b' : t,
  run_boss inputs b = Some b' -> entered b' = false ->
  entered b = false
  /\ phase_transition_timer b' = phase_transition_timer b
  /\ phase b' = phase b /\ health b' = health b.
Proof.
induction inputs as [|[[dt p] r] rest IH]; intros b b' R N.
- cbn in R. inversion R; subst. auto.
- cbn in R. unfold bind in R.
  destruct (update dt p r b) as [[ps b1]|] eqn:U; [|discriminate].
  destruct (IH b1 b' R N) as (N1 & T1 & P1 & H1).
  assert (Nb : entered b = false).
  { destruct (entered b) eqn:Eb; [|reflexivity].
    pose proof (update_entered_mono _ _ _ _ _ _ U Eb). congruence. }
  destruct (update_during_entry dt p r b Nb) as (b2 & U2 & T2 & P2 & H2).
  rewrite U in U2. inversion U2; subst b2.
  repeat split; congruence.
Qed.

(** C10.  [take_damage] rejects damage only when the phase-transition
  timer is positive: with the timer at 0 or below, the amount is
  subtracted in full and the boss is destroyed when its health reaches
  0, whether or not it has entered.  A new boss has the timer at 0 and
  has not entered; updates evaluate no phase transition before the
  entry animation completes, so after any sequence of updates a boss
  that has not entered still has the timer at 0.  Hence a boss takes full
  damage, and can be destroyed, during its entry glide. *)
Theorem boss_vulnerable_during_entry (oid : Ref) (position : Vector2)
(boss_type : BossType) (inputs : list (Q * Vector2 * Q)) (amount : Q)
(b : t) :
(0 < phase_transition_timer b -> take_damage amount b = (false, b))
/\ (phase_transition_timer b <= 0 ->
    health (snd (take_damage amount b)) == health b - amount
    /\ (fst (take_damage amount b) = true <-> health b - amount <= 0)
    /\ (fst (take_damage amount b) = true ->
        active (snd (take_damage amount b)) = false))
/\ (phase_transition_timer (init oid position boss_type) == 0
    /\ entered (init oid position boss_type) = false)
/\ (run_boss inputs (init oid position boss_type) = Some b ->
    entered b = false ->
    phase_transition_timer b == 0
    /\ health b == max_health b
    /\ health (snd (take_damage amount b)) == health b - amount
    /\ (health b <= amount ->
        fst (take_damage amount b) = true
        /\ active (snd (take_damage amount b)) = false)).
Proof.
split; [|split; [|split]].
- intro T. unfold take_damage. apply ltb_spec in T. rewrite T. reflexivity.
- apply take_damage_outside_window.
- destruct boss_type; cbn; split; reflexivity.
- intros R N.
  destruct (run_boss_before_entry inputs _ _ R N) as (_ & T & _ & Hh).
  assert (T0 : phase_transition_timer b == 0).
  { rewrite T. destruct boss_type; reflexivity. }
  assert (Hm : health b == max_health b).
  { rewrite Hh.
    assert (M : max_health b = max_health (init oid position boss_type)).
    { clear - R. revert b R.
      generalize (init oid position boss_type) as b0.
      induction inputs as [|[[dt p] r] rest IH]; intros b0 b R.
      - cbn in R. inversion R; reflexivity.
      - cbn in R. unfold bind in R.
        destruct (update dt p r b0) as [[ps b1]|] eqn:U; [|discriminate].
        rewrite (IH _ _ R).
        apply (update_keeps_health _ _ _ _ _ _ U). }
    rewrite M. destruct boss_type; reflexivity. }
  assert (Tle : phase_transition_timer b <= 0) by lra.
  destruct (take_damage_outside_window amount b Tle) as (D1 & D2 & D3).
  split; [exact T0|]. split; [exact Hm|]. split; [exact D1|].
  intro L. assert (F : fst (take_damage amount b) = true)
    by (apply D2; lra).
  split; [exact F|exact (D3 F)].
Qed.

End BossDamage.

(** C5 on [Scene.shifting_queen]: a hit of 1000 is rejected. *)
Lemma boss_immune_in_transition_witness :
  0 < Boss.phase_transition_timer Scene.shifting_queen
  /\ Boss.take_damage 1000 Scene.shifting_queen = (false, Scene.shifting_queen).
Proof.
  assert (T : 0 < Boss.phase_transition_timer Scene.shifting_queen)
    by reflexivity.
  split; [exact T|].
  exact (proj1 (@boss_immune_in_transition rational_math 1000 0.016
                  (vec2 150 300) 0.5 Scene.shifting_queen T)).
Defined.

(** C10 on [Scene.queen]: after three updates the boss is still gliding
    in, and a hit of 800 destroys it. *)
Lemma boss_vulnerable_during_entry_witness :
  let inputs := [(0.016, vec2 150 300, 0.5); (0.016, vec2 150 300, 0.5);
                 (0.016, vec2 150 300, 0.5)] in
  exists b : Boss.t,
    @run_boss rational_math inputs Scene.queen = Some b
    /\ Boss.entered b = false
    /\ Boss.health b <= 800
    /\ fst (Boss.take_damage 800 b) = true
    /\ Boss.active (snd (Boss.take_damage 800 b)) = false.
Proof.
  cbv zeta.
  destruct (@run_boss rational_math
              [(0.016, vec2 150 300, 0.5); (0.016, vec2 150 300, 0.5);
               (0.016, vec2 150 300, 0.5)] Scene.queen) as [b|] eqn:R;
    [|vm_compute in R; discriminate].
  assert (N : Boss.entered b = false)
    by (vm_compute in R; inversion R; reflexivity).
  assert (L : Boss.health b <= 800)
    by (vm_compute in R; inversion R; vm_compute; discriminate).
  exists b. split; [reflexivity|]. split; [exact N|]. split; [exact L|].
  pose proof (@boss_vulnerable_during_entry rational_math 0%nat (vec2 900 300)
                Boss.hive_queen
                [(0.016, vec2 150 300, 0.5); (0.016, vec2 150 300, 0.5);
                 (0.016, vec2 150 300, 0.5)] 800 b) as (_ & _ & _ & W).
  destruct (W R N) as (_ & _ & _ & D).
  exact (D L).
Defined.

(** ** Health and fuel bounds *)

Section Bounds.
Context `{PyMath}.

(** *** The aircraft *)

Lemma physics_resources (dt : Q) (a : Aircraft.t) :
let p := physics dt a in
(Aircraft.health p = Aircraft.health a \/ Aircraft.health p = 0)
/\ Aircraft.max_health p = Aircraft.max_health a
/\ Aircraft.fuel p = Aircraft.fuel a
/\ Aircraft.max_fuel p = Aircraft.max_fuel a
/\ Aircraft.thrust p = Aircraft.thrust a.
Proof.
unfold physics. destruct (Aircraft.on_ground a).
- unfold Aircraft._update_ground_physics, Aircraft.ground_roll.
  branches; auto 10.
- unfold Aircraft._update_air_physics. cbv zeta.
  set (m := Aircraft.air_motion dt a).
  assert (M : Aircraft.health m = Aircraft.health a
              /\ Aircraft.max_health m = Aircraft.max_health a
              /\ Aircraft.fuel m = Aircraft.fuel a
              /\ Aircraft.max_fuel m = Aircraft.max_fuel a
              /\ Aircraft.thrust m = Aircraft.thrust a).
  { subst m. unfold Aircraft.air_motion. branches; auto 10. }
  clearbody m. destruct M as (Mh & Mm & Mf & Mx & Mt).
  rewrite <- Mh, <- Mm, <- Mf, <- Mx, <- Mt.
  unfold Aircraft._check_landing, Aircraft.land, Aircraft.crash.
  branches; auto 10.
Qed.

Lemma update_fuel_bounds (dt : Q) (a : Aircraft.t) :
0 <= dt -> 0 <= Aircraft.fuel a ->
0 <= Aircraft.fuel (Aircraft.update_fuel dt a)
/\ Aircraft.fuel (Aircraft.update_fuel dt a) <= Aircraft.fuel a.
Proof.
intros D F. unfold Aircraft.update_fuel.
destruct (0 <? Aircraft.thrust a) eqn:T; [|cbn; lra].
apply ltb_spec in T.
assert (P : 0 <= Aircraft.thrust a * 0.005 * dt).
{ apply Qmult_le_0_compat; [|exact D].
  apply Qmult_le_0_compat; lra. }
cbn.
assert (B : 0 <= Py.max 0 (Aircraft.fuel a - Aircraft.thrust a * 0.005 * dt)
            /\ Py.max 0 (Aircraft.fuel a - Aircraft.thrust a * 0.005 * dt)
               <= Aircraft.fuel a).
{ split; [apply max_lb_l|apply max_ub; lra]. }
branches; exact B.
Qed.

Lemma update_in_bounds (dt : Q) (a : Aircraft.t) (ws : option Q) :
0 <= dt -> aircraft_in_bounds a ->
aircraft_in_bounds (fst (Aircraft.update dt a ws)).
Proof.
intros D [[H0 H1] [F0 F1]].
pose proof (update_flight dt a ws) as S.
unfold same_flight in S. decompose [and] S. clear S.
pose proof (physics_resources dt a) as P. cbv zeta in P.
destruct P as (Ph & Pm & Pf & Px & Pt).
pose proof (update_fuel_keeps dt (physics dt a)) as K. cbv zeta in K.
decompose [and] K. clear K.
assert (F0' : 0 <= Aircraft.fuel (physics dt a)) by (rewrite Pf; exact F0).
destruct (update_fuel_bounds dt (physics dt a) D F0') as [U0 U1].
unfold aircraft_in_bounds.
repeat match goal with
       | E : _ (fst (Aircraft.update dt a ws)) = _ |- _ => rewrite E; clear E
       end.
repeat match goal with
       | E : _ (Aircraft.update_fuel dt (physics dt a)) = _ |- _ =>
           rewrite E; clear E
       end.
rewrite Pm, Px. rewrite Pf in U1.
destruct Ph as [-> | ->]; repeat split; lra.
Qed.

Lemma take_damage_in_bounds (amount : Q) (a : Aircraft.t) :
0 <= amount -> aircraft_in_bounds a ->
aircraft_in_bounds (snd (Aircraft.take_damage amount a)).
Proof.
intros A [[H0 H1] [F0 F1]].
unfold Aircraft.take_damage, aircraft_in_bounds.
destruct (Aircraft.invulnerable a); cbn; [repeat split; assumption|].
cmp_cases; cbn; repeat split; lra.
Qed.

Lemma take_shield_hit_in_bounds (cost : Q) (a : Aircraft.t) (ws : option Q) :
aircraft_in_bounds a ->
aircraft_in_bounds (fst (Aircraft.take_shield_hit cost a ws)).
Proof.
intro B. unfold Aircraft.take_shield_hit.
destruct ws; [|exact B]. branches; exact B.
Qed.

Lemma heal_in_bounds (amount : Q) (a : Aircraft.t) :
0 <= amount -> aircraft_in_bounds a -> aircraft_in_bounds (Aircraft.heal amount a).
Proof.
intros A [[H0 H1] [F0 F1]]. unfold Aircraft.heal, aircraft_in_bounds. cbn.
repeat split; try assumption.
- apply min_lb; lra.
- apply min_ub_l.
Qed.

Lemma add_fuel_in_bounds (amount : Q) (a : Aircraft.t) :
0 <= amount -> aircraft_in_bounds a ->
aircraft_in_bounds (Aircraft.add_fuel amount a).
Proof.
intros A [[H0 H1] [F0 F1]]. unfold Aircraft.add_fuel, aircraft_in_bounds. cbn.
repeat split; try assumption.
- apply min_lb; lra.
- apply min_ub_l.
Qed.

Lemma lose_life_in_bounds (a : Aircraft.t) :
aircraft_in_bounds a -> aircraft_in_bounds (Aircraft.lose_life a).
Proof.
intros [[H0 H1] [F0 F1]]. unfold Aircraft.lose_life, aircraft_in_bounds.
branches; repeat split; lra.
Qed.

Lemma land_crash_in_bounds (a : Aircraft.t) :
aircraft_in_bounds a ->
aircraft_in_bounds (Aircraft.land a) /\ aircraft_in_bounds (Aircraft.crash a).
Proof.
intros [[H0 H1] [F0 F1]]. unfold aircraft_in_bounds. cbn.
repeat split; lra.
Qed.

(** *** Enemies and bosses *)

(** The movement rules keep the health, the identity and the active flag. *)
Lemma _update_drone_keeps dt p r e :
enemy_keeps e (snd (Enemy._update_drone dt p r e)).
Proof. unfold Enemy._update_drone, enemy_keeps. branches; auto. Qed.

Lemma _update_bomber_keeps dt p e :
enemy_keeps e (snd (Enemy._update_bomber dt p e)).
Proof. unfold Enemy._update_bomber, enemy_keeps. branches; auto. Qed.

Lemma _update_elite_keeps dt p r e :
enemy_keeps e (snd (Enemy._update_elite dt p r e)).
Proof. unfold Enemy._update_elite, enemy_keeps. branches; auto. Qed.

Lemma _update_kamikaze_keeps dt p e :
enemy_keeps e (Enemy._update_kamikaze dt p e).
Proof.
unfold Enemy._update_kamikaze, enemy_keeps.
destruct (_ <? _); [|auto]. destruct (vnormalize _); cbn; auto.
Qed.

Lemma _update_gunship_keeps dt p r e ps e' :
Enemy._update_gunship dt p r e = Some (ps, e') -> enemy_keeps e e'.
Proof.
unfold Enemy._update_gunship, enemy_keeps, bind. cbv zeta.
destruct (5 <? _); cbn;
  (destruct (_ && _); cbn;
   [destruct (vnormalize _); [|discriminate]|]);
  intro E; inversion E; subst; cbn; auto.
Qed.

(** [Enemy.update] keeps the health and can only switch the enemy off. *)
Lemma enemy_update_keeps dt p r e ps e' :
Enemy.update dt p r e = Some (ps, e') ->
Enemy.health e' = Enemy.health e
/\ Enemy.max_health e' = Enemy.max_health e
/\ Enemy.oid e' = Enemy.oid e
/\ (Enemy.active e' = true -> Enemy.active e = true).
Proof.
unfold Enemy.update.
destruct (negb (Enemy.active e)) eqn:A; [intro E; inversion E; subst; auto|].
cbv zeta.
set (e1 := match Enemy.state _ with Enemy.spawn => _ | Enemy.move => _ end).
assert (K1 : enemy_keeps e e1).
{ subst e1. unfold enemy_keeps. destruct (Enemy.state _); cbn; auto. }
assert (T1 : Enemy.type e1 = Enemy.type e).
{ subst e1. destruct (Enemy.state _); reflexivity. }
clearbody e1. rewrite T1.
assert (Step : forall qs e2, enemy_keeps e e2 ->
          Some (qs, if x (Enemy.position e2) <? -100
                    then Enemy.with_active false e2 else e2) = Some (ps, e') ->
          Enemy.health e' = Enemy.health e
          /\ Enemy.max_health e' = Enemy.max_health e
          /\ Enemy.oid e' = Enemy.oid e
          /\ (Enemy.active e' = true -> Enemy.active e = true)).
{ intros qs e2 (Kh & Km & Ko & Ka) E. inversion E; subst.
  destruct (_ <? _); cbn; repeat split; auto; try discriminate; congruence. }
assert (Tr : forall e2, enemy_keeps e1 e2 -> enemy_keeps e e2).
{ intros e2 (Kh & Km & Ko & Ka). destruct K1 as (Kh1 & Km1 & Ko1 & Ka1).
  unfold enemy_keeps. repeat split; congruence. }
unfold bind.
destruct (Enemy.type e).
- pose proof (_update_drone_keeps dt p r e1) as K.
  destruct (Enemy._update_drone dt p r e1) as [qs e2]. apply Step, Tr, K.
- pose proof (_update_bomber_keeps dt p e1) as K.
  destruct (Enemy._update_bomber dt p e1) as [qs e2]. apply Step, Tr, K.
- destruct (Enemy._update_gunship dt p r e1) as [[qs e2]|] eqn:G;
    [|discriminate].
  apply Step, Tr, (_update_gunship_keeps _ _ _ _ _ _ G).
- pose proof (_update_elite_keeps dt p r e1) as K.
  destruct (Enemy._update_elite dt p r e1) as [qs e2]. apply Step, Tr, K.
- apply Step, Tr, _update_kamikaze_keeps.
Qed.

Lemma enemy_init_ok (oid : Ref) (position : Vector2) (ty : Enemy.EnemyType) :
enemy_health_ok (Enemy.init oid position ty).
Proof. destruct ty; split; cbn; intros; lra. Qed.

Lemma boss_init_ok (oid : Ref) (position : Vector2) (ty : Boss.BossType) :
boss_health_ok (Boss.init oid position ty).
Proof. destruct ty; split; cbn; intros; lra. Qed.

Lemma enemy_take_damage_ok (amount : Q) (e : Enemy.t) :
0 <= amount -> enemy_health_ok e ->
enemy_health_ok (snd (Enemy.take_damage amount e)).
Proof.
intros A [M P]. unfold Enemy.take_damage, enemy_health_ok. cbn.
cmp_cases; cbn; (split; [lra|intro A'; try discriminate; lra]).
Qed.

Lemma boss_take_damage_ok (amount : Q) (b : Boss.t) :
0 <= amount -> boss_health_ok b ->
boss_health_ok (snd (Boss.take_damage amount b)).
Proof.
intros A [M P]. unfold Boss.take_damage, boss_health_ok. cbn.
cmp_cases; cbn;
  (split; [lra|intro A'; try discriminate; try lra; auto]).
Qed.

Lemma enemy_update_ok dt p r e ps e' :
Enemy.update dt p r e = Some (ps, e') ->
enemy_health_ok e -> enemy_health_ok e'.
Proof.
intros U [M P].
destruct (enemy_update_keeps _ _ _ _ _ _ U) as (Eh & Em & _ & Ea).
unfold enemy_health_ok. rewrite Eh, Em. split; auto.
Qed.

Lemma boss_update_ok dt p r b ps b' :
Boss.update dt p r b = Some (ps, b') ->
boss_health_ok b -> boss_health_ok b'.
Proof.
intros U [M P].
destruct (update_keeps_health _ _ _ _ _ _ U) as (Eh & Em & Ea).
unfold boss_health_ok. rewrite Eh, Em, Ea. split; auto.
Qed.

End Bounds.
(** ** The enemy manager: what one update does to the enemies and the boss *)

Section Manager.
Context `{PyMath}.
Import EnemyManager.

(** The enemies after the spawn step of [update]. *)
Lemma update_result dt p missiles detached rnd m m' missiles' :
update dt p missiles detached rnd m = Some (m', missiles') ->
exists spawned ps updated,
  (spawned = enemies m
   \/ exists oid position ty,
        spawned = enemies m ++ [Enemy.init oid position ty])
  /\ update_enemies dt p rnd O spawned = Some (ps, updated)
  /\ enemies m' = filter Enemy.active updated
  /\ match boss m with
     | None => boss m' = None
     | Some b =>
         exists qs b',
           Boss.update dt p (rnd (length updated)) b = Some (qs, b')
           /\ boss m' = if negb (Boss.active b') then None else Some b'
     end
  /\ boss_defeated m' = boss_defeated m.
Proof.
unfold update. cbv zeta.
set (m1 := match spawn_queue _ with [] => _ | _ :: _ => _ end).
assert (S : (enemies m1 = enemies m
             \/ exists oid position ty,
                  enemies m1 = enemies m ++ [Enemy.init oid position ty])
            /\ boss m1 = boss m /\ boss_defeated m1 = boss_defeated m).
{ subst m1. cbn. destruct (spawn_queue m) as [|d q]; cbn; [auto|].
  destruct (_ <=? _); cbn; [|auto].
  split; [right; eauto|auto]. }
clearbody m1. destruct S as (Se & Sb & Sd).
unfold bind at 1.
destruct (update_enemies dt p rnd O (enemies m1)) as [[ps updated]|] eqn:U;
  [|discriminate].
cbn [boss with_enemies with_projectiles].
rewrite Sb.
destruct (boss m) as [b|].
- unfold bind at 2. unfold bind at 1.
  destruct (Boss.update dt p (rnd (length updated)) b) as [[qs b']|] eqn:B;
    [|discriminate].
  intro E. cbn in E. inversion E; subst. clear E.
  exists (enemies m1), ps, updated.
  split; [destruct Se as [->|(o & q & ty & ->)]; eauto|].
  split; [exact U|].
  split; [destruct (negb (Boss.active b')); reflexivity|].
  split; [exists qs, b'; split; [exact B|];
          destruct (negb (Boss.active b')); reflexivity|].
  destruct (negb (Boss.active b')); exact Sd.
- unfold bind. intro E. cbn in E. inversion E; subst. clear E.
  exists (enemies m1), ps, updated.
  split; [destruct Se as [->|(o & q & ty & ->)]; eauto|].
  cbn. repeat split; auto.
Qed.

Lemma update_enemies_ok dt p rnd :
forall es i ps updated,
  update_enemies dt p rnd i es = Some (ps, updated) ->
  Forall enemy_health_ok es -> Forall enemy_health_ok updated.
Proof.
induction es as [|e rest IH]; intros i ps updated U F.
- cbn in U. inversion U. constructor.
- cbn in U. unfold bind in U.
  destruct (Enemy.update dt p (rnd i) e) as [[qs e']|] eqn:E; [|discriminate].
  destruct (update_enemies dt p rnd (S i) rest) as [[rs rest']|] eqn:R;
    [|discriminate].
  inversion U; subst. inversion F; subst.
  constructor.
  + eapply enemy_update_ok; eassumption.
  + eapply IH; eassumption.
Qed.

Lemma Forall_filter {A : Type} (P : A -> Prop) (f : A -> bool) (l : list A) :
Forall P l -> Forall P (filter f l).
Proof.
induction 1; cbn; [constructor|].
destruct (f x0); [constructor|]; assumption.
Qed.

(** One update of the manager keeps the health bounds of its enemies and
  of its boss. *)
Lemma manager_update_ok dt p missiles detached rnd m m' missiles' :
update dt p missiles detached rnd m = Some (m', missiles') ->
manager_health_ok m -> manager_health_ok m'.
Proof.
intros U [Fe Fb].
destruct (update_result _ _ _ _ _ _ _ _ U)
  as (spawned & ps & updated & Sp & Ue & Ee & Eb & _).
split.
- rewrite Ee. apply Forall_filter.
  eapply update_enemies_ok; [exact Ue|].
  destruct Sp as [->|(o & q & ty & ->)]; [exact Fe|].
  apply Forall_app. split; [exact Fe|].
  constructor; [apply enemy_init_ok|constructor].
- destruct (boss m) as [b|].
  + destruct Eb as (qs & b' & Ub & ->).
    destruct (negb (Boss.active b')); [exact I|].
    eapply boss_update_ok; eassumption.
  + rewrite Eb. exact I.
Qed.

End Manager.
(** ** The level manager *)

Section Level.
Context `{PyMath}.

(** [start_wave] only restarts the spawn queue, its timer and its delay. *)
Lemma start_wave_keeps (d : LevelManager.LevelData) (l : LevelManager.t)
(em : EnemyManager.t) :
let em' := LevelManager.start_wave d l em in
EnemyManager.enemies em' = EnemyManager.enemies em
/\ EnemyManager.boss em' = EnemyManager.boss em
/\ EnemyManager.boss_defeated em' = EnemyManager.boss_defeated em.
Proof.
unfold LevelManager.start_wave.
destruct (_ <? _)%nat; cbn; [|auto].
destruct (nth_error _ _); cbn; auto.
Qed.

(** [LevelManager.update] never creates the attribute [boss_defeated], and
  sets [level_complete] only when the attribute exists. *)
Lemma level_update_keeps (dt : Q) (a : Aircraft.t) (em : EnemyManager.t)
(l : LevelManager.t) :
let r := LevelManager.update dt a em l in
EnemyManager.boss_defeated (snd r) = EnemyManager.boss_defeated em
/\ (EnemyManager.boss_defeated em = None ->
    LevelManager.level_complete (fst r) = LevelManager.level_complete l)
/\ (manager_health_ok em -> manager_health_ok (snd r)).
Proof.
unfold LevelManager.update. cbv zeta.
destruct (negb (Aircraft.has_taken_off a)); [cbn; auto|].
set (l0 := LevelManager.with_scroll_x _ l).
set (d := LevelManager.get_level_data (LevelManager.current_level l0)).
assert (L0 : LevelManager.level_complete l0 = LevelManager.level_complete l)
  by reflexivity.
clearbody l0 d.
set (s := if Aircraft.has_taken_off a && negb (LevelManager.waves_started l0)
          then _ else _).
assert (S : LevelManager.level_complete (fst s) = LevelManager.level_complete l
            /\ EnemyManager.enemies (snd s) = EnemyManager.enemies em
            /\ EnemyManager.boss (snd s) = EnemyManager.boss em
            /\ EnemyManager.boss_defeated (snd s)
               = EnemyManager.boss_defeated em).
{ subst s. destruct (_ && _); cbn; [|auto].
  split; [exact L0|]. apply start_wave_keeps. }
clearbody s. destruct s as [l1 em1]. cbn [fst snd] in S.
destruct S as (S1 & S2 & S3 & S4).
assert (Ok1 : manager_health_ok em -> manager_health_ok em1).
{ unfold manager_health_ok. rewrite S2, S3. auto. }
assert (Same : EnemyManager.boss_defeated (snd (l1, em1))
               = EnemyManager.boss_defeated em
               /\ (EnemyManager.boss_defeated em = None ->
                   LevelManager.level_complete (fst (l1, em1))
                   = LevelManager.level_complete l)
               /\ (manager_health_ok em -> manager_health_ok (snd (l1, em1))))
  by (cbn [fst snd]; auto).
destruct (_ <=? _)%nat.
- destruct (EnemyManager.boss em1) eqn:B; [exact Same|].
  destruct (EnemyManager.boss_defeated em1) as [[|]|] eqn:D;
    [|exact Same|]; cbn [fst snd].
  + split; [congruence|]. split; [intro N; congruence|exact Ok1].
  + split; [cbn; congruence|]. split; [intros _; exact S1|].
    intros _. split; [constructor|]. cbn. apply boss_init_ok.
- destruct (EnemyManager.is_wave_complete em1); [|exact Same].
  cbn [fst snd].
  pose proof (start_wave_keeps d
                (LevelManager.with_current_wave
                   (S (LevelManager.current_wave l1)) l1) em1) as K.
  cbv zeta in K. destruct K as (K1 & K2 & K3).
  split; [congruence|]. split; [intros _; exact S1|].
  intro O. unfold manager_health_ok. rewrite K1, K2. apply Ok1, O.
Qed.

End Level.
(** ** Health and fuel bounds: the invariant *)

Section BoundsInvariant.
Context `{PyMath}.

(** One frame of play keeps the bounds of the aircraft and of every enemy
  and boss of the manager. *)
Lemma update_playing_ok (dt : Q) (detached : Heap) (rnd : nat -> Q)
(g g' : SkyFury.t) :
0 <= dt ->
SkyFury.update_playing dt detached rnd g = Some g' ->
aircraft_in_bounds (SkyFury.aircraft g) ->
manager_health_ok (SkyFury.enemy_manager g) ->
aircraft_in_bounds (SkyFury.aircraft g')
/\ manager_health_ok (SkyFury.enemy_manager g').
Proof.
intros D U A M. unfold SkyFury.update_playing, SkyFury.update_aircraft in U.
pose proof (update_in_bounds dt (SkyFury.aircraft g)
              (Some (WeaponSystem.shield_energy (SkyFury.weapon_system g)))
              D A) as A'.
destruct (Aircraft.update dt (SkyFury.aircraft g) _) as [a e].
cbn [fst] in A'.
set (aw := match e with Some _ => _ | None => _ end) in U.
assert (Ea : fst aw = a) by (subst aw; destruct e; reflexivity).
clearbody aw. destruct aw as [a0 w]. cbn [fst] in Ea. subst a0.
pose proof (level_update_keeps dt a (SkyFury.enemy_manager g)
              (SkyFury.level_manager g)) as K.
cbv zeta in K. destruct K as (_ & _ & K).
destruct (LevelManager.update dt a _ _) as [l em]. cbn [snd] in K.
unfold bind in U.
destruct (EnemyManager.update dt _ _ detached rnd em) as [[em' ms]|] eqn:E;
  [|discriminate].
inversion U; subst. cbn.
split; [exact A'|].
eapply manager_update_ok; [exact E|]. apply K, M.
Qed.

(** C6, as the code has it.  After every operation and every frame, with
  time steps and amounts that are not negative, the aircraft satisfies
  [0 <= health <= max_health] and [0 <= fuel <= max_fuel]: its health is
  floored at 0 on damage and capped on heal.  Every enemy and every boss
  satisfies [health <= max_health], and [0 < health] as long as it is
  active: their [take_damage] subtracts without a floor, and the hit
  that brings the health to 0 or below switches the object off. *)
Theorem health_and_fuel_bounds :
(aircraft_in_bounds Aircraft.init
 /\ (forall dt a ws, 0 <= dt -> aircraft_in_bounds a ->
       aircraft_in_bounds (fst (Aircraft.update dt a ws)))
 /\ (forall amount a, 0 <= amount -> aircraft_in_bounds a ->
       aircraft_in_bounds (snd (Aircraft.take_damage amount a)))
 /\ (forall cost a ws, aircraft_in_bounds a ->
       aircraft_in_bounds (fst (Aircraft.take_shield_hit cost a ws)))
 /\ (forall amount a, 0 <= amount -> aircraft_in_bounds a ->
       aircraft_in_bounds (Aircraft.heal amount a))
 /\ (forall amount a, 0 <= amount -> aircraft_in_bounds a ->
       aircraft_in_bounds (Aircraft.add_fuel amount a))
 /\ (forall a, aircraft_in_bounds a ->
       aircraft_in_bounds (Aircraft.land a)
       /\ aircraft_in_bounds (Aircraft.crash a)
       /\ aircraft_in_bounds (Aircraft.lose_life a))
 /\ (forall d points a, aircraft_in_bounds a ->
       aircraft_in_bounds (Aircraft.activate_shield d a)
       /\ aircraft_in_bounds (Aircraft.add_score points a)))
/\ ((forall oid position ty, enemy_health_ok (Enemy.init oid position ty))
    /\ (forall amount e, 0 <= amount -> enemy_health_ok e ->
          enemy_health_ok (snd (Enemy.take_damage amount e)))
    /\ (forall dt p r e ps e', Enemy.update dt p r e = Some (ps, e') ->
          enemy_health_ok e -> enemy_health_ok e'))
/\ ((forall oid position ty, boss_health_ok (Boss.init oid position ty))
    /\ (forall amount b, 0 <= amount -> boss_health_ok b ->
          boss_health_ok (snd (Boss.take_damage amount b)))
    /\ (forall dt p r b ps b', Boss.update dt p r b = Some (ps, b') ->
          boss_health_ok b -> boss_health_ok b'))
/\ (forall dt detached rnd g g', 0 <= dt ->
      SkyFury.update_playing dt detached rnd g = Some g' ->
      aircraft_in_bounds (SkyFury.aircraft g) ->
      manager_health_ok (SkyFury.enemy_manager g) ->
      aircraft_in_bounds (SkyFury.aircraft g')
      /\ manager_health_ok (SkyFury.enemy_manager g')).
Proof.
split; [|split; [|split]].
- split; [unfold aircraft_in_bounds; cbn; repeat split; lra|].
  split; [exact update_in_bounds|].
  split; [exact take_damage_in_bounds|].
  split; [exact take_shield_hit_in_bounds|].
  split; [exact heal_in_bounds|].
  split; [exact add_fuel_in_bounds|].
  split.
  + intros a B. destruct (land_crash_in_bounds a B) as [L C].
    split; [exact L|]. split; [exact C|].
    apply lose_life_in_bounds, B.
  + intros d points a B. split; exact B.
- split; [exact enemy_init_ok|].
  split; [exact enemy_take_damage_ok|exact enemy_update_ok].
- split; [exact boss_init_ok|].
  split; [exact boss_take_damage_ok|exact boss_update_ok].
- exact update_playing_ok.
Qed.

End BoundsInvariant.

(** C6 as stated fails on the first missile that hits a drone: a new drone
    has health 30, a missile deals 40, and [Enemy.take_damage] leaves the
    health at -10. *)
Lemma enemy_health_below_zero :
  let missile := HomingMissile.init (vec2 100 150) in
  let hit := Enemy.take_damage (HomingMissile.damage missile) Scene.drone in
  fst hit = true
  /\ Enemy.health (snd hit) == -10
  /\ ~ (0 <= Enemy.health (snd hit)
        /\ Enemy.health (snd hit) <= Enemy.max_health (snd hit)).
Proof.
  cbv zeta. split; [reflexivity|]. split; [reflexivity|].
  intros [N _]. vm_compute in N. apply N. reflexivity.
Qed.

(** The invariant on the same hit: the drone is switched off, its health
    is below its maximum, and the aircraft that takes a hit of 15 from full
    health stays within its bounds. *)
Lemma health_and_fuel_bounds_witness :
  enemy_health_ok (snd (Enemy.take_damage 40 Scene.drone))
  /\ Enemy.active (snd (Enemy.take_damage 40 Scene.drone)) = false
  /\ aircraft_in_bounds (snd (Aircraft.take_damage 15 Scene.cruising)).
Proof.
  destruct (@health_and_fuel_bounds rational_math)
    as ((A0 & _ & Ad & _) & (E0 & Ed & _) & _).
  split; [|split].
  - apply Ed; [vm_compute; discriminate|apply E0].
  - reflexivity.
  - apply Ad; [vm_compute; discriminate|].
    unfold aircraft_in_bounds. cbn. repeat split; lra.
Defined.

(** ** Level progression: the boss and level completion *)

Section Progress.
Context `{PyMath}.

(** A boss that is no longer active is dropped by the next update of the
  manager. *)
Lemma inactive_boss_dropped dt p missiles detached rnd em em' missiles' b :
EnemyManager.update dt p missiles detached rnd em = Some (em', missiles') ->
EnemyManager.boss em = Some b -> Boss.active b = false ->
EnemyManager.boss em' = None.
Proof.
intros U B A.
destruct (update_result _ _ _ _ _ _ _ _ U)
  as (spawned & ps & updated & _ & _ & _ & Eb & _).
rewrite B in Eb. destruct Eb as (qs & b' & Ub & ->).
destruct (update_keeps_health _ _ _ _ _ _ Ub) as (_ & _ & Ea).
rewrite Ea, A. reflexivity.
Qed.

(** With the waves exhausted, no boss and no [boss_defeated] attribute,
  [LevelManager.update] spawns the boss of the level and clears the
  enemies. *)
Lemma boss_spawned_after_waves dt a em l :
Aircraft.has_taken_off a = true ->
LevelManager.waves_started l = true ->
(length (LevelManager.waves (LevelManager.get_level_data
                               (LevelManager.current_level l)))
 <= LevelManager.current_wave l)%nat ->
EnemyManager.boss em = None ->
EnemyManager.boss_defeated em = None ->
let r := LevelManager.update dt a em l in
LevelManager.level_complete (fst r) = LevelManager.level_complete l
/\ EnemyManager.enemies (snd r) = []
/\ EnemyManager.boss (snd r)
   = Some (Boss.init (EnemyManager.next_oid em) (vec2 900 300)
             (LevelManager.level_boss
                (LevelManager.get_level_data (LevelManager.current_level l)))).
Proof.
intros T W L B D. unfold LevelManager.update. cbv zeta.
rewrite T. cbn [negb andb LevelManager.waves_started
                LevelManager.with_scroll_x LevelManager.current_level
                LevelManager.current_wave].
rewrite W. cbn [negb].
apply Nat.leb_le in L.
change (LevelManager.current_wave (LevelManager.with_scroll_x _ l))
  with (LevelManager.current_wave l).
rewrite L, B, D. cbn. auto.
Qed.

(** No step of a running level creates the attribute [boss_defeated] or
  sets [level_complete]. *)
Lemma level_step_keeps s s' :
level_step s s' ->
EnemyManager.boss_defeated (snd s) = None ->
EnemyManager.boss_defeated (snd s') = None
/\ LevelManager.level_complete (fst s') = LevelManager.level_complete (fst s).
Proof.
intros S D. destruct S as [dt a l em|dt p ms det rnd l em em' ms' U|l em es b ps
                          |ty l em]; cbn [fst snd] in *.
- pose proof (level_update_keeps dt a em l) as K. cbv zeta in K.
  destruct K as (K1 & K2 & _). split; [congruence|auto].
- destruct (update_result _ _ _ _ _ _ _ _ U)
    as (spawned & qs & updated & _ & _ & _ & _ & K).
  split; [congruence|reflexivity].
- split; [exact D|reflexivity].
- split; [exact D|reflexivity].
Qed.

Lemma level_never_complete (level : Z) s :
level_reachable level s ->
EnemyManager.boss_defeated (snd s) = None
/\ LevelManager.level_complete (fst s) = false.
Proof.
induction 1 as [|s s' R [D C] S].
- split; reflexivity.
- destruct (level_step_keeps s s' S D) as [D' C'].
  split; [exact D'|congruence].
Qed.

(** C7, evaluated on the code.  The boss is spawned once the waves are
  exhausted, and the enemies are cleared.  But when that boss has been
  destroyed, the next update of the enemy manager drops it and the
  following update of the level manager spawns a new boss at full health
  in its place: [level_complete] is left as it was.  It is false in every
  state that a level can reach, because nothing sets the attribute
  [boss_defeated] that the completion branch asks for. *)
Theorem boss_respawns_after_defeat (dt dt' : Q) (a : Aircraft.t)
(player_pos : Vector2) (missiles missiles' : list HomingMissile.t)
(detached : Heap) (rnd : nat -> Q) (l : LevelManager.t)
(em em' : EnemyManager.t) (b : Boss.t) :
Aircraft.has_taken_off a = true ->
LevelManager.waves_started l = true ->
(length (LevelManager.waves (LevelManager.get_level_data
                               (LevelManager.current_level l)))
 <= LevelManager.current_wave l)%nat ->
EnemyManager.boss em = Some b -> Boss.active b = false ->
EnemyManager.boss_defeated em = None ->
EnemyManager.update dt player_pos missiles detached rnd em
= Some (em', missiles') ->
let r := LevelManager.update dt' a em' l in
EnemyManager.boss em' = None
/\ LevelManager.level_complete (fst r) = LevelManager.level_complete l
/\ EnemyManager.enemies (snd r) = []
/\ (exists b', EnemyManager.boss (snd r) = Some b'
               /\ Boss.active b' = true
               /\ Boss.health b' == Boss.max_health b')
/\ (forall level s, level_reachable level s ->
      LevelManager.level_complete (fst s) = false).
Proof.
intros T W L B A D U r.
assert (B' : EnemyManager.boss em' = None)
  by (eapply inactive_boss_dropped; eassumption).
assert (D' : EnemyManager.boss_defeated em' = None).
{ destruct (update_result _ _ _ _ _ _ _ _ U)
    as (spawned & qs & updated & _ & _ & _ & _ & K). congruence. }
destruct (boss_spawned_after_waves dt' a em' l T W L B' D') as (C & E & S).
split; [exact B'|]. split; [exact C|]. split; [exact E|]. split.
- eexists. split; [exact S|].
  destruct (LevelManager.level_boss _); split; reflexivity.
- intros level s R. apply (level_never_complete level s R).
Qed.

End Progress.

(** C7 on level 1: the boss of [Scene.boss_down] has been destroyed; one
    frame later the manager holds no boss, and the level manager answers
    with a new boss instead of completing the level. *)
Lemma boss_respawns_after_defeat_witness :
  exists em' missiles',
    @EnemyManager.update rational_math 0.016 (vec2 150 300) []
      (fun _ => Enemy.view Scene.drone) (fun _ => 0.5) Scene.boss_down
    = Some (em', missiles')
    /\ EnemyManager.boss em' = None
    /\ LevelManager.level_complete
         (fst (LevelManager.update 0.016 Scene.cruising em' Scene.waves_done))
       = false
    /\ exists b', EnemyManager.boss
                    (snd (LevelManager.update 0.016 Scene.cruising em'
                            Scene.waves_done)) = Some b'
                  /\ Boss.active b' = true.
Proof.
  destruct (@EnemyManager.update rational_math 0.016 (vec2 150 300) []
              (fun _ => Enemy.view Scene.drone) (fun _ => 0.5) Scene.boss_down)
    as [[em' ms']|] eqn:U; [|vm_compute in U; discriminate].
  exists em', ms'. split; [reflexivity|].
  destruct (@boss_respawns_after_defeat rational_math 0.016 0.016
              Scene.cruising (vec2 150 300) [] ms'
              (fun _ => Enemy.view Scene.drone) (fun _ => 0.5)
              Scene.waves_done Scene.boss_down em'
              (snd (Boss.take_damage 800 Scene.queen))
              eq_refl eq_refl (Nat.le_refl _) eq_refl eq_refl eq_refl U)
    as (B & C & _ & (b' & S & A & _) & _).
  split; [exact B|]. split; [exact C|].
  exists b'. split; [exact S|exact A].
Defined.

(** ** The shield: drain and regeneration *)

Section Shield.
Context `{PyMath}.

Lemma same_shield_trans (a b c : Aircraft.t) :
same_shield a b -> same_shield b c -> same_shield a c.
Proof. unfold same_shield. intros [? ?] [? ?]. split; congruence. Qed.

Lemma physics_shield (dt : Q) (a : Aircraft.t) : same_shield (physics dt a) a.
Proof.
unfold physics. destruct (Aircraft.on_ground a).
- unfold Aircraft._update_ground_physics, Aircraft.ground_roll, same_shield.
  branches; split; reflexivity.
- unfold Aircraft._update_air_physics. cbv zeta.
  assert (M : same_shield (Aircraft.air_motion dt a) a).
  { unfold Aircraft.air_motion, same_shield. branches; split; reflexivity. }
  assert (L : forall m, same_shield (Aircraft._check_landing m) m).
  { intro m.
    unfold Aircraft._check_landing, Aircraft.land, Aircraft.crash, same_shield.
    branches; split; reflexivity. }
  destruct (_ <=? _); [|exact M].
  eapply same_shield_trans; [apply L|exact M].
Qed.

(** After the shield stage, [update] leaves the shield and the energy pool
  alone. *)
Lemma update_shield_stage (dt : Q) (a : Aircraft.t) (ws : option Q) :
let s := Aircraft.update_shield dt (Aircraft.update_invulnerability dt a) ws in
same_shield (fst (Aircraft.update dt a ws)) (fst s)
/\ snd (Aircraft.update dt a ws) = snd s.
Proof.
unfold Aircraft.update. cbv zeta.
destruct (Aircraft.update_shield dt (Aircraft.update_invulnerability dt a) ws)
  as [b ws'].
cbn [fst snd]. split; [|reflexivity].
fold (physics dt b).
eapply same_shield_trans;
  [unfold Aircraft.choose_sprite, same_shield; branches; split; reflexivity|].
eapply same_shield_trans;
  [unfold Aircraft.update_fuel, same_shield; branches; split; reflexivity|].
apply physics_shield.
Qed.

Lemma update_invulnerability_shield (dt : Q) (a : Aircraft.t) :
same_shield (Aircraft.update_invulnerability dt a) a.
Proof.
unfold Aircraft.update_invulnerability, same_shield.
branches; split; reflexivity.
Qed.

(** The shield stage on an active shield with a linked weapon system. *)
Lemma update_shield_active (dt e : Q) (a : Aircraft.t) :
Aircraft.shield_active a = true ->
let s := Aircraft.update_shield dt a (Some e) in
exists e' : Q,
  snd s = Some e'
  /\ (e - 3 * dt < 0 -> e' == 0)
  /\ (0 <= e - 3 * dt -> e' == e - 3 * dt)
  /\ (Aircraft.shield_active (fst s) = false <->
        Aircraft.shield_duration a - dt <= 0 \/ e' <= 0)
  /\ (Aircraft.shield_active (fst s) = false ->
        Aircraft.shield_duration (fst s) == 0)
  /\ (Aircraft.shield_active (fst s) = true ->
        Aircraft.shield_duration (fst s) == Aircraft.shield_duration a - dt).
Proof.
intros A s. subst s. unfold Aircraft.update_shield. rewrite A. cbn.
exists (if e - 3 * dt <? 0 then 0 else e - 3 * dt).
cmp_cases; cbn; rewrite ?A;
  (split; [reflexivity|]);
  (split; [intros; lra|]); (split; [intros; lra|]);
  (split; [split; [intros; lra|intros [?|?]; try reflexivity; lra]|]);
  (split; intros; try discriminate; reflexivity).
Qed.

(** The whole update of the weapon system changes the shield energy by
  the regeneration step alone. *)
Lemma weapon_update_energy (dt : Q) (heap : Heap) (w : WeaponSystem.t) :
WeaponSystem.shield_energy (WeaponSystem.update dt heap w)
= if WeaponSystem.shield_energy w <? WeaponSystem.max_shield_energy w
  then Py.min (WeaponSystem.max_shield_energy w)
         (WeaponSystem.shield_energy w + 3 * dt)
  else WeaponSystem.shield_energy w.
Proof.
unfold WeaponSystem.update. cbv zeta.
set (w1 := WeaponSystem.with_cooldowns _ w).
set (w2 := if WeaponSystem.is_charging_laser w1 && _ then _ else w1).
set (w3 := if negb (WeaponSystem.is_charging_laser w2) && _ then _ else w2).
assert (E : WeaponSystem.shield_energy w3 = WeaponSystem.shield_energy w
            /\ WeaponSystem.max_shield_energy w3
               = WeaponSystem.max_shield_energy w).
{ subst w3 w2 w1. branches; split; reflexivity. }
clearbody w3. destruct E as [E1 E2].
rewrite <- E1, <- E2. branches; reflexivity.
Qed.

(** C9, as the code has it.  While the shield is active and a weapon
  system is linked, an update of the aircraft lowers the shield energy by
  [3 * dt], floored at 0, and the shield is switched off (its duration
  set to 0) exactly when the remaining duration or the energy has
  reached 0.  An update of the weapon system raises the shield energy by
  [3 * dt] up to the cap whenever the energy is below the cap; the
  weapon system does not look at the shield, so this applies while the
  shield is active as well. *)
Theorem shield_drain_and_regeneration (dt e : Q) (a : Aircraft.t)
(heap : Heap) (w : WeaponSystem.t) :
(Aircraft.shield_active a = true ->
 let r := Aircraft.update dt a (Some e) in
 exists e' : Q,
   snd r = Some e'
   /\ (e - 3 * dt < 0 -> e' == 0)
   /\ (0 <= e - 3 * dt -> e' == e - 3 * dt)
   /\ (Aircraft.shield_active (fst r) = false <->
         Aircraft.shield_duration a - dt <= 0 \/ e' <= 0)
   /\ (Aircraft.shield_active (fst r) = false ->
         Aircraft.shield_duration (fst r) == 0))
/\ (Aircraft.shield_active a = false ->
    snd (Aircraft.update dt a (Some e)) = Some e
    /\ Aircraft.shield_active (fst (Aircraft.update dt a (Some e))) = false)
/\ (WeaponSystem.shield_energy w < WeaponSystem.max_shield_energy w ->
    WeaponSystem.shield_energy (WeaponSystem.update dt heap w)
    == Py.min (WeaponSystem.max_shield_energy w)
         (WeaponSystem.shield_energy w + 3 * dt))
/\ (WeaponSystem.max_shield_energy w <= WeaponSystem.shield_energy w ->
    WeaponSystem.shield_energy (WeaponSystem.update dt heap w)
    == WeaponSystem.shield_energy w).
Proof.
pose proof (update_shield_stage dt a (Some e)) as S. cbv zeta in S.
destruct S as [[Sa Sd] Sp].
destruct (update_invulnerability_shield dt a) as [Ia Id].
split; [|split; [|split]].
- intros A r. subst r.
  assert (A' : Aircraft.shield_active (Aircraft.update_invulnerability dt a)
               = true) by congruence.
  destruct (update_shield_active dt e _ A')
    as (e' & P & L & G & Off & Z & _).
  exists e'. rewrite Sp, Sa, Sd, <- Id.
  repeat split; auto; apply Off.
- intro A. rewrite Sp, Sa.
  unfold Aircraft.update_shield. rewrite Ia, A. cbn. rewrite Ia, A. auto.
- intro L. rewrite weapon_update_energy.
  apply ltb_spec in L. rewrite L. reflexivity.
- intro L. rewrite weapon_update_energy.
  apply ltb_false in L. rewrite L. reflexivity.
Qed.

End Shield.

(** C9 as stated fails in the frame after the shield is raised: the
    aircraft drains the pool from 10 to 9.7 and keeps the shield up, and in
    the same frame the weapon system regenerates the pool back to 10. *)
Lemma shield_regenerates_while_draining :
  let aw := @SkyFury.update_aircraft rational_math 0.1
              Scene.shielded Scene.shield_paid in
  let w' := @WeaponSystem.update rational_math 0.1
              (fun _ => Enemy.view Scene.drone) (snd aw) in
  Aircraft.shield_active Scene.shielded = true
  /\ WeaponSystem.shield_energy Scene.shield_paid == 10
  /\ Aircraft.shield_active (fst aw) = true
  /\ WeaponSystem.shield_energy (snd aw) == 9.7
  /\ WeaponSystem.shield_energy w' == 10
  /\ ~ (WeaponSystem.shield_energy w' <= WeaponSystem.shield_energy (snd aw)).
Proof.
  cbv zeta. repeat split; try reflexivity.
  intro L. vm_compute in L. apply L. reflexivity.
Qed.

(** C9 on [Scene.shielded]: the drain of one update of the aircraft, and
    the regeneration of one update of the weapon system. *)
Lemma shield_drain_and_regeneration_witness :
  Aircraft.shield_active Scene.shielded = true
  /\ WeaponSystem.shield_energy Scene.shield_paid
     < WeaponSystem.max_shield_energy Scene.shield_paid
  /\ (exists e' : Q,
        snd (@Aircraft.update rational_math 0.1 Scene.shielded (Some 10))
        = Some e' /\ e' == 10 - 3 * 0.1)
  /\ WeaponSystem.shield_energy
       (@WeaponSystem.update rational_math 0.1
          (fun _ => Enemy.view Scene.drone) Scene.shield_paid)
     == Py.min 100 (10 + 3 * 0.1).
Proof.
  destruct (@shield_drain_and_regeneration rational_math 0.1 10 Scene.shielded
              (fun _ => Enemy.view Scene.drone) Scene.shield_paid)
    as (D & _ & R & _).
  assert (A : Aircraft.shield_active Scene.shielded = true) by reflexivity.
  assert (L : WeaponSystem.shield_energy Scene.shield_paid
              < WeaponSystem.max_shield_energy Scene.shield_paid)
    by reflexivity.
  split; [exact A|]. split; [exact L|]. split.
  - destruct (D A) as (e' & P & _ & G & _).
    exists e'. split; [exact P|]. apply G. vm_compute. discriminate.
  - rewrite (R L). reflexivity.
Defined.

(** ** The homing missile *)

Section AngleWrap.
Import HomingMissile.

(** The two loops shift by whole turns. *)
Lemma wrap_down_shift (n : nat) :
forall d : Q, exists k : Z, wrap_down n d == d + 360 * inject_Z k.
Proof.
induction n as [|n IH]; intro d; cbn.
- exists 0%Z. unfold inject_Z. lra.
- destruct (180 <? d).
  + destruct (IH (d - 360)) as [k E]. exists (k + Zneg 1)%Z.
    rewrite E, inject_Z_plus.
    change (inject_Z (Zneg 1)) with (-1 # 1). lra.
  + exists 0%Z. unfold inject_Z. lra.
Qed.

Lemma wrap_up_shift (n : nat) :
forall d : Q, exists k : Z, wrap_up n d == d + 360 * inject_Z k.
Proof.
induction n as [|n IH]; intro d; cbn.
- exists 0%Z. unfold inject_Z. lra.
- destruct (d <? -180).
  + destruct (IH (d + 360)) as [k E]. exists (k + 1)%Z.
    rewrite E, inject_Z_plus.
    change (inject_Z 1) with (1 # 1). lra.
  + exists 0%Z. unfold inject_Z. lra.
Qed.

(** With enough iterations, the first loop ends at or below 180 and the
  second at or above -180; neither overshoots. *)
Lemma wrap_down_range (n : nat) :
forall d : Q,
  d <= 180 + 360 * inject_Z (Z.of_nat n) ->
  wrap_down n d <= 180 /\ (wrap_down n d = d \/ -180 < wrap_down n d).
Proof.
induction n as [|n IH]; intros d B.
- cbn [wrap_down]. change (inject_Z (Z.of_nat 0)) with (0 # 1) in B.
  split; [lra|auto].
- cbn [wrap_down].
  destruct (180 <? d) eqn:C.
  + apply ltb_spec in C.
    assert (B' : d - 360 <= 180 + 360 * inject_Z (Z.of_nat n)).
    { rewrite Nat2Z.inj_succ in B. unfold Z.succ in B.
      rewrite inject_Z_plus in B.
      change (inject_Z 1) with (1 # 1) in B. lra. }
    destruct (IH _ B') as [U [E|L]].
    * split; [exact U|]. right. rewrite E. lra.
    * split; [exact U|]. right. exact L.
  + apply ltb_false in C. split; [exact C|auto].
Qed.

Lemma wrap_up_range (n : nat) :
forall d : Q,
  -180 - 360 * inject_Z (Z.of_nat n) <= d ->
  -180 <= wrap_up n d /\ (wrap_up n d = d \/ wrap_up n d < 180).
Proof.
induction n as [|n IH]; intros d B.
- cbn [wrap_up]. change (inject_Z (Z.of_nat 0)) with (0 # 1) in B.
  split; [lra|auto].
- cbn [wrap_up].
  destruct (d <? -180) eqn:C.
  + apply ltb_spec in C.
    assert (B' : -180 - 360 * inject_Z (Z.of_nat n) <= d + 360).
    { rewrite Nat2Z.inj_succ in B. unfold Z.succ in B.
      rewrite inject_Z_plus in B.
      change (inject_Z 1) with (1 # 1) in B. lra. }
    destruct (IH _ B') as [U [E|L]].
    * split; [exact U|]. right. rewrite E. lra.
    * split; [exact U|]. right. exact L.
  + apply ltb_false in C. split; [exact C|auto].
Qed.

(** The number of iterations that [normalize_angle] allows is enough. *)
Lemma turns_enough (d : Q) : Qabs d <= 360 * inject_Z (Z.of_nat (turns d)).
Proof.
unfold turns.
assert (N : 0 <= Qabs d / 360).
{ apply Qle_shift_div_l; [reflexivity|]. pose proof (Qabs_nonneg d). lra. }
assert (Z0 : (0 <= Qceiling (Qabs d / 360))%Z).
{ apply Qceiling_resp_le in N. exact N. }
rewrite Z2Nat.id by exact Z0.
pose proof (Qle_ceiling (Qabs d / 360)) as C.
assert (E : Qabs d == Qabs d / 360 * 360) by (field).
set (q := Qabs d / 360) in *. clearbody q. lra.
Qed.

(** [normalize_angle] ends both loops by their own tests: the result lies
  in [-180, 180] and differs from the argument by whole turns. *)
Lemma normalize_angle_spec (d : Q) :
-180 <= normalize_angle d /\ normalize_angle d <= 180
/\ exists k : Z, normalize_angle d == d + 360 * inject_Z k.
Proof.
unfold normalize_angle. cbv zeta.
set (d1 := wrap_down (turns d) d).
assert (R1 : d1 <= 180 /\ (d1 = d \/ -180 < d1)).
{ apply wrap_down_range. pose proof (turns_enough d) as T.
  pose proof (Qle_Qabs d). lra. }
destruct (wrap_down_shift (turns d) d) as [k1 E1]. fold d1 in E1.
clearbody d1. destruct R1 as [U1 L1].
assert (R2 : -180 <= wrap_up (turns d1) d1
             /\ (wrap_up (turns d1) d1 = d1 \/ wrap_up (turns d1) d1 < 180)).
{ apply wrap_up_range. pose proof (turns_enough d1) as T.
  pose proof (Qle_Qabs (- d1)) as A. rewrite Qabs_opp in A. lra. }
destruct (wrap_up_shift (turns d1) d1) as [k2 E2].
destruct R2 as [L2 U2].
split; [exact L2|]. split.
- destruct U2 as [->|U2]; lra.
- exists (k1 + k2)%Z. rewrite E2, E1, inject_Z_plus. lra.
Qed.

End AngleWrap.

Section Homing.
Context `{PyMath}.
Import HomingMissile.







(** The weapon system updates its missiles with an empty list of
  enemies and drops the inactive ones. *)
Lemma weapon_update_missiles (dt : Q) (heap : Heap) (w : WeaponSystem.t) :
WeaponSystem.missiles (WeaponSystem.update dt heap w)
= filter active (map (update dt heap []) (WeaponSystem.missiles w)).
Proof.
unfold WeaponSystem.update. cbv zeta.
set (w1 := WeaponSystem.with_cooldowns _ w).
set (w2 := if WeaponSystem.is_charging_laser w1 && _ then _ else w1).
set (w3 := if negb (WeaponSystem.is_charging_laser w2) && _ then _ else w2).
set (w4 := if WeaponSystem.shield_energy w3 <? _ then _ else w3).
assert (E : WeaponSystem.missiles w4 = WeaponSystem.missiles w).
{ subst w4 w3 w2 w1. branches; reflexivity. }
clearbody w4. cbn. rewrite E. reflexivity.
Qed.



End Homing.


(** * Further properties

    ** The aircraft: the flight envelope *)

Section Envelope.
Context `{PyMath}.
Import Aircraft.

Lemma clamp_range (lo hi v : Q) :
lo <= hi -> lo <= Py.max lo (Py.min hi v) /\ Py.max lo (Py.min hi v) <= hi.
Proof.
intro L. split; [apply max_lb_l|].
apply max_ub; [exact L|apply min_ub_l].
Qed.

(** The state after the motion of the air physics. *)
Lemma air_motion_envelope (dt : Q) (a : t) :
let m := air_motion dt a in
(-5 <= y (velocity m) /\ y (velocity m) <= 5)
/\ x (velocity m) <= max_speed a
/\ (-10 <= angle m /\ angle m <= 30)
/\ (20 <= y (position m) /\ y (position m) <= 580)
/\ (has_taken_off a = true ->
    50 <= x (position m) /\ x (position m) <= 250)
/\ (has_taken_off a = false ->
    20 <= x (position m) /\ x (position m) <= 780)
/\ has_taken_off m = has_taken_off a /\ max_speed m = max_speed a.
Proof.
unfold air_motion. cbv zeta.
destruct ((0 <? thrust a) && (0 <? fuel a)), (0 <? flaps a),
  (spoilers_active a), (has_taken_off a) eqn:T;
  cbn [velocity position angle has_taken_off max_speed with_velocity
       with_position with_angle x y set_x set_y vadd negb];
  rewrite ?T;
  (split; [apply clamp_range; lra|]);
  (split; [apply min_ub_r|]);
  (split; [apply clamp_range; lra|]);
  (split; [apply clamp_range; lra|]);
  (split; [intro E; try discriminate; apply clamp_range; lra|]);
  (split; [intro E; try discriminate; apply clamp_range; lra|]);
  split; reflexivity.
Qed.

(** X1.  Whatever the state and the time step, the air physics leaves the
  aircraft inside its flight envelope: the vertical speed in [-5, 5], the
  horizontal speed at most [max_speed], the pitch in [-10, 30], the
  height in [20, 580], and the horizontal position in [50, 250] after
  takeoff and in [20, 780] before; a landing or a crash at the end of the
  step does not leave it. *)
Theorem air_physics_envelope (dt : Q) (a : t) :
let p := _update_air_physics dt a in
(-5 <= y (velocity p) /\ y (velocity p) <= 5)
/\ x (velocity p) <= max_speed a
/\ (-10 <= angle p /\ angle p <= 30)
/\ (20 <= y (position p) /\ y (position p) <= 580)
/\ (has_taken_off a = true ->
    50 <= x (position p) /\ x (position p) <= 250)
/\ (has_taken_off a = false ->
    20 <= x (position p) /\ x (position p) <= 780).
Proof.
pose proof (air_motion_envelope dt a) as E. cbv zeta in E.
unfold _update_air_physics. cbv zeta.
set (m := air_motion dt a) in *. clearbody m.
destruct E as (V & S & A & Y & X1 & X0 & _).
destruct (GROUND_LEVEL <=? y (position m));
  [|repeat split; tauto].
unfold _check_landing, land, crash, GROUND_LEVEL.
branches; repeat split; try tauto; try lra.
Qed.

(** X2.  The ground physics keeps the pitch in [0, 25] and the horizontal
  speed at most [max_speed], advances the horizontal position by exactly
  the new speed and leaves the height alone; when it takes off, the pitch
  is at least 15. *)
Theorem ground_physics_envelope (dt : Q) (a : t) :
let p := _update_ground_physics dt a in
(0 <= angle p /\ angle p <= 25)
/\ x (velocity p) <= max_speed a
/\ x (position p) == x (position a) + x (velocity p)
/\ y (position p) = y (position a)
/\ (on_ground a = true -> on_ground p = false -> 15 <= angle p).
Proof.
unfold _update_ground_physics, MIN_TAKEOFF_SPEED. cbv zeta.
set (r := ground_roll dt a).
assert (R : (0 <= angle r /\ angle r <= 25)
            /\ x (velocity r) <= max_speed a
            /\ x (position r) == x (position a) + x (velocity r)
            /\ y (position r) = y (position a)
            /\ on_ground r = on_ground a).
{ subst r. unfold ground_roll. cbn.
  split; [apply clamp_range; lra|].
  split; [apply min_ub_r|].
  split; reflexivity || (split; reflexivity). }
clearbody r. destruct R as (A & S & P & Y & G).
cmp_cases; cbn; repeat split; try tauto; try lra; try congruence.
Qed.

(** The fuel stage: a running engine burns fuel, and the thrust is cut
  exactly when the tank is then empty. *)
Lemma update_fuel_thrust (dt : Q) (a : t) :
let a' := update_fuel dt a in
(0 < thrust a' -> 0 < fuel a')
/\ (thrust a' = thrust a \/ thrust a' = 0)
/\ (thrust a <= 0 -> fuel a' = fuel a /\ thrust a' = thrust a)
/\ (0 < thrust a ->
    fuel a' = Py.max 0 (fuel a - thrust a * 0.005 * dt)
    /\ (0 < fuel a' -> thrust a' = thrust a)
    /\ (fuel a' <= 0 -> thrust a' = 0)).
Proof.
unfold update_fuel.
destruct (0 <? thrust a) eqn:T.
- apply ltb_spec in T. cbn.
  destruct (Py.max 0 _ <=? 0) eqn:F; cbn.
  + apply leb_spec in F.
    split; [intro C; lra|]. split; [auto|]. split; [intro C; lra|].
    intros _. split; [reflexivity|]. split; [intro C; lra|reflexivity].
  + apply leb_false in F. split; [intros _; exact F|].
    split; [auto|]. split; [intro C; lra|].
    intros _. split; [reflexivity|]. split; [reflexivity|intro C; lra].
- apply ltb_false in T. cbn. split; [intro C; lra|].
  split; [auto|]. split; [auto|intro C; lra].
Qed.

(** X3.  After every update, a positive thrust means that fuel is left.
  An aircraft without thrust burns no fuel and keeps its thrust.  With
  thrust, the update burns [thrust * 0.005 * dt] of the fuel, stopping
  at 0, and then keeps the thrust if fuel is left and sets it to 0 if
  the tank is empty: the thrust is cut by the update that empties the
  tank, and by no other. *)
Theorem thrust_needs_fuel (dt : Q) (a : t) (ws : option Q) :
let a' := fst (update dt a ws) in
(0 < thrust a' -> 0 < fuel a')
/\ (thrust a' = thrust a \/ thrust a' = 0)
/\ (thrust a <= 0 -> fuel a' = fuel a /\ thrust a' = thrust a)
/\ (0 < thrust a ->
    fuel a' = Py.max 0 (fuel a - thrust a * 0.005 * dt)
    /\ (0 < fuel a' -> thrust a' = thrust a)
    /\ (fuel a' <= 0 -> thrust a' = 0)).
Proof.
pose proof (update_flight dt a ws) as F.
unfold same_flight in F. decompose [and] F. clear F.
pose proof (physics_resources dt a) as P. cbv zeta in P.
destruct P as (_ & _ & Pf & _ & Pt).
pose proof (update_fuel_thrust dt (physics dt a)) as U. cbv zeta in U.
cbv zeta.
repeat match goal with
       | E : _ (fst (update dt a ws)) = _ |- _ => rewrite E; clear E
       end.
rewrite Pt, Pf in U. exact U.
Qed.

End Envelope.
(** ** The aircraft: shield hits, lives and the invulnerability window *)

Section Lives.
Context `{PyMath}.
Import Aircraft.

(** X4.  [take_shield_hit] does nothing when the shield is down or no
  weapon system is linked.  On an active, linked shield it takes the
  cost out of the shield energy with a floor at 0, and the shield drops
  (with its duration at 0) exactly when no energy is left.  In no case
  does it touch the health: a hit on the shield costs energy only. *)
Theorem shield_absorbs_hit (energy_cost e : Q) (a : t) :
take_shield_hit energy_cost a None = (a, None)
/\ (shield_active a = false ->
    take_shield_hit energy_cost a (Some e) = (a, Some e))
/\ (shield_active a = true ->
    exists e' : Q,
      snd (take_shield_hit energy_cost a (Some e)) = Some e'
      /\ 0 <= e'
      /\ (0 <= e - energy_cost -> e' == e - energy_cost)
      /\ (e - energy_cost < 0 -> e' == 0)
      /\ (shield_active (fst (take_shield_hit energy_cost a (Some e))) = true
          <-> 0 < e')
      /\ (shield_active (fst (take_shield_hit energy_cost a (Some e))) = false
          -> shield_duration (fst (take_shield_hit energy_cost a (Some e)))
             == 0))
/\ (forall ws, health (fst (take_shield_hit energy_cost a ws)) = health a).
Proof.
split; [reflexivity|]. split; [|split].
- intro S. unfold take_shield_hit. rewrite S. reflexivity.
- intro S. unfold take_shield_hit. rewrite S. cbn.
  exists (if e - energy_cost <? 0 then 0 else e - energy_cost).
  cmp_cases; cbn; rewrite ?S;
    (split; [reflexivity|]);
    (split; [lra|]); (split; [intros; lra|]); (split; [intros; lra|]);
    (split; [split; intro; try reflexivity; try discriminate; lra|]);
    intro; try discriminate; reflexivity.
- intro ws. unfold take_shield_hit. destruct ws; [|reflexivity].
  branches; reflexivity.
Qed.

(** X5.  [lose_life] always takes one life and never touches the score,
  the fuel or the shield.  With a life left it puts the aircraft back on
  the runway (position (100, 500), no velocity, level, on the ground,
  not taken off, gear down, no thrust) at full health and invulnerable
  for 2 seconds; with no life left it changes nothing else, so the
  health stays as it was. *)
Theorem lose_life_respawn (a : t) :
let a' := lose_life a in
lives a' = (lives a - 1)%Z
/\ score a' = score a /\ fuel a' = fuel a
/\ shield_active a' = shield_active a
/\ shield_duration a' = shield_duration a
/\ ((1 < lives a)%Z ->
    position a' = vec2 100 GROUND_LEVEL /\ velocity a' = vec2 0 0
    /\ angle a' == 0 /\ on_ground a' = true /\ has_taken_off a' = false
    /\ gear_down a' = true /\ thrust a' == 0
    /\ health a' = max_health a
    /\ invulnerable a' = true /\ invulnerable_timer a' == 2.0)
/\ ((lives a <= 1)%Z -> a' = with_lives (lives a - 1)%Z a).
Proof.
unfold lose_life. cbv zeta.
cbn [lives with_lives].
destruct (0 <? lives a - 1)%Z eqn:L.
- apply Z.ltb_lt in L. cbn.
  repeat split; try reflexivity. lia.
- apply Z.ltb_ge in L. cbn.
  repeat split; try reflexivity; lia.
Qed.

(** The invulnerability window through one update: without the flag
  nothing changes; with it the timer goes down by the time step and the
  flag stays exactly if the timer is still positive. *)
Lemma update_window_step (dt : Q) (a : t) (ws : option Q) :
let a' := fst (update dt a ws) in
(invulnerable a = false ->
 invulnerable a' = false /\ invulnerable_timer a' = invulnerable_timer a)
/\ (invulnerable a = true ->
    invulnerable_timer a' = invulnerable_timer a - dt
    /\ (invulnerable a' = true <-> 0 < invulnerable_timer a')).
Proof.
cbv zeta.
destruct (update_window dt a ws) as [W1 W2]. rewrite W1, W2.
unfold update_invulnerability.
destruct (invulnerable a) eqn:V; cbn.
- split; [discriminate|]. intros _.
  destruct (invulnerable_timer a - dt <=? 0) eqn:C;
    [apply leb_spec in C|apply leb_false in C]; cbn;
    (split; [reflexivity|]); split; intro K;
    try discriminate; try lra; try exact V.
- split; [intros _; split; [exact V|reflexivity]|discriminate].
Qed.

(** Along a run of updates, an aircraft that has lost the flag has no
  time left on the timer. *)
Lemma run_window_closed (steps : list Q) :
forall (a : t) (ws : option Q),
  (invulnerable a = false -> invulnerable_timer a <= 0) ->
  invulnerable (fst (run_aircraft steps (a, ws))) = false ->
  invulnerable_timer (fst (run_aircraft steps (a, ws))) <= 0.
Proof.
induction steps as [|dt rest IH]; intros a ws J.
- exact J.
- cbn [run_aircraft fst snd].
  pose proof (update_window_step dt a ws) as S. cbv zeta in S.
  destruct (update dt a ws) as [a1 ws1]. cbn [fst snd] in *.
  apply IH. intro V1. destruct S as [S0 S1].
  destruct (invulnerable a) eqn:V.
  + destruct (S1 eq_refl) as [_ I].
    apply Qnot_lt_le. intro P. apply I in P. congruence.
  + destruct (S0 eq_refl) as [_ ->]. apply J. reflexivity.
Qed.

(** After at least one update, the flag is set only with time left. *)
Lemma run_window_open (steps : list Q) :
forall (a : t) (ws : option Q),
  steps <> [] ->
  invulnerable (fst (run_aircraft steps (a, ws))) = true ->
  0 < invulnerable_timer (fst (run_aircraft steps (a, ws))).
Proof.
induction steps as [|dt rest IH]; intros a ws N; [congruence|].
cbn [run_aircraft fst snd].
pose proof (update_window_step dt a ws) as S. cbv zeta in S.
destruct (update dt a ws) as [a1 ws1]. cbn [fst snd] in *.
destruct rest as [|dt2 rest].
- cbn [run_aircraft fst]. intro V1. destruct S as [S0 S1].
  destruct (invulnerable a) eqn:V.
  + apply (S1 eq_refl). exact V1.
  + destruct (S0 eq_refl) as [F _]. congruence.
- apply IH. discriminate.
Qed.

(** With time steps that are not negative the timer never rises. *)
Lemma run_window_falls (steps : list Q) :
forall (a : t) (ws : option Q),
  Forall (fun dt => 0 <= dt) steps ->
  invulnerable_timer (fst (run_aircraft steps (a, ws)))
  <= invulnerable_timer a.
Proof.
induction steps as [|dt rest IH]; intros a ws P.
- cbn. lra.
- inversion P as [|? ? P0 Pr]; subst.
  cbn [run_aircraft fst snd].
  pose proof (update_window_step dt a ws) as S. cbv zeta in S.
  destruct (update dt a ws) as [a1 ws1]. cbn [fst snd] in *.
  pose proof (IH a1 ws1 Pr) as L. destruct S as [S0 S1].
  destruct (invulnerable a).
  + destruct (S1 eq_refl) as [E _]. rewrite E in L. lra.
  + destruct (S0 eq_refl) as [_ E]. rewrite E in L. exact L.
Qed.

(** X6.  An invulnerability window lasts exactly as long as its timer
  stays positive.  Through any sequence of updates of an invulnerable
  aircraft: if the timer is still positive afterwards, the aircraft is
  still invulnerable and a hit of any amount is rejected without
  changing it; after at least one update the aircraft is invulnerable
  only if the timer is positive; and with time steps that are not
  negative the timer never rises.  This covers the 0.2 s after a hit
  and the 2 s after a respawn. *)
Theorem invulnerability_lasts (steps : list Q) (amount : Q) (a : t)
(ws : option Q) :
invulnerable a = true ->
let a' := fst (run_aircraft steps (a, ws)) in
(0 < invulnerable_timer a' ->
 invulnerable a' = true /\ take_damage amount a' = (false, a'))
/\ (steps <> [] -> invulnerable a' = true -> 0 < invulnerable_timer a')
/\ (Forall (fun dt => 0 <= dt) steps ->
    invulnerable_timer a' <= invulnerable_timer a).
Proof.
intros V a'.
split; [|split; [apply run_window_open|apply run_window_falls]].
intro P.
assert (V' : invulnerable a' = true).
{ destruct (invulnerable a') eqn:E; [reflexivity|].
  apply run_window_closed in E; [subst a'; lra|].
  intro F. congruence. }
split; [exact V'|].
unfold take_damage. rewrite V'. reflexivity.
Qed.

(** X7.  How an airborne aircraft comes back to the ground.  An update
  sets [on_ground] exactly when the motion of that update reaches ground
  level inside the landing envelope, and no update clears
  [has_taken_off].  The one other way down is the respawn: [lose_life]
  with a life left puts the aircraft on the ground and clears
  [has_taken_off]; with no life left it leaves both flags.  Damage,
  shield hits, healing, refuelling, the shield, the score and a crash
  leave both flags as they are. *)
Theorem airborne_until_landing (dt amount energy_cost duration points : Q)
(a : t) (ws : option Q) :
let m := air_motion dt a in
let a' := fst (update dt a ws) in
(on_ground a = false ->
 (on_ground a' = true <->
  GROUND_LEVEL <= y (position m) /\ landing_envelope m))
/\ (has_taken_off a = true -> has_taken_off a' = true)
/\ (on_ground (lose_life a) = true <-> on_ground a = true \/ (1 < lives a)%Z)
/\ (has_taken_off (lose_life a) = true <->
    has_taken_off a = true /\ (lives a <= 1)%Z)
/\ (forall b : t,
      In b [snd (take_damage amount a);
            fst (take_shield_hit energy_cost a ws);
            heal amount a; add_fuel amount a;
            activate_shield duration a; add_score points a; crash a] ->
      on_ground b = on_ground a /\ has_taken_off b = has_taken_off a).
Proof.
intros m a'.
pose proof (update_observed dt a ws) as O. cbv zeta in O. fold a' in O.
destruct O as (_ & _ & _ & OG & OT & _).
rewrite OG, OT. unfold physics.
assert (M : on_ground m = on_ground a /\ has_taken_off m = has_taken_off a).
{ subst m. unfold air_motion. branches; split; reflexivity. }
destruct M as [MG MT].
split.
{ intro G. rewrite G. unfold _update_air_physics. fold m. cbv zeta.
  destruct (_check_landing_spec m) as [L K].
  destruct (GROUND_LEVEL <=? y (position m)) eqn:Y.
  + apply leb_spec in Y.
    split.
    * intro On. split; [exact Y|].
      destruct (landing_envelope_dec m) as [_ D].
      destruct ((RUNWAY_X_START <=? x (position m))
                && (x (position m) <=? RUNWAY_X_END)
                && ((Py.abs (y (velocity m)) <=? MAX_LANDING_SPEED)
                    && (Py.abs (angle m) <=? MAX_LANDING_ANGLE))) eqn:E.
      -- apply landing_envelope_dec. exact E.
      -- exfalso.
         assert (N : ~ landing_envelope m).
         { intro I. apply D in I. congruence. }
         rewrite (K N) in On. cbn in On. congruence.
    * intros [_ I]. rewrite (L I). reflexivity.
  + apply leb_false in Y. split; [intro On; congruence|].
    intros [Y' _]. lra. }
split.
{ intro T. destruct (on_ground a).
  + unfold _update_ground_physics.
    assert (R : has_taken_off (ground_roll dt a) = has_taken_off a)
      by reflexivity.
    cbv zeta. destruct (_ && _); cbn; [reflexivity|congruence].
  + unfold _update_air_physics. fold m. cbv zeta.
    destruct (_ <=? _); [|congruence].
    unfold _check_landing, land, crash. branches; congruence. }
assert (LL : (on_ground (lose_life a) = true
              <-> on_ground a = true \/ (1 < lives a)%Z)
             /\ (has_taken_off (lose_life a) = true
                 <-> has_taken_off a = true /\ (lives a <= 1)%Z)).
{ unfold lose_life. cbv zeta. cbn [lives with_lives].
  destruct (0 <? lives a - 1)%Z eqn:L;
    [apply Z.ltb_lt in L|apply Z.ltb_ge in L]; cbn.
  - split; split.
    + intros _. right. lia.
    + intros _. reflexivity.
    + discriminate.
    + intros [_ K]. lia.
  - split; split.
    + intro G. left. exact G.
    + intros [G|K]; [exact G|lia].
    + intro T. split; [exact T|lia].
    + intros [T _]. exact T. }
split; [apply LL|]. split; [apply LL|].
intros b I. cbn [In] in I.
repeat match type of I with
       | _ \/ _ => destruct I as [I|I]
       end;
  try contradiction; subst b.
- unfold take_damage. branches; split; reflexivity.
- unfold take_shield_hit. destruct ws; [|split; reflexivity].
  branches; split; reflexivity.
- split; reflexivity.
- split; reflexivity.
- split; reflexivity.
- split; reflexivity.
- split; reflexivity.
Qed.

End Lives.

(** X6 on an aircraft that has just been hit: three frames of 0.05 s
    later the timer is still positive and a hit of 50 is rejected. *)
Lemma invulnerability_lasts_witness :
  let hit := snd (Aircraft.take_damage 10 Scene.cruising) in
  let a' := fst (@run_aircraft rational_math [0.05; 0.05; 0.05] (hit, None)) in
  Aircraft.invulnerable hit = true
  /\ 0 < Aircraft.invulnerable_timer a'
  /\ Aircraft.invulnerable a' = true
  /\ Aircraft.take_damage 50 a' = (false, a').
Proof.
  cbv zeta.
  assert (V : Aircraft.invulnerable (snd (Aircraft.take_damage 10 Scene.cruising))
              = true) by reflexivity.
  assert (T : 0 < Aircraft.invulnerable_timer
                    (fst (@run_aircraft rational_math [0.05; 0.05; 0.05]
                            (snd (Aircraft.take_damage 10 Scene.cruising), None))))
    by (vm_compute; reflexivity).
  destruct (@invulnerability_lasts rational_math [0.05; 0.05; 0.05] 50
              (snd (Aircraft.take_damage 10 Scene.cruising)) None V)
    as (K & _).
  destruct (K T) as [V' D].
  split; [exact V|]. split; [exact T|]. split; [exact V'|exact D].
Defined.

(** ** The weapon system: volleys, the laser beam, cooldowns and pools *)

Section Arsenal.
Context `{PyMath}.
Import WeaponSystem.

(** X8.  A primary shot that the cooldown allows always succeeds and adds
  its volley at the end of the bullet list: one bullet straight ahead at
  level 1, two parallel bullets 10 above and 10 below at level 2, three
  bullets at 0, +15 and -15 degrees from level 3 on, and no bullet at all
  at a level below 1 (the shot still succeeds and restarts the
  cooldown).  Every bullet of the volley is active with damage 15.  The
  weapon system after the shot is the one before it with the volley
  added and the primary cooldown restarted: no other attribute
  changes. *)
Theorem primary_volley (aircraft : Aircraft.t) (w : t) :
get primary (cooldowns w) <= 0 ->
let w' := snd (fire_primary aircraft w) in
let pos := Aircraft.position aircraft in
fst (fire_primary aircraft w) = true
/\ (exists volley : list Bullet.t,
      w' = with_bullets (bullets w ++ volley)
             (with_cooldowns
                (set primary (get primary (cooldown_times w)) (cooldowns w))
                w)
      /\ bullets w' = bullets w ++ volley
      /\ ((primary_level w = 1)%Z -> volley = [Bullet.init pos 0 15])
      /\ ((primary_level w = 2)%Z ->
          volley = [Bullet.init (vadd pos (vec2 0 (-10))) 0 15;
                    Bullet.init (vadd pos (vec2 0 10)) 0 15])
      /\ ((3 <= primary_level w)%Z ->
          volley = [Bullet.init pos 0 15; Bullet.init pos 15 15;
                    Bullet.init pos (-15) 15])
      /\ ((primary_level w <= 0)%Z -> volley = [])
      /\ Forall (fun b => Bullet.active b = true /\ Bullet.damage b == 15)
           volley)
/\ cooldowns w' = set primary (get primary (cooldown_times w)) (cooldowns w)
/\ cooldown_times w' = cooldown_times w
/\ missiles w' = missiles w /\ lasers w' = lasers w
/\ missile_count w' = missile_count w /\ max_missiles w' = max_missiles w
/\ laser_charge w' = laser_charge w
/\ max_laser_charge w' = max_laser_charge w
/\ is_charging_laser w' = is_charging_laser w
/\ shield_energy w' = shield_energy w
/\ max_shield_energy w' = max_shield_energy w
/\ primary_level w' = primary_level w.
Proof.
intros C w' pos. subst w'.
assert (C' : (0 <? get primary (cooldowns w)) = false)
  by (apply ltb_false; exact C).
unfold fire_primary. rewrite C'. cbv zeta.
cbn [primary_level with_cooldowns].
fold pos.
destruct (primary_level w =? 1)%Z eqn:L1;
  [|destruct (primary_level w =? 2)%Z eqn:L2;
    [|destruct (3 <=? primary_level w)%Z eqn:L3]];
  cbn; (split; [reflexivity|]);
  (split; [|repeat split; reflexivity]).
- eexists. split; [reflexivity|]. split; [reflexivity|].
  apply Z.eqb_eq in L1.
  split; [reflexivity|]. repeat split; try (intros; lia).
  repeat constructor.
- eexists. split; [reflexivity|]. split; [reflexivity|].
  apply Z.eqb_eq in L2.
  split; [intros; lia|]. split; [reflexivity|].
  repeat split; try (intros; lia). repeat constructor.
- eexists. split; [reflexivity|]. split; [reflexivity|].
  apply Z.leb_le in L3.
  split; [intros; lia|]. split; [intros; lia|]. split; [reflexivity|].
  split; [intros; lia|]. repeat constructor.
- exists []. rewrite app_nil_r. split; [reflexivity|].
  split; [reflexivity|].
  apply Z.eqb_neq in L1. apply Z.eqb_neq in L2. apply Z.leb_gt in L3.
  repeat split; try (intros; lia). constructor.
Qed.

(** X9.  The beam that a charge buys grows with the charge and is capped:
  of two charges the larger gives at least the damage and the width of
  the smaller, and no charge gives more than 80 damage or a width above
  25 (the charge counts up to 100 only). *)
Theorem laser_power_monotone (position : Vector2) (c1 c2 : Q) :
c1 <= c2 ->
PlasmaLaser.damage (PlasmaLaser.init position c1)
<= PlasmaLaser.damage (PlasmaLaser.init position c2)
/\ PlasmaLaser.width (PlasmaLaser.init position c1)
   <= PlasmaLaser.width (PlasmaLaser.init position c2)
/\ PlasmaLaser.damage (PlasmaLaser.init position c2) <= 80
/\ PlasmaLaser.width (PlasmaLaser.init position c2) <= 25.
Proof.
intro L. unfold PlasmaLaser.init. cbn. unfold Py.min.
cmp_cases; repeat split; lra.
Qed.

(** X10.  The contact damage of a beam fired by [fire_laser] (which asks
  for a charge of at least 30): a point is hit exactly when it lies
  strictly to the right of the muzzle and less than half the beam width
  above or below it; a point that is hit takes between 0.48 and 1.6 per
  query, 2% of the beam's damage, and any other point takes 0. *)
Theorem laser_contact_damage (position pos : Vector2) (charge : Q) :
30 <= charge ->
let beam := PlasmaLaser.init position charge in
let d := PlasmaLaser.get_damage_at_position pos beam in
(0 < d <->
 x position < x pos
 /\ Qabs (y pos - y position) < PlasmaLaser.width beam / 2)
/\ (0 < d -> d == PlasmaLaser.damage beam * 0.02 /\ 0.48 <= d /\ d <= 1.6)
/\ (d == 0 \/ 0 < d).
Proof.
intros C beam d.
assert (D : 24 <= PlasmaLaser.damage beam /\ PlasmaLaser.damage beam <= 80).
{ subst beam. unfold PlasmaLaser.init. cbn. unfold Py.min.
  cmp_cases; split; lra. }
assert (P : PlasmaLaser.position beam = position) by reflexivity.
subst d. unfold PlasmaLaser.get_damage_at_position, Py.abs. rewrite P.
clearbody beam.
destruct (Qabs (y pos - y position) <? PlasmaLaser.width beam / 2) eqn:A;
  destruct (x position <? x pos) eqn:B; cbn [andb];
  try apply ltb_spec in A; try apply ltb_false in A;
  try apply ltb_spec in B; try apply ltb_false in B.
- split; [split; [intros _; split; assumption|intros _; lra]|].
  split; [intros _; split; [reflexivity|split; lra]|right; lra].
- split; [split; [intro Z; lra|intros [Z _]; lra]|].
  split; [intro Z; lra|left; reflexivity].
- split; [split; [intro Z; lra|intros [_ Z]; lra]|].
  split; [intro Z; lra|left; reflexivity].
- split; [split; [intro Z; lra|intros [Z _]; lra]|].
  split; [intro Z; lra|left; reflexivity].
Qed.




End Arsenal.

(** X8 on [Scene.armed] raised to level 3: three bullets. *)
Lemma primary_volley_witness :
  let w := WeaponSystem.with_primary_level 3 Scene.armed in
  WeaponSystem.get WeaponSystem.primary (WeaponSystem.cooldowns w) <= 0
  /\ fst (@WeaponSystem.fire_primary rational_math Scene.cruising w) = true
  /\ length (WeaponSystem.bullets
               (snd (@WeaponSystem.fire_primary rational_math Scene.cruising w)))
     = 3%nat.
Proof.
  cbv zeta.
  assert (C : WeaponSystem.get WeaponSystem.primary
                (WeaponSystem.cooldowns
                   (WeaponSystem.with_primary_level 3 Scene.armed)) <= 0)
    by (vm_compute; discriminate).
  destruct (@primary_volley rational_math Scene.cruising
              (WeaponSystem.with_primary_level 3 Scene.armed) C)
    as (F & (volley & _ & B & _ & _ & V3 & _) & _).
  split; [exact C|]. split; [exact F|].
  rewrite B, (V3 ltac:(cbn; lia)). reflexivity.
Defined.

(** X9 on the charges 30 and 100. *)
Lemma laser_power_monotone_witness :
  30 <= 100
  /\ PlasmaLaser.damage (PlasmaLaser.init (vec2 150 300) 30)
     <= PlasmaLaser.damage (PlasmaLaser.init (vec2 150 300) 100).
Proof.
  assert (L : 30 <= 100) by (vm_compute; discriminate).
  split; [exact L|].
  exact (proj1 (laser_power_monotone (vec2 150 300) 30 100 L)).
Defined.

(** X10 on a full beam from (150, 300): a point at (400, 305) is hit. *)
Lemma laser_contact_damage_witness :
  30 <= 100
  /\ 0 < PlasmaLaser.get_damage_at_position (vec2 400 305)
           (PlasmaLaser.init (vec2 150 300) 100).
Proof.
  assert (L : 30 <= 100) by (vm_compute; discriminate).
  split; [exact L|].
  apply (proj1 (laser_contact_damage (vec2 150 300) (vec2 400 305) 100 L)).
  split; vm_compute; reflexivity.
Defined.


(** ** The weapon system: resource pools and projectile lists *)

Section Pools.
Context `{PyMath}.
Import WeaponSystem.

(** The pools and their caps after an update of the weapon system. *)
Lemma weapon_update_pools (dt : Q) (heap : Heap) (w : t) :
0 <= dt -> pools_ok w -> pools_ok (update dt heap w).
Proof.
intros D P. unfold update. cbv zeta.
set (w1 := with_cooldowns _ w).
assert (P1 : pools_ok w1) by exact P.
clearbody w1.
set (w2 := if is_charging_laser w1 && _ then _ else w1).
assert (P2 : pools_ok w2).
{ subst w2. destruct P1 as (M & (L0 & L1) & S).
  destruct (is_charging_laser w1 && _); [|repeat split; tauto].
  split; [exact M|]. split; [|exact S]. cbn.
  unfold Py.min. cmp_cases; split; lra. }
clearbody w2.
set (w3 := if negb (is_charging_laser w2) && _ then _ else w2).
assert (P3 : pools_ok w3).
{ subst w3. destruct P2 as (M & (L0 & L1) & S).
  destruct (negb (is_charging_laser w2) && _); [|repeat split; tauto].
  split; [exact M|]. split; [|exact S]. cbn.
  unfold Py.min. cmp_cases; split; lra. }
clearbody w3.
set (w4 := if shield_energy w3 <? _ then _ else w3).
assert (P4 : pools_ok w4).
{ subst w4. destruct P3 as (M & L & (S0 & S1)).
  destruct (shield_energy w3 <? _); [|repeat split; tauto].
  split; [exact M|]. split; [exact L|]. cbn.
  unfold Py.min. cmp_cases; split; lra. }
clearbody w4. exact P4.
Qed.

(** X12.  The resource pools stay within their caps.  A weapon system
  whose missile count, laser charge and shield energy lie between 0 and
  their maxima keeps this through an update, through every fire method
  whether the shot is allowed or refused, through the shield key,
  through upgrades and missile pick-ups, and through the drain that the
  aircraft applies to the shield energy; a new weapon system starts
  within them. *)
Theorem weapon_pools_invariant (dt : Q) (heap : Heap) (aircraft : Aircraft.t)
(count : Z) (w : t) :
0 <= dt -> (0 <= count)%Z -> pools_ok w ->
pools_ok init
/\ pools_ok (update dt heap w)
/\ pools_ok (snd (fire_primary aircraft w))
/\ pools_ok (snd (fire_missile aircraft w))
/\ pools_ok (snd (fire_laser aircraft w))
/\ pools_ok (snd (fst (activate_shield aircraft w)))
/\ pools_ok (snd (upgrade_primary w))
/\ pools_ok (add_missiles count w)
/\ pools_ok (snd (SkyFury.update_aircraft dt aircraft w)).
Proof.
intros D K P.
split; [unfold pools_ok; cbn; repeat split; try lia; lra|].
split; [apply weapon_update_pools; assumption|].
destruct P as ((M0 & M1) & (L0 & L1) & (S0 & S1)).
split.
{ unfold fire_primary, pools_ok. branches; repeat split; assumption. }
split.
{ unfold fire_missile, pools_ok.
  destruct (0 <? get missile (cooldowns w)); cbn;
    [repeat split; assumption|].
  destruct (missile_count w <=? 0)%Z eqn:E; cbn;
    [repeat split; assumption|].
  apply Z.leb_gt in E. repeat split; try assumption; lia. }
split.
{ unfold fire_laser, pools_ok.
  destruct (0 <? get laser (cooldowns w)); cbn;
    [repeat split; assumption|].
  destruct (laser_charge w <? 30); cbn; repeat split; try assumption; lra. }
split.
{ unfold activate_shield, pools_ok.
  destruct (0 <? get shield (cooldowns w)); cbn;
    [repeat split; assumption|].
  destruct (shield_energy w <? 40) eqn:E; cbn;
    [repeat split; assumption|].
  apply ltb_false in E. repeat split; try assumption; lra. }
split.
{ unfold upgrade_primary, pools_ok. branches; repeat split; assumption. }
split.
{ unfold add_missiles, pools_ok. cbn. repeat split; try assumption; lia. }
unfold SkyFury.update_aircraft.
destruct (update_shield_stage dt aircraft (Some (shield_energy w))) as [_ E].
cbv zeta in E.
destruct (Aircraft.update dt aircraft (Some (shield_energy w))) as [a' e'].
cbn [snd] in E. subst e'.
unfold Aircraft.update_shield.
destruct (Aircraft.shield_active (Aircraft.update_invulnerability dt aircraft));
  [|cbn; repeat split; assumption].
cbn. unfold pools_ok.
cmp_cases; cbn; repeat split; try assumption; lra.
Qed.

(** What [update] leaves in the three projectile lists. *)
Lemma weapon_update_lists (dt : Q) (heap : Heap) (w : t) :
bullets (update dt heap w)
= filter Bullet.active (map (Bullet.update dt) (bullets w))
/\ lasers (update dt heap w)
   = filter PlasmaLaser.active (map (PlasmaLaser.update dt) (lasers w)).
Proof.
unfold update. cbv zeta.
set (w1 := with_cooldowns _ w).
set (w2 := if is_charging_laser w1 && _ then _ else w1).
set (w3 := if negb (is_charging_laser w2) && _ then _ else w2).
set (w4 := if shield_energy w3 <? _ then _ else w3).
assert (E : bullets w4 = bullets w /\ lasers w4 = lasers w).
{ subst w4 w3 w2 w1. branches; split; reflexivity. }
clearbody w4. cbn. destruct E as [-> ->]. split; reflexivity.
Qed.

(** A filtered image holds only images that pass the filter. *)
Lemma filter_map_spec {A : Type} (f : A -> A) (p : A -> bool) (l : list A) :
Forall (fun y => p y = true /\ exists x, In x l /\ y = f x)
  (filter p (map f l))
/\ (length (filter p (map f l)) <= length l)%nat.
Proof.
split.
- apply Forall_forall. intros y I. apply filter_In in I.
  destruct I as [I P]. apply in_map_iff in I. destruct I as (x & E & I).
  split; [exact P|]. exists x. split; [exact I|]. symmetry. exact E.
- rewrite <- (length_map f l). apply filter_length_le.
Qed.

(** X13.  An update of the weapon system sweeps its projectile lists:
  every bullet, missile and beam left in a list is active and is the
  update of one that was in the list before (missiles are updated here
  with an empty list of enemies), so no list grows. *)
Theorem weapon_update_sweeps (dt : Q) (heap : Heap) (w : t) :
let w' := update dt heap w in
Forall (fun b => Bullet.active b = true
                 /\ exists b0, In b0 (bullets w) /\ b = Bullet.update dt b0)
  (bullets w')
/\ Forall (fun m => HomingMissile.active m = true
                    /\ exists m0, In m0 (missiles w)
                                  /\ m = HomingMissile.update dt heap [] m0)
     (missiles w')
/\ Forall (fun l => PlasmaLaser.active l = true
                    /\ exists l0, In l0 (lasers w)
                                  /\ l = PlasmaLaser.update dt l0)
     (lasers w')
/\ (length (bullets w') <= length (bullets w))%nat
/\ (length (missiles w') <= length (missiles w))%nat
/\ (length (lasers w') <= length (lasers w))%nat.
Proof.
intro w'. subst w'.
destruct (weapon_update_lists dt heap w) as [-> ->].
rewrite weapon_update_missiles.
repeat split; apply filter_map_spec.
Qed.

(** One upgrade raises a level below 3 by one and refuses any other. *)
Lemma upgrade_primary_level (w : t) :
((primary_level w < 3)%Z ->
 upgrade_primary w = (true, with_primary_level (primary_level w + 1)%Z w))
/\ ((3 <= primary_level w)%Z -> upgrade_primary w = (false, w)).
Proof.
unfold upgrade_primary.
destruct (primary_level w <? 3)%Z eqn:E;
  [apply Z.ltb_lt in E|apply Z.ltb_ge in E];
  split; intro; try reflexivity; lia.
Qed.

(** X14.  Upgrades of the primary weapon saturate at level 3: after [n]
  upgrades a level that started at 3 or below is the smaller of 3 and
  the start plus [n]; from level 3 on an upgrade is refused and changes
  nothing. *)
Theorem upgrades_saturate (n : nat) (w : t) :
(primary_level w <= 3)%Z ->
primary_level (upgrades n w) = Z.min 3 (primary_level w + Z.of_nat n)
/\ (primary_level (upgrades n w) = 3%Z ->
    upgrade_primary (upgrades n w) = (false, upgrades n w)).
Proof.
intro L.
assert (E : primary_level (upgrades n w)
            = Z.min 3 (primary_level w + Z.of_nat n)).
{ revert w L. induction n as [|n IH]; intros w L.
  - cbn [upgrades]. lia.
  - cbn [upgrades].
    destruct (upgrade_primary_level w) as [U1 U2].
    destruct (Z.lt_ge_cases (primary_level w) 3) as [B|B].
    + rewrite (U1 B). cbn [snd]. rewrite IH; cbn; lia.
    + rewrite (U2 B). cbn [snd]. rewrite IH; lia. }
split; [exact E|].
intro T. apply (proj2 (upgrade_primary_level (upgrades n w))). lia.
Qed.

End Pools.

(** X12 on [Scene.armed]: a frame of 0.016 s and a pick-up of 3 missiles. *)
Lemma weapon_pools_invariant_witness :
  pools_ok Scene.armed
  /\ pools_ok (@WeaponSystem.update rational_math 0.016
                 (fun _ => Enemy.view Scene.drone) Scene.armed)
  /\ pools_ok (WeaponSystem.add_missiles 3 Scene.armed).
Proof.
  assert (D : 0 <= 0.016) by (vm_compute; discriminate).
  assert (K : (0 <= 3)%Z) by lia.
  assert (P : pools_ok Scene.armed).
  { unfold pools_ok. cbn. repeat split; try lia; vm_compute; discriminate. }
  destruct (@weapon_pools_invariant rational_math 0.016
              (fun _ => Enemy.view Scene.drone) Scene.cruising 3 Scene.armed
              D K P)
    as (_ & U & _ & _ & _ & _ & _ & A & _).
  exact (conj P (conj U A)).
Defined.

(** X14 on a new weapon system upgraded five times. *)
Lemma upgrades_saturate_witness :
  (WeaponSystem.primary_level WeaponSystem.init <= 3)%Z
  /\ WeaponSystem.primary_level (upgrades 5 WeaponSystem.init) = 3%Z.
Proof.
  assert (L : (WeaponSystem.primary_level WeaponSystem.init <= 3)%Z)
    by (cbn; lia).
  split; [exact L|].
  exact (proj1 (upgrades_saturate 5 WeaponSystem.init L)).
Defined.

(** ** Projectiles: expiry, angle normalization and inactivity *)

Section Projectiles.
Context `{PyMath}.

(** Steering touches the angle alone. *)
Lemma steer_keeps (heap : Heap) (m : HomingMissile.t) :
HomingMissile.active (HomingMissile.steer heap m) = HomingMissile.active m
/\ HomingMissile.lifetime (HomingMissile.steer heap m)
   = HomingMissile.lifetime m.
Proof.
unfold HomingMissile.steer.
destruct (HomingMissile.target m); [|split; reflexivity].
branches; split; reflexivity.
Qed.

(** The lifetime and the activity of a missile after an update. *)
Lemma missile_update_clock (dt : Q) (heap : Heap) (enemies : list Ref)
(m : HomingMissile.t) :
let m' := HomingMissile.update dt heap enemies m in
HomingMissile.lifetime m' = HomingMissile.lifetime m - dt
/\ (HomingMissile.lifetime m - dt <= 0 ->
    m' = HomingMissile.with_active false
           (HomingMissile.with_lifetime (HomingMissile.lifetime m - dt) m))
/\ (HomingMissile.active m = false -> HomingMissile.active m' = false)
/\ (HomingMissile.active m' = true -> HomingMissile.active m = true).
Proof.
intro m'. subst m'. unfold HomingMissile.update. cbv zeta.
cbn [HomingMissile.lifetime HomingMissile.with_lifetime].
destruct (HomingMissile.lifetime m - dt <=? 0) eqn:E.
- cbn. repeat split; try reflexivity. discriminate.
- apply leb_false in E.
  set (m1 := if negb _ then _ else _).
  assert (K1 : HomingMissile.active m1 = HomingMissile.active m
               /\ HomingMissile.lifetime m1 = HomingMissile.lifetime m - dt).
  { subst m1. destruct (negb _); split; reflexivity. }
  clearbody m1.
  destruct (steer_keeps heap m1) as [A L].
  set (m2 := HomingMissile.steer heap m1) in *. clearbody m2.
  destruct K1 as [K1 K2]. rewrite K1 in A. rewrite K2 in L.
  destruct (off_screen _); cbn; rewrite ?A, ?L;
    repeat split; try reflexivity; intros; try assumption;
    try discriminate; lra.
Qed.

(** X15.  A missile burns out with its lifetime.  Every update lowers
  the lifetime by its time step, and the update that brings it to 0 or
  below only switches the missile off, without retargeting, turning or
  moving it.  So after any sequence of at least one update, a missile
  whose lifetime is at or below 0 is inactive, whatever targets it was
  offered on the way, and a missile that is still active was active
  before and has lifetime left. *)
Theorem missile_expires (steps : list (Q * Heap * list Ref))
(m : HomingMissile.t) :
steps <> [] ->
let m' := run_missile steps m in
(HomingMissile.lifetime m' <= 0 -> HomingMissile.active m' = false)
/\ (HomingMissile.active m' = true ->
    0 < HomingMissile.lifetime m' /\ HomingMissile.active m = true)
/\ (forall dt heap enemies,
      HomingMissile.lifetime (HomingMissile.update dt heap enemies m)
      = HomingMissile.lifetime m - dt
      /\ (HomingMissile.lifetime m - dt <= 0 ->
          HomingMissile.update dt heap enemies m
          = HomingMissile.with_active false
              (HomingMissile.with_lifetime
                 (HomingMissile.lifetime m - dt) m))).
Proof.
intros N m'.
assert (G : forall (steps : list (Q * Heap * list Ref)) (m : HomingMissile.t),
           steps <> [] ->
           HomingMissile.active (run_missile steps m) = true ->
           0 < HomingMissile.lifetime (run_missile steps m)
           /\ HomingMissile.active m = true).
{ clear. intro steps. induction steps as [|[[dt heap] enemies] rest IH];
    intros m N A; [congruence|].
  cbn [run_missile] in *.
  destruct (missile_update_clock dt heap enemies m) as (C1 & C2 & _ & C4).
  cbv zeta in C1, C2, C4.
  destruct rest as [|s rest].
  - cbn [run_missile] in *. split; [|apply C4; exact A].
    apply Qnot_le_lt. intro L. rewrite C1 in L. apply C2 in L.
    rewrite L in A. cbn in A. discriminate.
  - destruct (IH (HomingMissile.update dt heap enemies m)) as [P Q];
      [discriminate|exact A|].
    split; [exact P|apply C4; exact Q]. }
split.
{ intro L. destruct (HomingMissile.active m') eqn:A; [|reflexivity].
  destruct (G steps m N A) as [P _]. fold m' in P. lra. }
split; [apply G; exact N|].
intros dt heap enemies.
destruct (missile_update_clock dt heap enemies m) as (C1 & C2 & _).
split; [exact C1|exact C2].
Qed.

(** Inside the range the loops do nothing. *)
Lemma wrap_in_range (n : nat) (d : Q) :
(d <= 180 -> HomingMissile.wrap_down n d = d)
/\ (-180 <= d -> HomingMissile.wrap_up n d = d).
Proof.
destruct n as [|n]; cbn; [split; reflexivity|].
split; intro L.
- assert (E : (180 <? d) = false) by (apply ltb_false; exact L).
  rewrite E. reflexivity.
- assert (E : (d <? -180) = false) by (apply ltb_false; exact L).
  rewrite E. reflexivity.
Qed.

(** X16.  The two [while] loops that normalize the turn angle of a
  missile end with an angle between -180 and 180 that differs from the
  given one by a whole number of turns; an angle already in that range
  is returned as it is, so normalizing twice is normalizing once. *)
Theorem angle_normalization (d : Q) :
let n := HomingMissile.normalize_angle d in
(-180 <= n /\ n <= 180)
/\ (exists k : Z, n == d + 360 * inject_Z k)
/\ (-180 <= d -> d <= 180 -> n = d)
/\ HomingMissile.normalize_angle n = n.
Proof.
intro n. subst n.
assert (I : forall a : Q, -180 <= a -> a <= 180 ->
                          HomingMissile.normalize_angle a = a).
{ intros a L U. unfold HomingMissile.normalize_angle. cbv zeta.
  rewrite (proj1 (wrap_in_range _ a) U).
  apply (proj2 (wrap_in_range _ a) L). }
destruct (normalize_angle_spec d) as (L & U & K).
split; [split; assumption|]. split; [exact K|].
split; [exact (I d)|]. apply I; assumption.
Qed.

(** X17.  Inactivity is final.  No update and no hit brings an inactive
  object back: an inactive bullet, missile, beam or enemy projectile is
  inactive after its update, an inactive enemy or boss is returned
  unchanged by its update without firing, and damage taken by an
  inactive enemy or boss leaves it inactive. *)
Theorem inactive_is_final (dt amount rnd : Q) (heap : Heap)
(enemies : list Ref) (player_pos : Vector2) :
(forall b, Bullet.active b = false ->
           Bullet.active (Bullet.update dt b) = false)
/\ (forall m, HomingMissile.active m = false ->
              HomingMissile.active (HomingMissile.update dt heap enemies m)
              = false)
/\ (forall l, PlasmaLaser.active l = false ->
              PlasmaLaser.active (PlasmaLaser.update dt l) = false)
/\ (forall p, EnemyProjectile.active p = false ->
              EnemyProjectile.active (EnemyProjectile.update dt p) = false)
/\ (forall e, Enemy.active e = false ->
              Enemy.update dt player_pos rnd e = Some ([], e)
              /\ Enemy.active (snd (Enemy.take_damage amount e)) = false)
/\ (forall b, Boss.active b = false ->
              Boss.update dt player_pos rnd b = Some ([], b)
              /\ Boss.active (snd (Boss.take_damage amount b)) = false).
Proof.
split.
{ intros b A. unfold Bullet.update. branches; try reflexivity; exact A. }
split.
{ intros m A.
  destruct (missile_update_clock dt heap enemies m) as (_ & _ & K & _).
  apply K. exact A. }
split.
{ intros l A. unfold PlasmaLaser.update. branches; try reflexivity; exact A. }
split.
{ intros p A. unfold EnemyProjectile.update.
  branches; try reflexivity; exact A. }
split.
{ intros e A. split.
  - unfold Enemy.update. rewrite A. reflexivity.
  - unfold Enemy.take_damage. branches; try reflexivity; exact A. }
intros b A. split.
- unfold Boss.update. rewrite A. reflexivity.
- unfold Boss.take_damage. branches; try reflexivity; exact A.
Qed.

End Projectiles.

(** X15 on a missile on screen at (100, 100) with 0.01 s of its
    lifetime left and an active target in sight: one frame of 0.016 s
    switches it off where it is. *)
Lemma missile_expires_witness :
  let m := HomingMissile.with_lifetime 0.01 Scene.locked_missile in
  let steps := [(0.016, Scene.two_enemies, [0%nat; 1%nat])] in
  let m' := @run_missile rational_math steps m in
  steps <> []
  /\ HomingMissile.active m = true
  /\ HomingMissile.lifetime m' <= 0
  /\ HomingMissile.active m' = false
  /\ HomingMissile.position m' = vec2 100 100.
Proof.
  cbv zeta.
  assert (N : [(0.016, Scene.two_enemies, [0%nat; 1%nat])]
              <> ([] : list (Q * Heap * list Ref))) by discriminate.
  assert (L : HomingMissile.lifetime
                (@run_missile rational_math
                   [(0.016, Scene.two_enemies, [0%nat; 1%nat])]
                   (HomingMissile.with_lifetime 0.01 Scene.locked_missile))
              <= 0)
    by (vm_compute; discriminate).
  destruct (@missile_expires rational_math
              [(0.016, Scene.two_enemies, [0%nat; 1%nat])]
              (HomingMissile.with_lifetime 0.01 Scene.locked_missile) N)
    as (D & _ & _).
  split; [exact N|]. split; [reflexivity|]. split; [exact L|].
  split; [exact (D L)|reflexivity].
Defined.

(** ** Enemies: hits, shooting and errors *)

Section Enemies.
Context `{PyMath}.

(** After a hit, an enemy whose health is not positive is inactive. *)
Lemma enemy_hit_down (amount : Q) (e : Enemy.t) :
let e' := snd (Enemy.take_damage amount e) in
Enemy.health e' = Enemy.health e - amount
/\ (Enemy.health e' <= 0 -> Enemy.active e' = false)
/\ (0 < Enemy.health e' -> Enemy.active e' = Enemy.active e)
/\ (fst (Enemy.take_damage amount e) = true <-> Enemy.health e' <= 0).
Proof.
unfold Enemy.take_damage. cbv zeta. cbn [Enemy.health Enemy.with_health].
destruct (Enemy.health e - amount <=? 0) eqn:E;
  [apply leb_spec in E|apply leb_false in E]; cbn;
  (split; [reflexivity|]); (split; [intro; try reflexivity; lra|]);
  (split; [intro; try reflexivity; lra|]);
  split; intro; try reflexivity; try discriminate; lra.
Qed.

(** X18.  Hits on an enemy.  [take_damage] subtracts the amount from
  the health with no floor and reports destruction exactly when the
  health is then at or below 0.  After any sequence of at least one hit,
  an enemy whose health is at or below 0 is inactive.  If no amount is
  negative, the health never rises, and an enemy whose health is still
  positive is as active as it was before the hits. *)
Theorem enemy_hits_accumulate (amounts : list Q) (e : Enemy.t) :
amounts <> [] ->
let e' := hits amounts e in
(Enemy.health e' <= 0 -> Enemy.active e' = false)
/\ (Forall (fun amount => 0 <= amount) amounts ->
    Enemy.health e' <= Enemy.health e
    /\ (0 < Enemy.health e' -> Enemy.active e' = Enemy.active e))
/\ (forall amount : Q,
      Enemy.health (snd (Enemy.take_damage amount e))
      = Enemy.health e - amount
      /\ (fst (Enemy.take_damage amount e) = true
          <-> Enemy.health e - amount <= 0)).
Proof.
intros N e'.
assert (D : forall (l : list Q) (e0 : Enemy.t),
           (Enemy.health e0 <= 0 -> Enemy.active e0 = false) ->
           Enemy.health (hits l e0) <= 0 ->
           Enemy.active (hits l e0) = false).
{ clear. intro l. induction l as [|a l IH]; intros e0 I L.
  - exact (I L).
  - unfold hits in *. cbn [fold_left] in *.
    apply IH; [|exact L]. apply (enemy_hit_down a e0). }
assert (K : forall (l : list Q) (e0 : Enemy.t),
           Forall (fun amount => 0 <= amount) l ->
           Enemy.health (hits l e0) <= Enemy.health e0
           /\ (0 < Enemy.health (hits l e0) ->
               Enemy.active (hits l e0) = Enemy.active e0)).
{ clear. intro l. induction l as [|a l IH]; intros e0 F.
  - cbn. split; [lra|reflexivity].
  - unfold hits in *. cbn [fold_left].
    inversion F as [|a0 l0 Fa Fl]; subst.
    destruct (enemy_hit_down a e0) as (Eh & _ & Ea & _). cbv zeta in Eh, Ea.
    destruct (IH (snd (Enemy.take_damage a e0)) Fl) as [M A].
    rewrite Eh in M.
    split; [lra|]. intro P. rewrite (A P). apply Ea. rewrite Eh. lra. }
split.
{ subst e'. destruct amounts as [|a l]; [congruence|].
  unfold hits. cbn [fold_left]. apply D. apply (enemy_hit_down a e). }
split; [apply K|].
intro amount.
destruct (enemy_hit_down amount e) as (Eh & _ & _ & Ef). cbv zeta in Eh, Ef.
split; [exact Eh|]. rewrite <- Eh. exact Ef.
Qed.

(** The five movement rules and the shooting. *)
Lemma _update_drone_fires dt p r e :
fire_rule 2.0 1 e (Enemy._update_drone dt p r e).
Proof.
unfold Enemy._update_drone, fire_rule. cbv zeta.
set (e2 := Enemy.with_position _ (Enemy.with_position _ e)).
assert (C : Enemy.attack_cooldown e2 = Enemy.attack_cooldown e) by reflexivity.
assert (T : Enemy.type e2 = Enemy.type e) by reflexivity.
assert (A : Enemy.active e2 = Enemy.active e) by reflexivity.
clearbody e2.
destruct (Enemy.attack_cooldown e2 <=? 0) eqn:E1; cbn [andb];
  [apply leb_spec in E1|cbn; repeat split; auto].
destruct (50 <? x (Enemy.position e2)) eqn:E2; cbn [andb];
  [apply ltb_spec in E2|cbn; repeat split; auto].
destruct (x (Enemy.position e2) <? 750) eqn:E3; cbn [andb];
  [apply ltb_spec in E3|cbn; repeat split; auto].
destruct (r <? 0.02); cbn; [|repeat split; auto].
repeat split; auto.
- repeat constructor.
- right. rewrite <- C. repeat split; auto.
Qed.

Lemma _update_bomber_fires dt p e :
fire_rule 2.5 1 e (Enemy._update_bomber dt p e).
Proof.
unfold Enemy._update_bomber, fire_rule. cbv zeta.
set (e2 := Enemy.with_position _ (Enemy.with_position _ e)).
assert (C : Enemy.attack_cooldown e2 = Enemy.attack_cooldown e) by reflexivity.
assert (T : Enemy.type e2 = Enemy.type e) by reflexivity.
assert (A : Enemy.active e2 = Enemy.active e) by reflexivity.
clearbody e2.
destruct (Enemy.attack_cooldown e2 <=? 0) eqn:E1; cbn [andb];
  [apply leb_spec in E1|cbn; repeat split; auto].
destruct (50 <? x (Enemy.position e2)) eqn:E2; cbn [andb];
  [apply ltb_spec in E2|cbn; repeat split; auto].
destruct (x (Enemy.position e2) <? 750) eqn:E3; cbn [andb];
  [apply ltb_spec in E3|cbn; repeat split; auto].
destruct (_ <? 100); cbn; [|repeat split; auto].
repeat split; auto.
- repeat constructor.
- right. rewrite <- C. repeat split; auto.
Qed.

Lemma _update_elite_fires dt p r e :
fire_rule 1.2 3 e (Enemy._update_elite dt p r e).
Proof.
unfold Enemy._update_elite, fire_rule. cbv zeta.
set (e2 := Enemy.with_position _ (Enemy.with_position _ e)).
assert (C : Enemy.attack_cooldown e2 = Enemy.attack_cooldown e) by reflexivity.
assert (T : Enemy.type e2 = Enemy.type e) by reflexivity.
assert (A : Enemy.active e2 = Enemy.active e) by reflexivity.
clearbody e2.
destruct (Enemy.attack_cooldown e2 <=? 0) eqn:E1; cbn [andb];
  [apply leb_spec in E1|cbn; repeat split; auto].
destruct (100 <? x (Enemy.position e2)) eqn:E2; cbn [andb];
  [apply ltb_spec in E2|cbn; repeat split; auto].
destruct (x (Enemy.position e2) <? 700) eqn:E3; cbn [andb];
  [apply ltb_spec in E3|cbn; repeat split; auto].
destruct (r <? 0.04); cbn [fst snd map length]; [|cbn; repeat split; auto].
repeat split; auto.
- repeat constructor.
- right. rewrite <- C. cbn. repeat split; auto; lra.
Qed.

Lemma _update_kamikaze_fires dt p e :
fire_rule 0 0 e ([], Enemy._update_kamikaze dt p e).
Proof.
unfold Enemy._update_kamikaze, fire_rule. cbn [fst snd].
destruct (0 <? _); [|repeat split; auto].
destruct (vnormalize _); cbn; repeat split; auto.
Qed.

(** The gunship aims its shot; the aiming raises if the player is where
  the gunship is. *)
Lemma _update_gunship_fires dt p r e :
match Enemy._update_gunship dt p r e with
| Some s => fire_rule 1.8 1 e s
| None => Enemy.attack_cooldown e <= 0 /\ r < 0.03
end.
Proof.
unfold Enemy._update_gunship, fire_rule. cbv zeta.
set (e2 := if 5 <? _ then _ else _).
assert (K : Enemy.attack_cooldown e2 = Enemy.attack_cooldown e
            /\ Enemy.type e2 = Enemy.type e
            /\ Enemy.active e2 = Enemy.active e).
{ subst e2. destruct (5 <? _); repeat split; reflexivity. }
clearbody e2. destruct K as (C & T & A).
destruct (Enemy.attack_cooldown e2 <=? 0) eqn:E1; cbn [andb];
  [apply leb_spec in E1|cbn; repeat split; auto].
destruct (100 <? x (Enemy.position e2)) eqn:E2; cbn [andb];
  [apply ltb_spec in E2|cbn; repeat split; auto].
destruct (x (Enemy.position e2) <? 700) eqn:E3; cbn [andb];
  [apply ltb_spec in E3|cbn; repeat split; auto].
destruct (r <? 0.03) eqn:E4; [apply ltb_spec in E4|cbn; repeat split; auto].
unfold bind. cbn [Enemy.position Enemy.with_attack_cooldown].
destruct (vnormalize _); [|split; [rewrite <- C; exact E1|exact E4]].
cbn. repeat split; auto.
- repeat constructor.
- right. rewrite <- C. repeat split; auto; lra.
Qed.

(** The rule of the enemy's type, as [update] applies it. *)
Lemma movement_fires dt p r e :
match match Enemy.type e with
      | Enemy.drone => Some (Enemy._update_drone dt p r e)
      | Enemy.bomber => Some (Enemy._update_bomber dt p e)
      | Enemy.gunship => Enemy._update_gunship dt p r e
      | Enemy.elite => Some (Enemy._update_elite dt p r e)
      | Enemy.kamikaze => Some ([], Enemy._update_kamikaze dt p e)
      end with
| Some s => fire_rule (fire_cooldown (Enemy.type e)) (volley_size (Enemy.type e)) e s
| None => Enemy.type e = Enemy.gunship
          /\ Enemy.attack_cooldown e <= 0 /\ r < 0.03
end.
Proof.
destruct (Enemy.type e) eqn:T; cbn [fire_cooldown volley_size].
- apply _update_drone_fires.
- apply _update_bomber_fires.
- pose proof (_update_gunship_fires dt p r e) as G.
  destruct (Enemy._update_gunship dt p r e); [exact G|].
  split; [reflexivity|exact G].
- apply _update_elite_fires.
- apply _update_kamikaze_fires.
Qed.

(** The enemy that the movement rules of [update] work on. *)
Lemma update_unfold dt p r e :
Enemy.active e = true ->
exists e1 : Enemy.t,
  Enemy.type e1 = Enemy.type e
  /\ Enemy.active e1 = true
  /\ Enemy.attack_cooldown e1 = Py.max 0 (Enemy.attack_cooldown e - dt)
  /\ Enemy.update dt p r e
     = ' (projectiles, e) <-
           match Enemy.type e1 with
           | Enemy.drone => Some (Enemy._update_drone dt p r e1)
           | Enemy.bomber => Some (Enemy._update_bomber dt p e1)
           | Enemy.gunship => Enemy._update_gunship dt p r e1
           | Enemy.elite => Some (Enemy._update_elite dt p r e1)
           | Enemy.kamikaze => Some ([], Enemy._update_kamikaze dt p e1)
           end ;;
       Some (projectiles,
             if x (Enemy.position e) <? -100
             then Enemy.with_active false e else e).
Proof.
intro A. unfold Enemy.update. rewrite A. cbn [negb]. cbv zeta.
set (e1 := match Enemy.state _ with Enemy.spawn => _ | Enemy.move => _ end).
exists e1.
assert (K : Enemy.type e1 = Enemy.type e /\ Enemy.active e1 = true
            /\ Enemy.attack_cooldown e1
               = Py.max 0 (Enemy.attack_cooldown e - dt)).
{ subst e1. destruct (Enemy.state _); cbn; auto. }
destruct K as (K1 & K2 & K3). repeat split; assumption.
Qed.

(** X19.  The shooting of an enemy.  An update of an enemy whose attack
  cooldown outlasts the time step fires nothing and lowers the cooldown
  by the step.  When it fires, the enemy was active and is no kamikaze,
  lies between x = 50 and x = 750, restarts its cooldown at the value of
  its type (drone 2.0, bomber 2.5, gunship 1.8, elite 1.2) and fires the
  volley of its type (three projectiles for an elite, one otherwise).
  Every projectile starts active at the enemy's new position with
  damage 8.  An enemy that ends left of x = -100 is inactive. *)
Theorem enemy_fire_discipline (dt : Q) (player_pos : Vector2) (rnd : Q)
(e e' : Enemy.t) (ps : list EnemyProjectile.t) :
Enemy.update dt player_pos rnd e = Some (ps, e') ->
(0 < Enemy.attack_cooldown e - dt ->
 Enemy.active e = true ->
 ps = [] /\ Enemy.attack_cooldown e' == Enemy.attack_cooldown e - dt)
/\ (ps <> [] ->
    Enemy.active e = true
    /\ Enemy.type e <> Enemy.kamikaze
    /\ Enemy.attack_cooldown e - dt <= 0
    /\ Enemy.attack_cooldown e' = fire_cooldown (Enemy.type e)
    /\ length ps = volley_size (Enemy.type e)
    /\ 50 < x (Enemy.position e') /\ x (Enemy.position e') < 750)
/\ Forall (fired_from (Enemy.position e')) ps
/\ (x (Enemy.position e') < -100 -> Enemy.active e' = false).
Proof.
intro U.
destruct (Enemy.active e) eqn:A.
2:{ unfold Enemy.update in U. rewrite A in U. cbn in U.
    inversion U; subst. clear U.
    split; [intros _ D; discriminate|].
    split; [intro N; congruence|].
    split; [constructor|intros _; exact A]. }
destruct (update_unfold dt player_pos rnd e A) as (e1 & T1 & A1 & C1 & E).
rewrite E in U. clear E.
pose proof (movement_fires dt player_pos rnd e1) as M.
destruct (match Enemy.type e1 with
          | Enemy.drone => _ | Enemy.bomber => _ | Enemy.gunship => _
          | Enemy.elite => _ | Enemy.kamikaze => _ end) as [[qs e2]|];
  [|discriminate].
cbn [bind] in U.
unfold fire_rule in M. cbn [fst snd] in M.
destruct M as (T2 & A2 & F & R).
rewrite T1 in *.
assert (P : Enemy.position e' = Enemy.position e2
            /\ Enemy.attack_cooldown e' = Enemy.attack_cooldown e2
            /\ ps = qs
            /\ (x (Enemy.position e2) < -100 -> Enemy.active e' = false)).
{ destruct (x (Enemy.position e2) <? -100) eqn:O;
    [apply ltb_spec in O|apply ltb_false in O];
    inversion U; subst; cbn; repeat split; auto; intro; lra. }
destruct P as (P1 & P2 & P3 & P4). subst qs. rewrite P1, P2. clear U.
assert (Cd : Enemy.attack_cooldown e1 <= 0 -> Enemy.attack_cooldown e - dt <= 0).
{ rewrite C1. pose proof (max_lb_r 0 (Enemy.attack_cooldown e - dt)). lra. }
split.
{ intros L _. destruct R as [[R1 R2]|(R1 & _)]; [|apply Cd in R1; lra].
  split; [exact R1|]. rewrite R2, C1.
  destruct (max_spec 0 (Enemy.attack_cooldown e - dt)) as [[_ ->]|[? _]];
    [reflexivity|lra]. }
split.
{ intro N. destruct R as [[R1 _]|(R1 & R2 & R3 & R4 & R5)]; [congruence|].
  split; [reflexivity|].
  split; [intro K; rewrite K in R3; cbn in R3;
          destruct ps; [congruence|discriminate]|].
  repeat split; auto. }
split; [exact F|exact P4].
Qed.

(** X20.  Which updates of an enemy can raise.  The update of an inactive
  enemy, and of an enemy that is no gunship, always returns; an update
  raises only for an active gunship whose attack cooldown has run out
  and that draws a number below 0.03, that is, when it is about to aim
  a shot. *)
Theorem enemy_update_raises (dt : Q) (player_pos : Vector2) (rnd : Q)
(e : Enemy.t) :
(Enemy.active e = false \/ Enemy.type e <> Enemy.gunship ->
 exists r, Enemy.update dt player_pos rnd e = Some r)
/\ (Enemy.update dt player_pos rnd e = None ->
    Enemy.active e = true /\ Enemy.type e = Enemy.gunship
    /\ Enemy.attack_cooldown e - dt <= 0 /\ rnd < 0.03).
Proof.
destruct (Enemy.active e) eqn:A.
2:{ unfold Enemy.update. rewrite A. cbn.
    split; [intros _; eauto|discriminate]. }
destruct (update_unfold dt player_pos rnd e A) as (e1 & T1 & A1 & C1 & E).
rewrite E. clear E.
pose proof (movement_fires dt player_pos rnd e1) as M.
destruct (match Enemy.type e1 with
          | Enemy.drone => _ | Enemy.bomber => _ | Enemy.gunship => _
          | Enemy.elite => _ | Enemy.kamikaze => _ end) as [[qs e2]|];
  cbn [bind].
- split; [intros _; eauto|discriminate].
- destruct M as (M1 & M2 & M3). rewrite T1 in M1.
  split; [intros [D|D]; [discriminate|contradiction]|].
  intros _. repeat split; auto.
  rewrite C1 in M2. pose proof (max_lb_r 0 (Enemy.attack_cooldown e - dt)). lra.
Qed.

End Enemies.

(** X18 on a drone (health 30) hit twice by a bullet of 15. *)
Lemma enemy_hits_accumulate_witness :
  [15; 15] <> []
  /\ Enemy.health (hits [15; 15] Scene.drone) <= 0
  /\ Enemy.active (hits [15; 15] Scene.drone) = false.
Proof.
  assert (N : [15; 15] <> ([] : list Q)) by discriminate.
  assert (L : Enemy.health (hits [15; 15] Scene.drone) <= 0)
    by (vm_compute; discriminate).
  destruct (enemy_hits_accumulate [15; 15] Scene.drone N) as (D & _).
  split; [exact N|]. split; [exact L|exact (D L)].
Defined.

(** X19 on a drone in mid screen that draws 0.01: it fires one
    projectile and restarts its cooldown at 2.0. *)
Lemma enemy_fire_discipline_witness :
  let e := Enemy.with_position (vec2 400 150) Scene.drone in
  exists ps e',
    @Enemy.update rational_math 0.016 (vec2 150 300) 0.01 e = Some (ps, e')
    /\ length ps = 1%nat
    /\ Enemy.attack_cooldown e' = 2.0.
Proof.
  cbv zeta.
  destruct (@Enemy.update rational_math 0.016 (vec2 150 300) 0.01
              (Enemy.with_position (vec2 400 150) Scene.drone))
    as [[ps e']|] eqn:U; [|vm_compute in U; discriminate].
  exists ps, e'. split; [reflexivity|].
  destruct (@enemy_fire_discipline rational_math 0.016 (vec2 150 300) 0.01
              (Enemy.with_position (vec2 400 150) Scene.drone) e' ps U)
    as (_ & F & _).
  assert (N : ps <> []).
  { vm_compute in U. inversion U. discriminate. }
  destruct (F N) as (_ & _ & _ & C & L & _).
  split; [exact L|exact C].
Defined.

(** ** The boss: phases, the entry glide and the attack bursts *)

Section BossPhases.
Context `{PyMath}.
Import Boss.

(** The phase check either leaves the boss alone or moves it one phase up
  and opens a transition window of 2 seconds. *)
Lemma check_phase_transitions_spec (b : t) :
let c := check_phase_transitions b in
(c = b /\ (phase b = 1%Z -> 0.66 < health b / max_health b))
\/ (phase b = 1%Z /\ health b / max_health b <= 0.66
    /\ c = with_phase_transition_timer 2.0 (with_phase 2 b))
\/ (phase b = 2%Z /\ health b / max_health b <= 0.33
    /\ c = with_phase_transition_timer 2.0 (with_phase 3 b)).
Proof.
unfold check_phase_transitions. cbv zeta.
destruct (health b / max_health b <=? 0.66) eqn:E1;
  [apply leb_spec in E1|apply leb_false in E1]; cbn [andb].
- destruct (phase b =? 1)%Z eqn:P1; [apply Z.eqb_eq in P1|apply Z.eqb_neq in P1].
  + right. left. auto.
  + destruct (health b / max_health b <=? 0.33) eqn:E2;
      [apply leb_spec in E2|apply leb_false in E2]; cbn [andb].
    * destruct (phase b =? 2)%Z eqn:P2;
        [apply Z.eqb_eq in P2|apply Z.eqb_neq in P2].
      -- right. right. auto.
      -- left. split; [reflexivity|intro; contradiction].
    * left. split; [reflexivity|intro; contradiction].
- destruct (health b / max_health b <=? 0.33) eqn:E2;
    [apply leb_spec in E2; lra|]. cbn [andb].
  left. split; [reflexivity|intros _; exact E1].
Qed.

(** The attack patterns and the movement keep the phase. *)
Lemma attack_keeps_phase dt p r (c : t) qs d :
match type c with
| hive_queen => _hive_queen_attack dt p c
| aegis_defender => _aegis_defender_attack dt p c
| final_destroyer => _final_destroyer_attack dt p r c
end = Some (qs, d) ->
d = c \/ d = with_attack_timer 0 c.
Proof.
destruct (type c); intro A.
- eapply _hive_queen_attack_boss; exact A.
- eapply _aegis_defender_attack_boss; exact A.
- eapply _final_destroyer_attack_boss; exact A.
Qed.

(** X21.  The phases of a boss only go up, one at a time.  An update
  either keeps the phase or raises it by one, from 1 at 66% of the
  health or below and from 2 at 33% or below; the update that raises the
  phase fires nothing and leaves 2.0 minus the time step on the
  transition timer.  A boss in phase 1 at or below 66% always moves on
  to phase 2, even when its health is already below 33%: phase 3 takes a
  second update. *)
Theorem boss_phase_progress (dt : Q) (player_pos : Vector2) (rnd : Q)
(b b' : t) (ps : list EnemyProjectile.t) :
update dt player_pos rnd b = Some (ps, b') ->
(phase b' = phase b
 \/ (phase b' = (phase b + 1)%Z
     /\ (phase b = 1%Z /\ health b / max_health b <= 0.66
         \/ phase b = 2%Z /\ health b / max_health b <= 0.33)
     /\ active b = true /\ entered b = true
     /\ ps = []
     /\ phase_transition_timer b' = 2.0 - dt))
/\ (active b = true -> entered b = true -> phase b = 1%Z ->
    health b / max_health b <= 0.66 ->
    phase b' = 2%Z /\ ps = []).
Proof.
unfold update.
destruct (active b) eqn:A; cbn [negb];
  [|intro E; inversion E; subst; split; [auto|intros; congruence]].
cbv zeta. cbn [entered with_attack_timer with_move_timer].
destruct (entered b) eqn:N; cbn [negb].
2:{ destruct (_ <? _); intro E; inversion E; subst; cbn;
      (split; [auto|intros; congruence]). }
set (b1 := with_attack_timer _ (with_move_timer _ b)).
assert (K : phase b1 = phase b /\ health b1 = health b
            /\ max_health b1 = max_health b) by (repeat split).
destruct K as (K1 & K2 & K3).
pose proof (check_phase_transitions_spec b1) as C. cbv zeta in C.
rewrite K1, K2, K3 in C.
set (c := check_phase_transitions b1) in *. clearbody c.
destruct C as [[-> C]|[(P & Hp & ->)|(P & Hp & ->)]].
- destruct (0 <? phase_transition_timer b1).
  + intro E; inversion E; subst. cbn.
    split; [left; reflexivity|]. intros _ _ P1 Hp. apply C in P1. lra.
  + unfold bind.
    destruct (match type b1 with
              | hive_queen => _ | aegis_defender => _ | final_destroyer => _
              end) as [[qs d]|] eqn:At; [|discriminate].
    intro E; inversion E; subst.
    apply attack_keeps_phase in At.
    split; [left; destruct At; subst; reflexivity|].
    intros _ _ P1 Hp. apply C in P1. lra.
- cbn. intro E; inversion E; subst. cbn.
  split; [right; rewrite P; repeat split; auto|].
  intros. split; reflexivity.
- cbn. intro E; inversion E; subst. cbn.
  split; [right; rewrite P; repeat split; auto|].
  intros _ _ P1 _. rewrite P in P1. discriminate.
Qed.



End BossPhases.

(** X21 on a hive queen in combat at 500 of 800 health, still in phase 1. *)
Lemma boss_phase_progress_witness :
  let b := Boss.with_health 500
             (Boss.with_entered true
                (Boss.with_position (vec2 650 300) Scene.queen)) in
  exists ps b',
    @Boss.update rational_math 0.016 (vec2 150 300) 0.5 b = Some (ps, b')
    /\ Boss.phase b' = 2%Z /\ ps = [].
Proof.
  cbv zeta.
  destruct (@Boss.update rational_math 0.016 (vec2 150 300) 0.5
              (Boss.with_health 500
                 (Boss.with_entered true
                    (Boss.with_position (vec2 650 300) Scene.queen))))
    as [[ps b']|] eqn:U; [|vm_compute in U; discriminate].
  exists ps, b'. split; [reflexivity|].
  apply (proj2 (@boss_phase_progress rational_math 0.016 (vec2 150 300) 0.5
                  _ b' ps U));
    try reflexivity.
  vm_compute. discriminate.
Defined.


(** ** The boss: attack bursts *)

Section BossBursts.
Context `{PyMath}.
Import Boss.

Lemma aimed_fired (c : t) (p : Vector2) (speed : Q) (q : EnemyProjectile.t) :
aimed (with_attack_timer 0 c) p speed = Some q -> fired_from (position c) q.
Proof.
unfold aimed, bind. destruct (vnormalize _); [|discriminate].
intro E. inversion E. repeat split.
Qed.

Ltac burst_idle := split; [constructor|]; split; [cbn; lia|]; left; split; reflexivity.

(** A burst listed shot by shot. *)
Ltac burst_fired :=
unfold range; cbn [seq map app fst snd];
split;
[repeat first
   [ apply Forall_nil
   | apply Forall_cons;
     [first [eapply aimed_fired; eassumption | repeat split]|] ]
|split; [cbn [length]; lia|right; split; [discriminate|reflexivity]]].

Lemma _hive_queen_attack_burst dt p c r :
_hive_queen_attack dt p c = Some r -> burst c r.
Proof.
unfold _hive_queen_attack, burst. cbv zeta.
destruct (phase c =? 1)%Z; [|destruct (phase c =? 2)%Z].
- destruct (2.0 <=? attack_timer c); intro E; injection E as E; subst r;
    [burst_fired|burst_idle].
- destruct (1.5 <=? attack_timer c);
    [|intro E; injection E as E; subst r; burst_idle].
  unfold bind. destruct (aimed _ p 6) as [q|] eqn:Aq; [|discriminate].
  intro E; injection E as E; subst r. burst_fired.
- destruct (0.1 <=? attack_timer c); intro E; injection E as E; subst r;
    [burst_fired|burst_idle].
Qed.

Lemma _aegis_defender_attack_burst dt p c r :
_aegis_defender_attack dt p c = Some r -> burst c r.
Proof.
unfold _aegis_defender_attack, burst. cbv zeta.
destruct (phase c =? 1)%Z; [|destruct (phase c =? 2)%Z].
- destruct (0.5 <=? attack_timer c);
    [|intro E; injection E as E; subst r; burst_idle].
  unfold bind. destruct (aimed _ p 5) as [q|] eqn:Aq; [|discriminate].
  intro E; injection E as E; subst r. burst_fired.
- destruct (0.4 <=? attack_timer c);
    [|intro E; injection E as E; subst r; burst_idle].
  unfold bind. destruct (aimed _ p 6) as [q|] eqn:Aq; [|discriminate].
  intro E; injection E as E; subst r. burst_fired.
- destruct (0.15 <=? attack_timer c); intro E; injection E as E; subst r;
    [burst_fired|burst_idle].
Qed.

Lemma _final_destroyer_attack_burst dt p rnd c r :
_final_destroyer_attack dt p rnd c = Some r -> burst c r.
Proof.
unfold _final_destroyer_attack, burst. cbv zeta.
destruct (phase c =? 1)%Z; [|destruct (phase c =? 2)%Z].
- destruct (1.5 <=? attack_timer c); intro E; injection E as E; subst r;
    [burst_fired|burst_idle].
- destruct (1.2 <=? attack_timer c); intro E; injection E as E; subst r;
    [burst_fired|burst_idle].
- destruct (0.08 <=? attack_timer c);
    [|intro E; injection E as E; subst r; burst_idle].
  destruct (rnd <? 0.1).
  + unfold bind. destruct (aimed _ p 8) as [q|] eqn:Aq; [|discriminate].
    intro E; injection E as E; subst r. burst_fired.
  + intro E; injection E as E; subst r. burst_fired.
Qed.

(** X23.  The bursts of a boss.  Every projectile that an update of a
  boss returns starts active at the position the boss had before the
  update, with damage 8, and no update returns more than 16.  An update
  that fires belongs to an active boss that has entered and is in no
  transition window; it restarts the attack timer at 0, keeps the boss
  at its x and puts its height between 100 and 500. *)
Theorem boss_attack_burst (dt : Q) (player_pos : Vector2) (rnd : Q)
(b b' : t) (ps : list EnemyProjectile.t) :
update dt player_pos rnd b = Some (ps, b') ->
Forall (fired_from (position b)) ps
/\ (length ps <= 16)%nat
/\ (ps <> [] ->
    active b = true /\ entered b = true
    /\ phase_transition_timer b' <= 0
    /\ attack_timer b' = 0
    /\ x (position b') = x (position b)
    /\ 100 <= y (position b') /\ y (position b') <= 500).
Proof.
assert (Idle : Forall (fired_from (position b)) []
               /\ (length (@nil EnemyProjectile.t) <= 16)%nat
               /\ (@nil EnemyProjectile.t <> [] ->
                   active b = true /\ entered b = true
                   /\ phase_transition_timer b' <= 0
                   /\ attack_timer b' = 0
                   /\ x (position b') = x (position b)
                   /\ 100 <= y (position b') /\ y (position b') <= 500)).
{ split; [constructor|]. split; [cbn; lia|]. intro N. congruence. }
unfold update.
destruct (active b) eqn:A; cbn [negb]; [|intro E; inversion E; subst; exact Idle].
cbv zeta. cbn [entered with_attack_timer with_move_timer].
destruct (entered b) eqn:N; cbn [negb].
2:{ destruct (_ <? _); intro E; inversion E; subst; exact Idle. }
set (b1 := with_attack_timer _ (with_move_timer _ b)).
set (c := check_phase_transitions b1).
assert (K : position c = position b).
{ subst c b1. unfold check_phase_transitions. branches; reflexivity. }
clearbody c. clear b1.
destruct (0 <? phase_transition_timer c) eqn:T;
  [intro E; inversion E; subst; exact Idle|apply ltb_false in T].
unfold bind.
destruct (match type c with
          | hive_queen => _ | aegis_defender => _ | final_destroyer => _
          end) as [[qs d]|] eqn:At; [|discriminate].
intro E; inversion E; subst. clear E.
assert (B : burst c (ps, d)).
{ destruct (type c).
  - eapply _hive_queen_attack_burst; exact At.
  - eapply _aegis_defender_attack_burst; exact At.
  - eapply _final_destroyer_attack_burst; exact At. }
destruct B as (F & L & R). cbn [fst snd] in F, L, R. rewrite K in F.
split; [exact F|]. split; [exact L|].
intro Ne. destruct R as [[R _]|[_ ->]]; [congruence|].
split; [reflexivity|]. split; [reflexivity|].
unfold _update_movement. cbv zeta.
cbn [phase_transition_timer attack_timer position with_position
     with_attack_timer x y set_y].
split; [exact T|]. split; [reflexivity|]. split; [exact (f_equal x K)|].
split; [apply max_lb_l|].
apply max_ub; [lra|apply min_ub_l].
Qed.

End BossBursts.

(** X23 on a hive queen in combat whose attack timer is due: a fan of
    five projectiles. *)
Lemma boss_attack_burst_witness :
  let b := Boss.with_attack_timer 2
             (Boss.with_entered true
                (Boss.with_position (vec2 650 300) Scene.queen)) in
  exists ps b',
    @Boss.update rational_math 0.016 (vec2 150 300) 0.5 b = Some (ps, b')
    /\ length ps = 5%nat
    /\ Forall (fired_from (vec2 650 300)) ps
    /\ Boss.attack_timer b' = 0.
Proof.
  cbv zeta.
  destruct (@Boss.update rational_math 0.016 (vec2 150 300) 0.5
              (Boss.with_attack_timer 2
                 (Boss.with_entered true
                    (Boss.with_position (vec2 650 300) Scene.queen))))
    as [[ps b']|] eqn:U; [|vm_compute in U; discriminate].
  exists ps, b'. split; [reflexivity|].
  destruct (@boss_attack_burst rational_math 0.016 (vec2 150 300) 0.5
              _ b' ps U) as (F & _ & K).
  assert (L : length ps = 5%nat).
  { vm_compute in U. inversion U. reflexivity. }
  split; [exact L|]. split; [exact F|].
  apply K. intro Z. rewrite Z in L. discriminate.
Defined.

